(** * FlexFlag Python SDK: the evaluation pipeline and its cache providers

    A shallow embedding of [flexflag/types.py], [flexflag/cache.py], the
    start-up and the evaluation pipeline of [flexflag/client.py] and the
    flag wrappers of [flexflag/integrations], with the properties of the
    pipeline stated and proved (or refuted) over it.

    Conventions of the embedding.
    - A Python [str] is a [string]; every character stands for the code point
      of the same number (0..255).
    - A [FlagValue] (and every value that is serialised to JSON: context
      attributes, response bodies) is a [json] value.  Python's [None] is
      [JNull]; floats are not part of the embedding.
    - A Python [dict] that is iterated or serialised is an association list in
      insertion order whose keys are pairwise distinct ([wf_json]); a dict that
      is only looked up and updated is a [gmap].
    - Effects (metrics, cache, clock, network, event handlers, sleeping) are
      threaded through an explicit state, see [Module Client]. *)

From Stdlib Require Import ZArith QArith String Ascii List Lia Permutation.
From Stdlib Require Import DecimalString DecimalZ DecimalPos OrderedTypeEx.
From Stdlib Require Import Lqa.
From stdpp Require Import gmap strings list.

(* ===================================================================== *)
(** * JSON values and [json.dumps(..., sort_keys=True)] *)
(* ===================================================================== *)

Module Json.

Unset Elimination Schemes.
Inductive json : Type :=
| JNull
| JBool (b : bool)
| JInt (n : Z)
| JStr (s : string)
| JList (l : list json)
| JDict (d : list (string * json)).
Set Elimination Schemes.

(** Python truthiness ([if x:]) of a JSON value. *)
Definition truthy (v : json) : bool :=
  match v with
  | JNull => false
  | JBool b => b
  | JInt n => negb (n =? 0)%Z
  | JStr s => negb (String.eqb s EmptyString)
  | JList l => match l with [] => false | _ => true end
  | JDict d => match d with [] => false | _ => true end
  end.

(** [x is not None] *)
Definition is_not_None (v : json) : bool :=
  match v with JNull => false | _ => true end.

(** [d.get(k)] on an insertion-ordered dict: [None] when the key is missing. *)
Fixpoint assoc {A} (k : string) (d : list (string * A)) : option A :=
  match d with
  | [] => None
  | (k', x) :: d' => if String.eqb k k' then Some x else assoc k d'
  end.

Definition dict_get (d : list (string * json)) (k : string) (dflt : json) : json :=
  match assoc k d with Some x => x | None => dflt end.

(** Keys of a dict are pairwise distinct, at every depth. *)
Fixpoint wf_json (v : json) : Prop :=
  match v with
  | JList l => (fix all (l : list json) : Prop :=
                  match l with [] => True | x :: l' => wf_json x /\ all l' end) l
  | JDict d => NoDup (map fst d) /\
               (fix all (d : list (string * json)) : Prop :=
                  match d with [] => True | (_, x) :: d' => wf_json x /\ all d' end) d
  | _ => True
  end.

(** Equality of two values as Python compares dicts and lists: lists
    position by position, dicts by size and key-wise lookup, whatever the
    insertion order.  Scalars are compared as tagged values. *)
Fixpoint same_value (v w : json) : bool :=
  match v, w with
  | JNull, JNull => true
  | JBool a, JBool b => Bool.eqb a b
  | JInt a, JInt b => (a =? b)%Z
  | JStr a, JStr b => String.eqb a b
  | JList l, JList l' =>
      (fix go (l l' : list json) : bool :=
         match l, l' with
         | [], [] => true
         | x :: l, y :: l' => same_value x y && go l l'
         | _, _ => false
         end) l l'
  | JDict d, JDict d' =>
      (length d =? length d')%nat &&
      (fix go (d : list (string * json)) : bool :=
         match d with
         | [] => true
         | (k, x) :: d =>
             match assoc k d' with
             | Some y => same_value x y
             | None => false
             end && go d
         end) d
  | _, _ => false
  end.

(** ** The text produced by the encoder *)

Definition chars (s : string) : list ascii := list_ascii_of_string s.

Definition dquote : ascii := Eval cbv in ascii_of_nat 34.
Definition backslash : ascii := Eval cbv in ascii_of_nat 92.

Definition hex_digit (n : N) : ascii :=
  nth (N.to_nat n) (chars "0123456789abcdef") "0"%char.

(** One character of a string literal, [ensure_ascii=True]: the two-character
    escapes of [ESCAPE_DCT], the printable range [' '..'~'] verbatim, and
    [\u00xx] for every other code point. *)
Definition escape_char (c : ascii) : list ascii :=
  let n := N_of_ascii c in
  if (n =? 34)%N then [backslash; dquote]
  else if (n =? 92)%N then [backslash; backslash]
  else if (n =? 10)%N then [backslash; "n"%char]
  else if (n =? 13)%N then [backslash; "r"%char]
  else if (n =? 9)%N then [backslash; "t"%char]
  else if (n =? 8)%N then [backslash; "b"%char]
  else if (n =? 12)%N then [backslash; "f"%char]
  else if ((32 <=? n) && (n <=? 126))%N then [c]
  else [backslash; "u"%char; "0"%char; "0"%char;
        hex_digit (n / 16); hex_digit (n mod 16)].

Definition escape (s : list ascii) : list ascii := flat_map escape_char s.

Definition quote (s : string) : list ascii :=
  dquote :: escape (chars s) ++ [dquote].

Fixpoint uint_chars (d : Decimal.uint) : list ascii :=
  match d with
  | Decimal.Nil => []
  | Decimal.D0 d => "0"%char :: uint_chars d
  | Decimal.D1 d => "1"%char :: uint_chars d
  | Decimal.D2 d => "2"%char :: uint_chars d
  | Decimal.D3 d => "3"%char :: uint_chars d
  | Decimal.D4 d => "4"%char :: uint_chars d
  | Decimal.D5 d => "5"%char :: uint_chars d
  | Decimal.D6 d => "6"%char :: uint_chars d
  | Decimal.D7 d => "7"%char :: uint_chars d
  | Decimal.D8 d => "8"%char :: uint_chars d
  | Decimal.D9 d => "9"%char :: uint_chars d
  end.

(** [int.__repr__]: decimal digits, a leading minus sign when negative. *)
Definition int_chars (n : Z) : list ascii :=
  match Z.to_int n with
  | Decimal.Pos d => uint_chars d
  | Decimal.Neg d => "-"%char :: uint_chars d
  end.

(** Items separated by [", "] (the default [item_separator]). *)
Fixpoint join_items (items : list (list ascii)) : list ascii :=
  match items with
  | [] => []
  | [x] => x
  | x :: rest => x ++ chars ", " ++ join_items rest
  end.

(** A member of an object: the quoted key, [": "], the encoded value. *)
Definition render_pair (kv : string * list ascii) : list ascii :=
  quote (fst kv) ++ chars ": " ++ snd kv.

(** [sort_keys=True]: the items of a dict ordered by key (code-point
    order on strings).  Keys are distinct, so the order of the result does
    not depend on the sorting algorithm; insertion sort is used here. *)
Fixpoint insert_item {A} (kv : string * A) (l : list (string * A)) : list (string * A) :=
  match l with
  | [] => [kv]
  | kv' :: l' =>
      if String.leb (fst kv) (fst kv') then kv :: l
      else kv' :: insert_item kv l'
  end.

Definition sort_items {A} (l : list (string * A)) : list (string * A) :=
  fold_right insert_item [] l.

(** [json.dumps(v, sort_keys=True)].  The values of a dict are encoded first
    and the (key, text) pairs sorted by key afterwards; sorting looks at keys
    only, so this is the text the encoder emits when it sorts the items and
    then encodes each value. *)
Fixpoint dumps (v : json) : list ascii :=
  match v with
  | JNull => chars "null"
  | JBool true => chars "true"
  | JBool false => chars "false"
  | JInt n => int_chars n
  | JStr s => quote s
  | JList l => "["%char :: join_items (map dumps l) ++ ["]"%char]
  | JDict d =>
      "{"%char ::
        join_items (map render_pair
                      (sort_items (map (fun '(k, x) => (k, dumps x)) d)))
        ++ ["}"%char]
  end.

Definition dumps_str (v : json) : string := string_of_list_ascii (dumps v).

End Json.
Import Json.


(* ===================================================================== *)
(** * Effects: results, exceptions, suspension *)
(* ===================================================================== *)

(** The exceptions the modelled code raises or receives; all of them are
    instances of Python's [Exception]. *)
Inductive exn : Type :=
| ApiStatus (status : Z)        (* Exception(f"API returned status {status}") *)
| BatchApiStatus (status : Z)   (* Exception(f"Batch API returned status {status}") *)
| RetriesExhausted              (* Exception("All retry attempts exhausted") *)
| TransportError (msg : string) (* raised by the HTTP session or the body decoder *)
| CacheError (msg : string).    (* raised by a cache backend *)

(** What awaiting a coroutine leads to: a value, a raised exception, or a
    task that is suspended and never resumed. *)
Inductive outcome (A : Type) : Type :=
| Ret (a : A)
| Raise (e : exn)
| Block.
Arguments Ret {A} a.
Arguments Raise {A} e.
Arguments Block {A}.

Definition M (S A : Type) : Type := S -> outcome A * S.

Definition ret {S A} (a : A) : M S A := fun s => (Ret a, s).
Definition raise {S A} (e : exn) : M S A := fun s => (Raise e, s).
Definition bind {S A B} (m : M S A) (k : A -> M S B) : M S B :=
  fun s =>
    match m s with
    | (Ret a, s') => k a s'
    | (Raise e, s') => (Raise e, s')
    | (Block, s') => (Block, s')
    end.
(** [try: m  except Exception as e: h e] *)
Definition try_catch {S A} (m : M S A) (h : exn -> M S A) : M S A :=
  fun s =>
    match m s with
    | (Raise e, s') => h e s'
    | r => r
    end.
Definition gets {S A} (f : S -> A) : M S A := fun s => (Ret (f s), s).
Definition modify {S} (f : S -> S) : M S unit := fun s => (Ret tt, f s).

Notation "'let*' x ':=' m 'in' k" := (bind m (fun x => k))
  (at level 10, x pattern, m at level 100, k at level 200).
Notation "m ';;' k" := (bind m (fun _ => k))
  (at level 100, k at level 200, right associativity).

(** [for x in xs: body x], the state threaded through the iterations. *)
Fixpoint for_each {S A} (xs : list A) (body : A -> M S unit) : M S unit :=
  match xs with
  | [] => ret tt
  | x :: xs' => body x ;; for_each xs' body
  end.

(** [async with lock: body] for an [asyncio.Lock], which is not re-entrant:
    acquiring a lock that is held suspends the task until the holder releases
    it; the lock is released when the body returns or raises. *)
Definition with_lock {S A} (locked : S -> bool) (set_locked : bool -> S -> S)
    (body : M S A) : M S A :=
  fun s =>
    if locked s then (Block, s)
    else
      match body (set_locked true s) with
      | (Block, s') => (Block, s')
      | (r, s') => (r, set_locked false s')
      end.

(* ===================================================================== *)
(** * Cache providers ([flexflag/cache.py]) *)
(* ===================================================================== *)

(** The part of the [CacheProvider] interface the pipeline and the tiered
    cache call.  A provider is its state [C] with the two coroutines. *)
Class CacheProvider (C : Type) : Type := {
  provider_get : string -> M C json;
  provider_set : string -> json -> option Z -> M C unit;
}.

Record CacheConfig : Type := {
  cache_enabled : bool;
  ttl : Z;
  max_size : Z;
  key_prefix : string;
}.

(** [s[n:]] *)
Fixpoint slice_from (n : nat) (s : string) : string :=
  match n, s with
  | O, _ => s
  | S n', String _ s' => slice_from n' s'
  | S _, EmptyString => EmptyString
  end.

(** [[key[len(prefix):] for key in keys if key.startswith(prefix)]] *)
Definition strip_prefix (prefix : string) (keys : list string) : list string :=
  map (slice_from (String.length prefix))
      (List.filter (String.prefix prefix) keys).

Module MemoryCache.

(** [self.cache] is a [cachetools.TTLCache(maxsize=config.max_size,
    ttl=config.ttl)].  [cache] holds the entries of the TTLCache that have
    not expired when a coroutine runs; the passing of time between two
    coroutines, which makes entries expire, is not part of the coroutines.

    A TTLCache that is full evicts the entry used least recently.  The map
    does not keep the order of use: [lru n] names the victim of the [n]-th
    eviction by its position among the keys of the map, and [evictions]
    counts the evictions so far. *)
Record t : Type := {
  config : CacheConfig;
  cache : gmap string json;
  _lock : bool;
  lru : nat -> nat;
  evictions : nat;
}.

Definition set_lock (b : bool) (s : t) : t :=
  {| config := config s; cache := cache s; _lock := b;
     lru := lru s; evictions := evictions s |}.
Definition set_store (m : gmap string json) (s : t) : t :=
  {| config := config s; cache := m; _lock := _lock s;
     lru := lru s; evictions := evictions s |}.

(** [TTLCache.get(key)]: the stored value, [None] for a missing key. *)
Definition get (key : string) : M t json :=
  with_lock _lock set_lock
    (fun s =>
       let prefixed_key := key_prefix (config s) +:+ key in
       (Ret (default JNull (cache s !! prefixed_key)), s)).

(** The [ttl] of the TTLCache, [config.ttl]. *)
Definition config_ttl (s : t) : Z := ttl (config s).

(** [TTLCache.popitem()]: the entry used least recently leaves the cache. *)
Definition popitem (s : t) : t :=
  let keys := map fst (map_to_list (cache s)) in
  let victim := nth (lru s (evictions s) mod length keys) keys EmptyString in
  {| config := config s; cache := base.delete victim (cache s);
     _lock := _lock s; lru := lru s; evictions := S (evictions s) |}.

(** [while self.currsize + 1 > maxsize: self.popitem()]; every turn of the
    loop removes one entry, so the size of the map bounds their number. *)
Fixpoint make_room (turns : nat) (s : t) : t :=
  match turns with
  | O => s
  | S turns' =>
      if (max_size (config s) <? Z.of_nat (base.size (cache s)) + 1)%Z
      then make_room turns' (popitem s)
      else s
  end.

(** [self.cache[prefixed_key] = value]: [TTLCache.__setitem__] raises
    [ValueError("value too large")] when [maxsize] is less than the size 1
    of a value, makes room when the key is new and the cache is full, and
    stores the value to expire [ttl] seconds later; with a [ttl] of 0 or
    less the entry has expired when the next coroutine runs.  The [ttl]
    given to [set] is not used. *)
Definition set (key : string) (value : json) (ttl : option Z) : M t unit :=
  with_lock _lock set_lock
    (fun s =>
       let prefixed_key := key_prefix (config s) +:+ key in
       if (max_size (config s) <? 1)%Z
       then (Raise (CacheError "value too large"), s)
       else
         let s1 := match cache s !! prefixed_key with
                   | Some _ => s
                   | None => make_room (base.size (cache s)) s
                   end in
         (Ret tt,
          set_store (if (0 <? config_ttl s)%Z
                     then <[prefixed_key := value]> (cache s1)
                     else base.delete prefixed_key (cache s1)) s1)).

Definition delete (key : string) : M t unit :=
  with_lock _lock set_lock
    (fun s =>
       let prefixed_key := key_prefix (config s) +:+ key in
       (Ret tt, set_store (base.delete prefixed_key (cache s)) s)).

Definition clear : M t unit :=
  with_lock _lock set_lock
    (fun s => (Ret tt, set_store ∅ s)).

(** [prefixed_key in self.cache] *)
Definition exists_ (key : string) : M t bool :=
  with_lock _lock set_lock
    (fun s =>
       let prefixed_key := key_prefix (config s) +:+ key in
       (Ret (match cache s !! prefixed_key with
             | Some _ => true
             | None => false
             end), s)).

Definition size : M t Z :=
  with_lock _lock set_lock
    (fun s => (Ret (Z.of_nat (base.size (cache s))), s)).

(** The keys are listed in the order of the finite map; the order in which
    the [TTLCache] iterates is not modelled. *)
Definition keys : M t (list string) :=
  with_lock _lock set_lock
    (fun s =>
       let prefix := key_prefix (config s) in
       (Ret (strip_prefix prefix (map fst (map_to_list (cache s)))), s)).

End MemoryCache.

#[export] Instance MemoryCache_provider : CacheProvider MemoryCache.t :=
  {| provider_get := MemoryCache.get; provider_set := MemoryCache.set |}.

Module DiskCache.

(** The SQLite table [cache(key PRIMARY KEY, value, expires_at)] as a map
    from key to row.  [pickle] round-trips a value unchanged, so a row
    holds the value itself.  [now] is what [time.time()] returns. *)
Record t : Type := {
  config : CacheConfig;
  rows : gmap string (json * Q);
  now : Q;
  _lock : bool;
}.

Definition set_lock (b : bool) (s : t) : t :=
  {| config := config s; rows := rows s; now := now s; _lock := b |}.
Definition set_rows (m : gmap string (json * Q)) (s : t) : t :=
  {| config := config s; rows := m; now := now s; _lock := _lock s |}.

Definition delete (key : string) : M t unit :=
  with_lock _lock set_lock
    (fun s =>
       let prefixed_key := key_prefix (config s) +:+ key in
       (Ret tt, set_rows (base.delete prefixed_key (rows s)) s)).

Definition get (key : string) : M t json :=
  with_lock _lock set_lock
    (fun s =>
       let prefixed_key := key_prefix (config s) +:+ key in
       match rows s !! prefixed_key with
       | None => (Ret JNull, s)
       | Some (value_data, expires_at) =>
           if Qlt_le_dec expires_at (now s)
           then (delete key ;; ret JNull) s
           else (Ret value_data, s)
       end).

(** The state when the wall clock reads [t]. *)
Definition at_time (time : Q) (s : t) : t :=
  {| config := config s; rows := rows s; now := time; _lock := _lock s |}.

(** [self.config.ttl] *)
Definition config_ttl (s : t) : Z := ttl (config s).

(** [ttl or self.config.ttl]: a [ttl] of 0 is falsy. *)
Definition ttl_or (ttl : option Z) (configured : Z) : Z :=
  match ttl with
  | Some n => if (n =? 0)%Z then configured else n
  | None => configured
  end.

(** The rows selected by [WHERE expires_at > ?]. *)
Definition live (now : Q) (row : json * Q) : option (json * Q) :=
  if Qlt_le_dec now (snd row) then Some row else None.

(** [DELETE FROM cache WHERE expires_at <= ?]; the coroutine does not take
    the lock. *)
Definition _cleanup_expired : M t unit :=
  fun s => (Ret tt, set_rows (omap (live (now s)) (rows s)) s).

Section Write.

(** The builtin [hash] on strings, which is salted per process, and the
    sum [time.time() + ttl] of a float and an int: the int is converted to
    a float, which raises [OverflowError] when it is too large ([None]),
    and the sum is rounded to the nearest float. *)
Variable hash : string -> Z.
Variable float_add : Q -> Z -> option Q.

(** [INSERT OR REPLACE] of the row, then the sweep when
    [hash(key) % 100 == 0].  The clock reads the same time throughout the
    coroutine. *)
Definition set (key : string) (value : json) (ttl : option Z) : M t unit :=
  with_lock _lock set_lock
    (fun s =>
       let prefixed_key := key_prefix (config s) +:+ key in
       match float_add (now s) (ttl_or ttl (config_ttl s)) with
       | None => (Raise (CacheError "int too large to convert to float"), s)
       | Some expires_at =>
           let s1 := set_rows (<[prefixed_key := (value, expires_at)]> (rows s)) s in
           if (hash key mod 100 =? 0)%Z
           then _cleanup_expired s1
           else (Ret tt, s1)
       end).

End Write.

(** [DELETE FROM cache] *)
Definition clear : M t unit :=
  with_lock _lock set_lock
    (fun s => (Ret tt, set_rows ∅ s)).

Definition exists_ (key : string) : M t bool :=
  with_lock _lock set_lock
    (fun s =>
       let prefixed_key := key_prefix (config s) +:+ key in
       match rows s !! prefixed_key with
       | None => (Ret false, s)
       | Some (_, expires_at) =>
           if Qlt_le_dec expires_at (now s)
           then (delete key ;; ret false) s
           else (Ret true, s)
       end).

(** [SELECT COUNT( * ) FROM cache WHERE expires_at > ?] *)
Definition size : M t Z :=
  with_lock _lock set_lock
    (fun s => (Ret (Z.of_nat (base.size (omap (live (now s)) (rows s)))), s)).

(** [SELECT key FROM cache WHERE expires_at > ?], in the order of the finite
    map (the query has no [ORDER BY]), then the keys of this provider with
    the prefix stripped. *)
Definition keys : M t (list string) :=
  with_lock _lock set_lock
    (fun s =>
       let rows := map fst (map_to_list (omap (live (now s)) (rows s))) in
       let prefix := key_prefix (config s) in
       (Ret (strip_prefix prefix rows), s)).

End DiskCache.

(** A provider whose medium can fail: what a custom [CacheProvider], or a
    backend on a broken connection or a read-only file, does.  [get] and
    [set] raise when the corresponding fault is present. *)
Module FaultyCache.

Record t : Type := {
  entries : gmap string json;
  get_fault : option exn;
  set_fault : option exn;
}.

Definition get (key : string) : M t json :=
  fun s =>
    match get_fault s with
    | Some e => (Raise e, s)
    | None => (Ret (default JNull (entries s !! key)), s)
    end.

Definition set (key : string) (value : json) (ttl : option Z) : M t unit :=
  fun s =>
    match set_fault s with
    | Some e => (Raise e, s)
    | None => (Ret tt, {| entries := <[key := value]> (entries s);
                          get_fault := get_fault s; set_fault := set_fault s |})
    end.

End FaultyCache.

#[export] Instance FaultyCache_provider : CacheProvider FaultyCache.t :=
  {| provider_get := FaultyCache.get; provider_set := FaultyCache.set |}.

(** The other coroutines of the interface that the tiered cache and the
    client call. *)
Class CacheAdmin (C : Type) : Type := {
  provider_delete : string -> M C unit;
  provider_clear : M C unit;
  provider_exists : string -> M C bool;
}.

#[export] Instance MemoryCache_admin : CacheAdmin MemoryCache.t :=
  {| provider_delete := MemoryCache.delete;
     provider_clear := MemoryCache.clear;
     provider_exists := MemoryCache.exists_ |}.

#[export] Instance DiskCache_admin : CacheAdmin DiskCache.t :=
  {| provider_delete := DiskCache.delete;
     provider_clear := DiskCache.clear;
     provider_exists := DiskCache.exists_ |}.

Module TieredCache.

Section Tiers.
Context {C : Type} `{CacheProvider C}.

(** [self.caches] is a list of distinct provider objects, tier 0 first. *)
Record t : Type := {
  caches : list C;
  _lock : bool;
}.

Definition set_lock (b : bool) (s : t) : t :=
  {| caches := caches s; _lock := b |}.

(** Run a coroutine of tier [j] on a list of tiers. *)
Definition at_tier {A} (j : nat) (m : M C A) : M (list C) (option A) :=
  fun cs =>
    match cs !! j with
    | None => (Ret None, cs)
    | Some c =>
        match m c with
        | (Ret a, c') => (Ret (Some a), <[j := c']> cs)
        | (Raise e, c') => (Raise e, <[j := c']> cs)
        | (Block, c') => (Block, <[j := c']> cs)
        end
    end.

(** [for j in range(i): await self.caches[j].set(key, value)] *)
Definition backfill (i : nat) (key : string) (value : json) : M (list C) unit :=
  for_each (seq 0 i) (fun j => at_tier j (provider_set key value None) ;; ret tt).

(** The loop of [get] from tier [i] on; [n] tiers remain to be probed. *)
Fixpoint probe (n i : nat) (key : string) : M (list C) json :=
  match n with
  | O => ret JNull
  | S n' =>
      let* value := at_tier i (provider_get key) in
      match value with
      | Some v =>
          if is_not_None v
          then backfill i key v ;; ret v
          else probe n' (S i) key
      | None => ret JNull
      end
  end.

Definition get (key : string) : M t json :=
  with_lock _lock set_lock
    (fun s =>
       match probe (length (caches s)) 0 key (caches s) with
       | (r, cs) => (r, {| caches := cs; _lock := _lock s |})
       end).

End Tiers.
Arguments t C : clear implicits.

Inductive ValueError : Type :=
| mkValueError (msg : string).

Section TierOps.
Context {C : Type} `{CacheProvider C} `{CacheAdmin C}.

(** [TieredCache(caches)]: the list of tiers must not be empty. *)
Definition __init__ (caches : list C) : ValueError + t C :=
  match caches with
  | [] => inl (mkValueError "At least one cache provider is required")
  | _ :: _ => inr {| caches := caches; _lock := false |}
  end.

(** The tasks [[op(cache) for cache in self.caches]] run to their end, each
    on its own tier: the tiers after them, and whether every task is done
    (returned or raised) rather than suspended for ever. *)
Fixpoint run_tasks {A} (op : M C A) (cs : list C) : bool * list C :=
  match cs with
  | [] => (true, [])
  | c :: cs' =>
      let (r, c') := op c in
      let (done, cs'') := run_tasks op cs' in
      (match r with
       | Block => false
       | _ => done
       end, c' :: cs'')
  end.

(** [await asyncio.gather( *tasks, return_exceptions=True)]: an exception of
    a task is collected as its result; the gather returns when every task is
    done.  The list of results is dropped by the callers. *)
Definition gather {A} (op : M C A) : M (list C) unit :=
  fun cs =>
    let (done, cs') := run_tasks op cs in
    (if done then Ret tt else Block, cs').

(** Run a coroutine on [self.caches] while holding the lock. *)
Definition on_tiers {A} (m : M (list C) A) : M (t C) A :=
  with_lock _lock set_lock
    (fun s =>
       match m (caches s) with
       | (r, cs) => (r, {| caches := cs; _lock := _lock s |})
       end).

Definition set (key : string) (value : json) (ttl : option Z) : M (t C) unit :=
  on_tiers (gather (provider_set key value ttl)).

Definition delete (key : string) : M (t C) unit :=
  on_tiers (gather (provider_delete key)).

Definition clear : M (t C) unit :=
  on_tiers (gather provider_clear).

(** The loop of [exists] from tier [i] on; [n] tiers remain to be asked. *)
Fixpoint exists_from (n i : nat) (key : string) : M (list C) bool :=
  match n with
  | O => ret false
  | S n' =>
      let* found := at_tier i (provider_exists key) in
      match found with
      | Some true => ret true
      | Some false => exists_from n' (S i) key
      | None => ret false
      end
  end.

Definition exists_ (key : string) : M (t C) bool :=
  fun s => on_tiers (exists_from (length (caches s)) 0 key) s.

End TierOps.

End TieredCache.

(* ===================================================================== *)
(** * Types of the SDK ([flexflag/types.py]) *)
(* ===================================================================== *)

Inductive EvaluationReason : Type :=
| TARGETING_MATCH | DEFAULT | DISABLED | CACHED | OFFLINE | ERROR.

Record EvaluationContext : Type := {
  user_id : option string;
  attributes : list (string * json);
  device : option (list (string * string));
  session : option (list (string * json));
}.

Inductive ConnectionMode : Type := streaming | polling | offline.

Record ConnectionConfig : Type := {
  mode : ConnectionMode;
  retry_attempts : Z;
  retry_delay : Z;
  exponential_backoff : bool;
}.

Record OfflineConfig : Type := {
  offline_enabled : bool;
  default_flags : gmap string json;
}.

(** Which handlers are installed.  A handler is an opaque callback; calling
    it is recorded in the trace of the client and has no other effect. *)
Record EventHandlers : Type := {
  on_evaluation : bool;
  on_error : bool;
  on_cache_hit : bool;
  on_cache_miss : bool;
}.

Record FlexFlagConfig : Type := {
  environment : string;
  connection : ConnectionConfig;
  offline_cfg : OfflineConfig;
  events : EventHandlers;
}.

Record EvaluationMetadata : Type := {
  timestamp : Q;
  cache_hit : bool;
  evaluation_time_ms : Q;
  source : string;
  request_id : json;
}.

Record EvaluationResult : Type := {
  value : json;
  variation : json;
  reason : EvaluationReason;
  metadata : option EvaluationMetadata;
}.

Record SDKMetrics : Type := {
  evaluations : Z;
  cache_hits : Z;
  cache_misses : Z;
  errors : Z;
  network_requests : Z;
  average_latency_ms : Q;
}.

(** [SDKMetrics()] *)
Definition SDKMetrics_init : SDKMetrics :=
  {| evaluations := 0; cache_hits := 0; cache_misses := 0; errors := 0;
     network_requests := 0; average_latency_ms := 0 |}.

(** [EvaluationContext()] *)
Definition EvaluationContext_init : EvaluationContext :=
  {| user_id := None; attributes := []; device := None; session := None |}.

Definition set_user_id (u : option string) (c : EvaluationContext) : EvaluationContext :=
  {| user_id := u; attributes := attributes c;
     device := device c; session := session c |}.
Definition set_attributes (a : list (string * json)) (c : EvaluationContext)
    : EvaluationContext :=
  {| user_id := user_id c; attributes := a;
     device := device c; session := session c |}.
Definition set_device (d : option (list (string * string))) (c : EvaluationContext)
    : EvaluationContext :=
  {| user_id := user_id c; attributes := attributes c;
     device := d; session := session c |}.
Definition set_session (d : option (list (string * json))) (c : EvaluationContext)
    : EvaluationContext :=
  {| user_id := user_id c; attributes := attributes c;
     device := device c; session := d |}.

(** [d[k] = v] on an insertion-ordered dict: a key that is present keeps its
    position, a new key goes to the end. *)
Fixpoint assoc_set {A} (k : string) (v : A) (d : list (string * A))
    : list (string * A) :=
  match d with
  | [] => [(k, v)]
  | (k', x) :: d' =>
      if String.eqb k k' then (k', v) :: d' else (k', x) :: assoc_set k v d'
  end.

(** [d.update(u)] *)
Definition assoc_update {A} (d u : list (string * A)) : list (string * A) :=
  fold_left (fun d '(k, v) => assoc_set k v d) u d.

(** The argument of [update_context]: for each of the four keys the method
    looks at, the value under the key when the key is in [updates]. *)
Record ContextUpdates : Type := {
  upd_user_id : option (option string);
  upd_attributes : option (list (string * json));
  upd_device : option (option (list (string * string)));
  upd_session : option (option (list (string * json)));
}.

(* ===================================================================== *)
(** * The client ([flexflag/client.py]) *)
(* ===================================================================== *)

Module Client.

(** A request sent through [self._session.post]. *)
Inductive request : Type :=
| PostEvaluate (flag_key : string) (context : json) (environment : string)
| PostBatch (flags : list string) (context : json) (environment : string).

(** What the session answers: a response with its status and the decoded
    body ([None] when [response.json()] raises), or an exception of the
    transport (connection refused, timeout). *)
Inductive http_result : Type :=
| Response (status : Z) (body : option json)
| Failed (e : exn).

Inductive event : Type :=
| CacheHit (flag_key : string)
| CacheMiss (flag_key : string)
| Evaluation (flag_key : string) (v : json)
| Error (e : exn).

Section Pipeline.

Context {C : Type} `{CacheProvider C}.

(** The world around the client: its configuration, the wall clock (the
    [n]-th reading of the clock, by [time.time()] or [datetime.now()]) and
    the server (its answer to the [n]-th request of the client). *)
Variable config : FlexFlagConfig.
Variable clock : nat -> Q.
Variable server : nat -> request -> http_result.

(** The mutable state: the fields of the client and a trace of what it did
    to the outside. *)
Record t : Type := {
  cache : option C;              (* self.cache *)
  metrics : SDKMetrics;          (* self.metrics *)
  _offline_mode : bool;          (* self._offline_mode *)
  context : option EvaluationContext;   (* self.context *)
  ticks : nat;                   (* clock readings so far *)
  requests : list request;       (* requests sent so far, oldest first *)
  sleeps : list Z;               (* asyncio.sleep calls, oldest first *)
  fired : list event;            (* handler calls, oldest first *)
}.

Definition with_cache (c : option C) (s : t) : t :=
  {| cache := c; metrics := metrics s; _offline_mode := _offline_mode s;
     context := context s; ticks := ticks s; requests := requests s;
     sleeps := sleeps s; fired := fired s |}.
Definition with_metrics (m : SDKMetrics) (s : t) : t :=
  {| cache := cache s; metrics := m; _offline_mode := _offline_mode s;
     context := context s; ticks := ticks s; requests := requests s;
     sleeps := sleeps s; fired := fired s |}.
Definition with_ticks (n : nat) (s : t) : t :=
  {| cache := cache s; metrics := metrics s; _offline_mode := _offline_mode s;
     context := context s; ticks := n; requests := requests s;
     sleeps := sleeps s; fired := fired s |}.
Definition with_requests (r : list request) (s : t) : t :=
  {| cache := cache s; metrics := metrics s; _offline_mode := _offline_mode s;
     context := context s; ticks := ticks s; requests := r;
     sleeps := sleeps s; fired := fired s |}.
Definition with_sleeps (l : list Z) (s : t) : t :=
  {| cache := cache s; metrics := metrics s; _offline_mode := _offline_mode s;
     context := context s; ticks := ticks s; requests := requests s;
     sleeps := l; fired := fired s |}.
Definition with_fired (l : list event) (s : t) : t :=
  {| cache := cache s; metrics := metrics s; _offline_mode := _offline_mode s;
     context := context s; ticks := ticks s; requests := requests s;
     sleeps := sleeps s; fired := l |}.

(** ** Primitive effects *)

(** [time.time()], [datetime.now()] *)
Definition time_time : M t Q :=
  fun s => (Ret (clock (ticks s)), with_ticks (S (ticks s)) s).

(** [await asyncio.sleep(delay)] *)
Definition sleep (delay : Z) : M t unit :=
  modify (fun s => with_sleeps (sleeps s ++ [delay]) s).

(** [if self.events.h: self.events.h(...)] *)
Definition fire (installed : bool) (e : event) : M t unit :=
  if installed then modify (fun s => with_fired (fired s ++ [e]) s) else ret tt.

(** [async with self._session.post(url, json=payload) as response] *)
Definition post (r : request) : M t (Z * option json) :=
  fun s =>
    let s' := with_requests (requests s ++ [r]) s in
    match server (length (requests s)) r with
    | Response status body => (Ret (status, body), s')
    | Failed e => (Raise e, s')
    end.

(** [data = await response.json()] followed by [data.get]: the body must
    decode, and to a dict. *)
Definition response_json (body : option json) : M t (list (string * json)) :=
  match body with
  | Some (JDict d) => ret d
  | _ => raise (TransportError "invalid body")
  end.

Definition incr_evaluations (n : Z) (m : SDKMetrics) : SDKMetrics :=
  {| evaluations := evaluations m + n; cache_hits := cache_hits m;
     cache_misses := cache_misses m; errors := errors m;
     network_requests := network_requests m;
     average_latency_ms := average_latency_ms m |}.
Definition incr_cache_hits (m : SDKMetrics) : SDKMetrics :=
  {| evaluations := evaluations m; cache_hits := cache_hits m + 1;
     cache_misses := cache_misses m; errors := errors m;
     network_requests := network_requests m;
     average_latency_ms := average_latency_ms m |}.
Definition incr_cache_misses (m : SDKMetrics) : SDKMetrics :=
  {| evaluations := evaluations m; cache_hits := cache_hits m;
     cache_misses := cache_misses m + 1; errors := errors m;
     network_requests := network_requests m;
     average_latency_ms := average_latency_ms m |}.
Definition incr_errors (m : SDKMetrics) : SDKMetrics :=
  {| evaluations := evaluations m; cache_hits := cache_hits m;
     cache_misses := cache_misses m; errors := errors m + 1;
     network_requests := network_requests m;
     average_latency_ms := average_latency_ms m |}.
Definition incr_network_requests (m : SDKMetrics) : SDKMetrics :=
  {| evaluations := evaluations m; cache_hits := cache_hits m;
     cache_misses := cache_misses m; errors := errors m;
     network_requests := network_requests m + 1;
     average_latency_ms := average_latency_ms m |}.
Definition set_average_latency (q : Q) (m : SDKMetrics) : SDKMetrics :=
  {| evaluations := evaluations m; cache_hits := cache_hits m;
     cache_misses := cache_misses m; errors := errors m;
     network_requests := network_requests m;
     average_latency_ms := q |}.

Definition update_metrics (f : SDKMetrics -> SDKMetrics) : M t unit :=
  modify (fun s => with_metrics (f (metrics s)) s).

(** ** Context and cache key *)

(** [x or {}] for an optional dict. *)
Definition or_empty {A} (x : option (list (string * A))) : list (string * A) :=
  match x with
  | Some d => d
  | None => []
  end.

Definition _context_to_dict (context : option EvaluationContext) : json :=
  match context with
  | None => JDict []
  | Some context =>
      JDict [("userId", match user_id context with
                        | Some u => JStr u
                        | None => JNull
                        end);
             ("attributes", JDict (attributes context));
             ("device", JDict (map (fun '(k, s) => (k, JStr s))
                                 (or_empty (device context))));
             ("session", JDict (or_empty (session context)))]
  end.

Definition _build_cache_key (flag_key : string)
    (context : option EvaluationContext) : string :=
  match context with
  | None => flag_key +:+ "::" +:+ environment config
  | Some _ =>
      let context_str := dumps_str (_context_to_dict context) in
      flag_key +:+ "::" +:+ context_str +:+ "::" +:+ environment config
  end.

(** ** Cache access *)

(** Run a coroutine of the provider on [self.cache]. *)
Definition on_cache {A} (c : C) (m : M C A) : M t A :=
  fun s =>
    match m c with
    | (r, c') => (r, with_cache (Some c') s)
    end.

Definition _get_from_cache (key : string) : M t json :=
  let* c := gets cache in
  match c with
  | None => ret JNull
  | Some c =>
      try_catch (on_cache c (provider_get key))
                (fun e => ret JNull)
  end.

Definition _set_cache (key : string) (value : json) : M t unit :=
  let* c := gets cache in
  match c with
  | None => ret tt
  | Some c =>
      try_catch (on_cache c (provider_set key value None))
                (fun e => ret tt)
  end.

(** ** Metrics *)

Definition _update_average_latency (latency_ms : Q) : M t unit :=
  update_metrics (fun m =>
    if (evaluations m =? 0)%Z then set_average_latency latency_ms m
    else
      let total_evaluations := (evaluations m + 1)%Z in
      set_average_latency
        ((average_latency_ms m * inject_Z (evaluations m) + latency_ms)
         / inject_Z total_evaluations)%Q m).

(** ** Offline and remote evaluation *)

Definition _evaluate_offline (flag_key : string) (default_value : json)
    (start_time : Q) : M t EvaluationResult :=
  let offline_value :=
    default default_value (default_flags (offline_cfg config) !! flag_key) in
  let* t1 := time_time in
  let evaluation_time := ((t1 - start_time) * 1000)%Q in
  let* now := time_time in
  ret {| value := offline_value;
         variation := JNull;
         reason := OFFLINE;
         metadata := Some {| timestamp := now;
                             cache_hit := false;
                             evaluation_time_ms := evaluation_time;
                             source := "offline";
                             request_id := JNull |} |}.

(** The delay slept after the failed attempt number [attempt]. *)
Definition retry_sleep (attempt : nat) : Z :=
  let delay := retry_delay (connection config) in
  if exponential_backoff (connection config)
  then delay * 2 ^ Z.of_nat attempt
  else delay.

(** The body of the [try] of one attempt of [_evaluate_remote]. *)
Definition remote_attempt (payload : request) (default_value : json)
    : M t EvaluationResult :=
  let* (status, body) := post payload in
  if (status =? 200)%Z then
    let* data := response_json body in
    let* now := time_time in
    let* t1 := time_time in
    ret {| value := dict_get data "value" default_value;
           variation := dict_get data "variation" JNull;
           reason := if truthy (dict_get data "matched" JNull)
                     then TARGETING_MATCH else DEFAULT;
           metadata := Some {| timestamp := now;
                               cache_hit := false;
                               evaluation_time_ms := (t1 * 1000)%Q;
                               source := "remote";
                               request_id := dict_get data "requestId" JNull |} |}
  else if (status =? 404)%Z then
    ret {| value := default_value; variation := JNull;
           reason := DEFAULT; metadata := None |}
  else raise (ApiStatus status).

(** [for attempt in range(retry_attempts): try: ... except Exception as e: ...]
    over the attempts that remain. *)
Fixpoint retry_loop (attempts : list nat) (payload : request)
    (default_value : json) : M t EvaluationResult :=
  match attempts with
  | [] => raise RetriesExhausted
  | attempt :: rest =>
      try_catch (remote_attempt payload default_value)
        (fun e =>
           if (Z.of_nat attempt =? retry_attempts (connection config) - 1)%Z
           then raise e
           else sleep (retry_sleep attempt) ;;
                retry_loop rest payload default_value)
  end.

Definition _evaluate_remote (flag_key : string)
    (context : option EvaluationContext) (default_value : json)
    : M t EvaluationResult :=
  let payload :=
    PostEvaluate flag_key (_context_to_dict context) (environment config) in
  update_metrics incr_network_requests ;;
  retry_loop (seq 0 (Z.to_nat (retry_attempts (connection config))))
             payload default_value.

Definition _evaluate_batch_remote (flag_keys : list string)
    (context : option EvaluationContext) : M t json :=
  let payload :=
    PostBatch flag_keys (_context_to_dict context) (environment config) in
  update_metrics incr_network_requests ;;
  let* (status, body) := post payload in
  if (status =? 200)%Z then
    let* data := response_json body in
    ret (dict_get data "flags" (JDict []))
  else raise (BatchApiStatus status).

Definition is_offline : M t bool :=
  gets (fun s => _offline_mode s ||
                 match mode (connection config) with
                 | offline => true
                 | _ => false
                 end).

(** [context or self.context]: a context object is always truthy. *)
Definition or_self (ctx : option EvaluationContext) : M t (option EvaluationContext) :=
  match ctx with
  | Some c => ret (Some c)
  | None => gets context
  end.

(** ** Single evaluation *)

Definition evaluate_with_details (flag_key : string)
    (context : option EvaluationContext) (default_value : json)
    : M t EvaluationResult :=
  let* start_time := time_time in
  let* evaluation_context := or_self context in
  try_catch
    (let cache_key := _build_cache_key flag_key evaluation_context in
     let* cached_result := _get_from_cache cache_key in
     if is_not_None cached_result then
       update_metrics (incr_evaluations 1) ;;
       update_metrics incr_cache_hits ;;
       fire (on_cache_hit (events config)) (CacheHit flag_key) ;;
       let* t1 := time_time in
       let evaluation_time := ((t1 - start_time) * 1000)%Q in
       _update_average_latency evaluation_time ;;
       let* now := time_time in
       ret {| value := cached_result;
              variation := JNull;
              reason := CACHED;
              metadata := Some {| timestamp := now;
                                  cache_hit := true;
                                  evaluation_time_ms := evaluation_time;
                                  source := "cache";
                                  request_id := JNull |} |}
     else
       fire (on_cache_miss (events config)) (CacheMiss flag_key) ;;
       update_metrics incr_cache_misses ;;
       let* off := is_offline in
       if off then _evaluate_offline flag_key default_value start_time
       else
         let* result := _evaluate_remote flag_key evaluation_context default_value in
         _set_cache cache_key (value result) ;;
         update_metrics (incr_evaluations 1) ;;
         let* t1 := time_time in
         let evaluation_time := ((t1 - start_time) * 1000)%Q in
         _update_average_latency evaluation_time ;;
         fire (on_evaluation (events config)) (Evaluation flag_key (value result)) ;;
         ret result)
    (fun e =>
       update_metrics incr_errors ;;
       fire (on_error (events config)) (Error e) ;;
       _evaluate_offline flag_key default_value start_time).

Definition evaluate (flag_key : string) (context : option EvaluationContext)
    (default_value : json) : M t json :=
  let* result := evaluate_with_details flag_key context default_value in
  ret (value result).

(** ** Batch evaluation *)

(** The cache pass over [flag_keys]: [(cache_hits, cache_misses)]. *)
Fixpoint batch_lookup (flag_keys : list string)
    (evaluation_context : option EvaluationContext)
    (cache_hits : gmap string json) (cache_misses : list string)
    : M t (gmap string json * list string) :=
  match flag_keys with
  | [] => ret (cache_hits, cache_misses)
  | flag_key :: rest =>
      let cache_key := _build_cache_key flag_key evaluation_context in
      let* cached_value := _get_from_cache cache_key in
      if is_not_None cached_value then
        update_metrics incr_cache_hits ;;
        fire (on_cache_hit (events config)) (CacheHit flag_key) ;;
        batch_lookup rest evaluation_context
          (<[flag_key := cached_value]> cache_hits) cache_misses
      else
        update_metrics incr_cache_misses ;;
        fire (on_cache_miss (events config)) (CacheMiss flag_key) ;;
        batch_lookup rest evaluation_context
          cache_hits (cache_misses ++ [flag_key])
  end.

(** [results.update(d)] *)
Definition dict_update (results : gmap string json) (d : list (string * json))
    : gmap string json :=
  fold_left (fun r '(k, v) => <[k := v]> r) d results.

(** [for flag_key in cache_misses: ... if offline_value is not None:
    results[flag_key] = offline_value] *)
Definition offline_defaults (cache_misses : list string)
    (results : gmap string json) : gmap string json :=
  fold_left
    (fun r flag_key =>
       let offline_value :=
         default JNull (default_flags (offline_cfg config) !! flag_key) in
       if is_not_None offline_value then <[flag_key := offline_value]> r else r)
    cache_misses results.

(** [remote_results.items()] needs a dict. *)
Definition items (v : json) : M t (list (string * json)) :=
  match v with
  | JDict d => ret d
  | _ => raise (TransportError "not a dict")
  end.

Definition evaluate_batch (flag_keys : list string)
    (context : option EvaluationContext) : M t (gmap string json) :=
  let* evaluation_context := or_self context in
  let* (cache_hits, cache_misses) :=
    batch_lookup flag_keys evaluation_context ∅ [] in
  let results := cache_hits ∪ (∅ : gmap string json) in
  let* off := is_offline in
  let* results :=
    match cache_misses with
    | _ :: _ =>
        if negb off then
          try_catch
            (let* remote_results :=
               _evaluate_batch_remote cache_misses evaluation_context in
             let* remote_items := items remote_results in
             for_each remote_items
               (fun '(flag_key, value) =>
                  let cache_key := _build_cache_key flag_key evaluation_context in
                  _set_cache cache_key value ;;
                  fire (on_evaluation (events config)) (Evaluation flag_key value)) ;;
             ret (dict_update results remote_items))
            (fun e =>
               update_metrics incr_errors ;;
               fire (on_error (events config)) (Error e) ;;
               ret (offline_defaults cache_misses results))
        else ret results
    | [] => ret results
    end in
  let* off := is_offline in
  let results := if off then offline_defaults cache_misses results else results in
  update_metrics (incr_evaluations (Z.of_nat (length flag_keys))) ;;
  ret results.

(** ** Context of the client, variations, metrics *)

Definition with_context (c : option EvaluationContext) (s : t) : t :=
  {| cache := cache s; metrics := metrics s; _offline_mode := _offline_mode s;
     context := c; ticks := ticks s; requests := requests s;
     sleeps := sleeps s; fired := fired s |}.
Definition with_offline_mode (b : bool) (s : t) : t :=
  {| cache := cache s; metrics := metrics s; _offline_mode := b;
     context := context s; ticks := ticks s; requests := requests s;
     sleeps := sleeps s; fired := fired s |}.

Definition update_context (updates : ContextUpdates) : M t unit :=
  modify (fun s =>
    let c := match context s with
             | Some c => c
             | None => EvaluationContext_init
             end in
    let c := match upd_user_id updates with
             | Some u => set_user_id u c
             | None => c
             end in
    let c := match upd_attributes updates with
             | Some a => set_attributes (assoc_update (attributes c) a) c
             | None => c
             end in
    let c := match upd_device updates with
             | Some d => set_device d c
             | None => c
             end in
    let c := match upd_session updates with
             | Some d => set_session d c
             | None => c
             end in
    with_context (Some c) s).

(** [get_variation] passes no default value. *)
Definition get_variation (flag_key : string)
    (context : option EvaluationContext) : M t json :=
  let* result := evaluate_with_details flag_key context JNull in
  ret (variation result).


End Pipeline.

Arguments t C : clear implicits.

Section Admin.

Context {C : Type} `{CacheProvider C} `{CacheAdmin C}.

(** [if self.cache: await self.cache.clear()]: a provider object is truthy;
    an exception of the provider is not caught. *)
Definition clear_cache : M (t C) unit :=
  let* c := gets cache in
  match c with
  | Some c => on_cache c provider_clear
  | None => ret tt
  end.

End Admin.

Section Startup.

Context {C : Type} `{CacheProvider C}.

(** The world at start-up: the configuration, whether [events.on_ready] is
    installed, the answer of the server to the [n]-th
    [GET /api/v1/health], and the exception [Exception("Invalid API key")]. *)
Variable config : FlexFlagConfig.
Variable on_ready : bool.
Variable health : nat -> http_result.
Variable invalid_api_key : exn.

(** The client with the fields of its life cycle. *)
Record instance : Type := {
  client : t C;             (* the fields the evaluation pipeline uses *)
  _session : bool;          (* self._session is not None *)
  _ready : bool;            (* self._ready.is_set() *)
  _polling_task : bool;     (* self._polling_task is not None *)
  health_requests : nat;    (* health requests sent so far *)
  ready_calls : nat;        (* calls of events.on_ready so far *)
}.

Definition with_client (c : t C) (s : instance) : instance :=
  {| client := c; _session := _session s; _ready := _ready s;
     _polling_task := _polling_task s; health_requests := health_requests s;
     ready_calls := ready_calls s |}.
Definition with_session (b : bool) (s : instance) : instance :=
  {| client := client s; _session := b; _ready := _ready s;
     _polling_task := _polling_task s; health_requests := health_requests s;
     ready_calls := ready_calls s |}.
Definition with_ready (b : bool) (s : instance) : instance :=
  {| client := client s; _session := _session s; _ready := b;
     _polling_task := _polling_task s; health_requests := health_requests s;
     ready_calls := ready_calls s |}.
Definition with_polling_task (b : bool) (s : instance) : instance :=
  {| client := client s; _session := _session s; _ready := _ready s;
     _polling_task := b; health_requests := health_requests s;
     ready_calls := ready_calls s |}.
Definition with_health_requests (n : nat) (s : instance) : instance :=
  {| client := client s; _session := _session s; _ready := _ready s;
     _polling_task := _polling_task s; health_requests := n;
     ready_calls := ready_calls s |}.
Definition with_ready_calls (n : nat) (s : instance) : instance :=
  {| client := client s; _session := _session s; _ready := _ready s;
     _polling_task := _polling_task s; health_requests := health_requests s;
     ready_calls := n |}.

(** Run a coroutine of the pipeline on the client. *)
Definition on_client {A} (m : M (t C) A) : M instance A :=
  fun s =>
    match m (client s) with
    | (r, c') => (r, with_client c' s)
    end.

(** [async with self._session.get(url) as response] *)
Definition get_health : M instance Z :=
  fun s =>
    let s' := with_health_requests (S (health_requests s)) s in
    match health (health_requests s) with
    | Response status _ => (Ret status, s')
    | Failed e => (Raise e, s')
    end.

(** The body of the [try] of one attempt of [_test_connection]. *)
Definition health_attempt : M instance unit :=
  let* status := get_health in
  if (status =? 200)%Z then ret tt
  else if (status =? 401)%Z then raise invalid_api_key
  else raise (ApiStatus status).

(** The loop of [_test_connection] over the attempts that remain; the
    coroutine returns when the loop ends. *)
Fixpoint health_loop (attempts : list nat) : M instance unit :=
  match attempts with
  | [] => ret tt
  | attempt :: rest =>
      try_catch health_attempt
        (fun e =>
           if (Z.of_nat attempt =? retry_attempts (connection config) - 1)%Z
           then raise e
           else on_client (sleep (retry_sleep config attempt)) ;;
                health_loop rest)
  end.

Definition _test_connection : M instance unit :=
  health_loop (seq 0 (Z.to_nat (retry_attempts (connection config)))).

Definition _initialize : M instance unit :=
  try_catch
    (modify (with_session true) ;;
     match mode (connection config) with
     | offline => ret tt
     | _ => _test_connection
     end ;;
     match mode (connection config) with
     | polling => modify (with_polling_task true)
     | _ => ret tt
     end ;;
     modify (with_ready true) ;;
     if on_ready
     then modify (fun s => with_ready_calls (S (ready_calls s)) s)
     else ret tt)
    (fun e =>
       if offline_enabled (offline_cfg config)
       then on_client (modify (with_offline_mode true)) ;;
            modify (with_ready true)
       else raise e).

End Startup.

Arguments instance C : clear implicits.

End Client.

(* ===================================================================== *)
(** * Framework adapters ([flexflag/integrations]) *)
(* ===================================================================== *)

(** A route or a view can raise exceptions that are not those of the SDK.
    A coroutine that can also raise an exception of type [E] returns
    [inl e] for "raise e"; [try_except] is
    [try: m  except Exception as e: h e], which catches both kinds. *)
Definition try_except {S E A} (m : M S (E + A)) (h : E + exn -> M S (E + A))
    : M S (E + A) :=
  fun s =>
    match m s with
    | (Ret (inl e), s') => h (inl e) s'
    | (Raise e, s') => h (inr e) s'
    | r => r
    end.

Module FastAPI.

(** [HTTPException(status_code=..., detail=...)], a subclass of
    [Exception]. *)
Record HTTPException : Type := {
  status_code : Z;
  detail : string;
}.


Section Routes.

Context {C : Type} `{CacheProvider C}.
Variable config : FlexFlagConfig.
Variable clock : nat -> Q.
Variable server : nat -> Client.request -> Client.http_result.

(** [f"{e}"] for a caught exception. *)
Variable str : HTTPException + exn -> string.

(** The dependency made by [create_feature_flag_dependency(flag_key,
    default_value, required)], called with the client and a context. *)
Definition feature_flag_dependency (flag_key : string) (default_value : json)
    (required : bool) (context : EvaluationContext)
    : M (Client.t C) (HTTPException + json) :=
  try_except
    (let* result :=
       Client.evaluate config clock server flag_key (Some context) default_value in
     if required && negb (truthy result)
     then ret (inl {| status_code := 403;
                      detail := "Feature '" +:+ flag_key +:+ "' is not enabled" |})
     else ret (inr result))
    (fun e =>
       if required
       then ret (inl {| status_code := 500;
                        detail := "Failed to evaluate feature flag: " +:+ str e |})
       else ret (inr default_value)).

(** The loop of [get_user_experiments] over the flags that remain. *)
Fixpoint experiments_from (experiment_flags : list string)
    (context : EvaluationContext) (results : gmap string json)
    : M (Client.t C) (gmap string json) :=
  match experiment_flags with
  | [] => ret results
  | flag_key :: rest =>
      let* variation :=
        Client.get_variation config clock server flag_key (Some context) in
      experiments_from rest context
        (if truthy variation then <[flag_key := variation]> results else results)
  end.

Definition get_user_experiments (experiment_flags : list string)
    (context : EvaluationContext) : M (Client.t C) (gmap string json) :=
  experiments_from experiment_flags context ∅.

End Routes.

End FastAPI.

Module Django.

(** What the decorated view sees of the request: whether the middleware
    has set [request.flexflag], and [request.flag_context]. *)
Record request : Type := {
  flexflag : bool;
  flag_context : option EvaluationContext;
}.

Inductive redirect : Type :=
| Redirect (url : string).

Section Views.

Context {C V A : Type} `{CacheProvider C}.
Variable config : FlexFlagConfig.
Variable clock : nat -> Q.
Variable server : nat -> Client.request -> Client.http_result.

(** Run a coroutine of the client to its end, as
    [loop.run_until_complete] does, in a world made of the client and of
    the state [V] of the application. *)
Definition run_until_complete {B} (m : M (Client.t C) B) : M (Client.t C * V) B :=
  fun w =>
    match m (fst w) with
    | (r, c') => (r, (c', snd w))
    end.

(** The wrapper made by [require_feature_flag(flag_key, default_enabled,
    redirect_url)] around [view_func]: it returns the response of the view
    or a redirect. *)
Definition require_feature_flag (flag_key : string) (default_enabled : bool)
    (redirect_url : string)
    (view_func : request -> M (Client.t C * V) A) (request : request)
    : M (Client.t C * V) (redirect + A) :=
  let view := let* a := view_func request in ret (inr a) in
  if negb (flexflag request) then
    if negb default_enabled then ret (inl (Redirect redirect_url))
    else view
  else
    try_catch
      (let* enabled :=
         run_until_complete
           (Client.evaluate config clock server flag_key
              (flag_context request) (JBool default_enabled)) in
       if truthy enabled then view
       else ret (inl (Redirect redirect_url)))
      (fun e =>
         if default_enabled then view
         else ret (inl (Redirect redirect_url))).

End Views.

End Django.

(* ===================================================================== *)
(** * Concrete worlds used by the examples below *)
(* ===================================================================== *)

Module Examples.

(** [FlexFlagClient.__init__]: fresh metrics, online, no context. *)
Definition fresh {C} (cache : option C) : Client.t C :=
  {| Client.cache := cache; Client.metrics := SDKMetrics_init;
     Client._offline_mode := false; Client.context := None;
     Client.ticks := 0; Client.requests := []; Client.sleeps := [];
     Client.fired := [] |}.

Definition all_handlers : EventHandlers :=
  {| on_evaluation := true; on_error := true;
     on_cache_hit := true; on_cache_miss := true |}.

(** The defaults of [ConnectionConfig]: three attempts, one second,
    exponential backoff. *)
Definition config_with (m : ConnectionMode) (flags : gmap string json)
    : FlexFlagConfig :=
  {| environment := "production";
     connection := {| mode := m; retry_attempts := 3; retry_delay := 1;
                      exponential_backoff := true |};
     offline_cfg := {| offline_enabled := true; default_flags := flags |};
     events := all_handlers |}.

(** A clock that advances by 10 ms at every reading. *)
Definition clock10 (n : nat) : Q := inject_Z (Z.of_nat n) / 100.

(** Servers that answer every request with the same status. *)
Definition always (status : Z) : nat -> Client.request -> Client.http_result :=
  fun _ _ => Client.Response status None.

Definition memory (store : gmap string json) : MemoryCache.t :=
  {| MemoryCache.config := {| cache_enabled := true; ttl := 300;
                              max_size := 1000; key_prefix := "flexflag:" |};
     MemoryCache.cache := store;
     MemoryCache._lock := false;
     MemoryCache.lru := fun _ => 0%nat;
     MemoryCache.evictions := 0 |}.

(** [MemoryCache(CacheConfig(max_size=0))] *)
Definition memory_without_room : MemoryCache.t :=
  {| MemoryCache.config := {| cache_enabled := true; ttl := 300;
                              max_size := 0; key_prefix := "flexflag:" |};
     MemoryCache.cache := ∅;
     MemoryCache._lock := false;
     MemoryCache.lru := fun _ => 0%nat;
     MemoryCache.evictions := 0 |}.

Definition disk (rows : gmap string (json * Q)) (now : Q) : DiskCache.t :=
  {| DiskCache.config := {| cache_enabled := true; ttl := 300;
                            max_size := 1000; key_prefix := "flexflag:" |};
     DiskCache.rows := rows;
     DiskCache.now := now;
     DiskCache._lock := false |}.

Definition healthy (store : gmap string json) : FaultyCache.t :=
  {| FaultyCache.entries := store;
     FaultyCache.get_fault := None; FaultyCache.set_fault := None |}.

Definition read_only (store : gmap string json) : FaultyCache.t :=
  {| FaultyCache.entries := store;
     FaultyCache.get_fault := None;
     FaultyCache.set_fault := Some (CacheError "read-only") |}.

Definition broken : FaultyCache.t :=
  {| FaultyCache.entries := ∅;
     FaultyCache.get_fault := Some (CacheError "connection lost");
     FaultyCache.set_fault := Some (CacheError "connection lost") |}.

(** Three contexts of one user: [ctx_b] is [ctx_a] with the attributes
    inserted in the other order and an empty device dict, [ctx_c] differs
    from [ctx_a] in the value of the attribute "age". *)
Definition ctx_a : EvaluationContext :=
  {| user_id := Some "u1";
     attributes := [("plan", JStr "pro"); ("age", JInt 30)];
     device := None; session := None |}.

Definition ctx_b : EvaluationContext :=
  {| user_id := Some "u1";
     attributes := [("age", JInt 30); ("plan", JStr "pro")];
     device := Some []; session := None |}.

Definition ctx_c : EvaluationContext :=
  {| user_id := Some "u1";
     attributes := [("plan", JStr "pro"); ("age", JInt 31)];
     device := None; session := None |}.

(** The float sum of [DiskCache.set] at the inputs of the examples, where
    the sum of the clock and the ttl is a float, so that nothing is
    rounded. *)
Definition exact_sum (now : Q) (ttl : Z) : option Q := Some (now + inject_Z ttl)%Q.

(** A server that answers every request with a 200 and the same body. *)
Definition answers (body : json) : nat -> Client.request -> Client.http_result :=
  fun _ _ => Client.Response 200 (Some body).

(** A health endpoint that answers every request with the same status. *)
Definition health_always (status : Z) : nat -> Client.http_result :=
  fun _ => Client.Response status None.

(** [FlexFlagClient.__init__]: no session, not ready, no polling task. *)
Definition created {C} (cache : option C) : Client.instance C :=
  {| Client.client := fresh cache; Client._session := false;
     Client._ready := false; Client._polling_task := false;
     Client.health_requests := 0; Client.ready_calls := 0 |}.

(** A server that answers 503 to the first [k] requests and then a 200 with
    the same body. *)
Definition recovers_after (k : nat) (body : json)
    : nat -> Client.request -> Client.http_result :=
  fun n _ =>
    if (n <? k)%nat then Client.Response 503 None
    else Client.Response 200 (Some body).

End Examples.
Import Examples.

(* ===================================================================== *)
(** * Vocabulary of the properties *)
(* ===================================================================== *)

(** ** Coroutines *)

Section Triple.

Context {S : Type}.

(** [triple P m Q R]: from a state in [P], [m] does not suspend forever; it
    returns a value in [Q] or raises an exception in [R]. *)
Definition triple {A} (P : S -> Prop) (m : M S A)
    (Q : A -> S -> Prop) (R : exn -> S -> Prop) : Prop :=
  forall s, P s ->
    match m s with
    | (Ret a, s') => Q a s'
    | (Raise e, s') => R e s'
    | (Block, _) => False
    end.

End Triple.

(** ** Text of encoded values *)

(** The 256 code points of the embedding. *)
Definition all_ascii : list ascii := map ascii_of_nat (seq 0 256).

(** [l2.startswith(l1)] *)
Fixpoint is_prefix (l1 l2 : list ascii) : bool :=
  match l1, l2 with
  | [], _ => true
  | a :: l1', b :: l2' => Ascii.eqb a b && is_prefix l1' l2'
  | _ :: _, [] => false
  end.

(** The characters ['0'..'9']. *)
Definition is_digit (c : ascii) : bool :=
  let n := N_of_ascii c in ((48 <=? n) && (n <=? 57))%N.

(** The text that follows an encoded value starts with no digit. *)
Definition delimited (r : list ascii) : Prop :=
  match r with
  | [] => True
  | c :: _ => is_digit c = false
  end.

(** Two lists with the same values, position by position. *)
Definition same_list (l l' : list json) : bool :=
  (fix go (l l' : list json) : bool :=
     match l, l' with
     | [], [] => true
     | x :: l, y :: l' => same_value x y && go l l'
     | _, _ => false
     end) l l'.

(** Every item of [d] has an item of [d'] with its key and the same value. *)
Definition same_items (d d' : list (string * json)) : bool :=
  (fix go (d : list (string * json)) : bool :=
     match d with
     | [] => true
     | (k, x) :: d =>
         match assoc k d' with
         | Some y => same_value x y
         | None => false
         end && go d
     end) d.

(** The kind of a value, and the kind a first character announces. *)
Definition tag (v : json) : nat :=
  match v with
  | JNull => 0 | JBool _ => 1 | JInt _ => 2 | JStr _ => 3
  | JList _ => 4 | JDict _ => 5
  end.

(** The kind of value whose text can start with [c]; 6 when there is none. *)
Definition head_tag (c : ascii) : nat :=
  if is_digit c then 2
  else if Ascii.eqb c "-" then 2
  else if Ascii.eqb c "n" then 0
  else if Ascii.eqb c "t" || Ascii.eqb c "f" then 1
  else if Ascii.eqb c dquote then 3
  else if Ascii.eqb c "[" then 4
  else if Ascii.eqb c "{" then 5
  else 6.

(** What follows the first item of a sequence: the text [t] after the
    sequence, or the separator and the other items. *)
Definition sep_items (items : list (list ascii)) (t : list ascii) : list ascii :=
  match items with
  | [] => t
  | _ :: _ => ","%char :: " "%char :: join_items items ++ t
  end.

(** The property proved by induction on the first value. *)
Definition self_delimiting (v1 : json) : Prop :=
  forall v2 r1 r2,
    wf_json v1 -> wf_json v2 -> delimited r1 -> delimited r2 ->
    dumps v1 ++ r1 = dumps v2 ++ r2 ->
    same_value v1 v2 = true /\ r1 = r2.

(** An item of an object whose text encodes a value satisfying [Q]. *)
Definition encodes (Q : json -> Prop) (kt : string * list ascii) : Prop :=
  exists x, snd kt = dumps x /\ Q x.

(** An item of a dict with its value encoded. *)
Definition encode_item (kv : string * json) : string * list ascii :=
  let '(k, x) := kv in (k, dumps x).

(** ** Contexts *)

(** The dicts of a context as Python holds them: keys pairwise distinct. *)
Definition device_dict (c : EvaluationContext) : list (string * json) :=
  map (fun '(k, s) => (k, JStr s)) (Client.or_empty (device c)).

Definition wf_context (c : EvaluationContext) : Prop :=
  wf_json (JDict (attributes c)) /\
  NoDup (map fst (Client.or_empty (device c))) /\
  wf_json (JDict (Client.or_empty (session c))).

(** Two contexts with the same user id and the same attribute, device and
    session dicts, whatever the order in which the dicts were filled. *)
Definition same_context (c1 c2 : EvaluationContext) : Prop :=
  user_id c1 = user_id c2 /\
  same_value (JDict (attributes c1)) (JDict (attributes c2)) = true /\
  same_value (JDict (device_dict c1)) (JDict (device_dict c2)) = true /\
  same_value (JDict (Client.or_empty (session c1)))
             (JDict (Client.or_empty (session c2))) = true.

(** ** The pipeline and its world *)

Section PipelineVocabulary.

Context {C : Type} `{CacheProvider C}.
Variable config : FlexFlagConfig.
Variable server : nat -> Client.request -> Client.http_result.

Abbreviation T := (Client.t C).

(** A provider is responsive on the states in [Inv] when from such a state
    [get] and [set] return or raise, and leave the provider in [Inv]. *)
Definition responsive (Inv : C -> Prop) : Prop :=
  (forall key, triple Inv (provider_get key) (fun _ => Inv) (fun _ => Inv)) /\
  (forall key v ttl, triple Inv (provider_set key v ttl) (fun _ => Inv) (fun _ => Inv)).

Variable Inv : C -> Prop.

(** The provider of the client, when there is one, is in [Inv]. *)
Definition cache_ok (s : Client.t C) : Prop :=
  match Client.cache s with
  | Some c => Inv c
  | None => True
  end.

(** What the server may answer to make an attempt fail. *)
Definition fails (r : Client.http_result) : Prop :=
  match r with
  | Client.Response status _ => status <> 200%Z /\ status <> 404%Z
  | Client.Failed _ => True
  end.

(** The server fails every attempt. *)
Definition always_fails : Prop := forall n r, fails (server n r).

(** The exception of a failed attempt. *)
Definition attempt_exn (r : Client.http_result) : exn :=
  match r with
  | Client.Response status _ => ApiStatus status
  | Client.Failed e => e
  end.

(** The result of [_evaluate_offline]: the configured default of the flag,
    else the default value of the caller. *)
Definition offline_result (fk : string) (dv : json) (r : EvaluationResult) : Prop :=
  reason r = OFFLINE /\
  value r = default dv (default_flags (offline_cfg config) !! fk).

(** What [_get_from_cache] returns in state [s]. *)
Definition cache_lookup (key : string) (s : T) : json :=
  match Client.cache s with
  | None => JNull
  | Some c =>
      match fst (provider_get key c) with
      | Ret v => v
      | _ => JNull
      end
  end.

(** The retry loop touches the clock, the network and the sleep log only. *)
Definition net_state (s : T) (tk : nat) (rq : list Client.request) (sl : list Z) : T :=
  Client.with_sleeps sl (Client.with_requests rq (Client.with_ticks tk s)).

(** What the retry loop can end in: a result of the server (a 200 or 404
    answer) or an exception. *)
Definition remote_post (out : outcome EvaluationResult) : Prop :=
  match out with
  | Ret r => reason r <> CACHED /\ reason r <> OFFLINE /\ ~ always_fails
  | Raise _ => True
  | Block => False
  end.

(** [context or self.context] *)
Definition effective_context (ctx : option EvaluationContext) (s : T)
    : option EvaluationContext :=
  match ctx with
  | Some c => Some c
  | None => Client.context s
  end.

(** [self._offline_mode or self.config.connection.mode == "offline"] *)
Definition offline_now (s : T) : bool :=
  Client._offline_mode s ||
  match mode (connection config) with offline => true | _ => false end.

(** The request of [_evaluate_remote]. *)
Definition payload_of fk (ectx : option EvaluationContext) : Client.request :=
  Client.PostEvaluate fk (Client._context_to_dict ectx) (environment config).

(** [offline_value = default_flags.get(flag_key)], kept when it is not
    [None]. *)
Definition offline_default (flag_key : string) : option json :=
  match default_flags (offline_cfg config) !! flag_key with
  | Some v => if is_not_None v then Some v else None
  | None => None
  end.

(** What the cache pass leaves unchanged. *)
Definition lookup_frame (s s' : T) : Prop :=
  Client.requests s' = Client.requests s /\
  Client.sleeps s' = Client.sleeps s /\
  Client.ticks s' = Client.ticks s /\
  Client._offline_mode s' = Client._offline_mode s /\
  Client.context s' = Client.context s /\
  evaluations (Client.metrics s') = evaluations (Client.metrics s) /\
  errors (Client.metrics s') = errors (Client.metrics s) /\
  network_requests (Client.metrics s') = network_requests (Client.metrics s).

(** The batch call fails: any status but 200, or an exception of the
    transport. *)
Definition batch_fails (r : Client.http_result) : Prop :=
  match r with
  | Client.Response status _ => status <> 200%Z
  | Client.Failed _ => True
  end.

(** The request of [_evaluate_batch_remote]. *)
Definition batch_payload (misses : list string) (ectx : option EvaluationContext)
    : Client.request :=
  Client.PostBatch misses (Client._context_to_dict ectx) (environment config).

(** [self.cache.get(prefixed_key)] on the entries of a [MemoryCache]. *)
Definition mem_get (c : MemoryCache.t) (key : string) : json :=
  default JNull
    (MemoryCache.cache c !! (key_prefix (MemoryCache.config c) +:+ key)).

(** The keys of a batch the cache has no value for. *)
Definition missing (c : MemoryCache.t) (ectx : option EvaluationContext)
    (flag_key : string) : bool :=
  negb (is_not_None (mem_get c (Client._build_cache_key config flag_key ectx))).

End PipelineVocabulary.

(** ** Counters and answers *)

(** The counters of [m'] are those of [m] plus the given increments. *)
Definition counted (m m' : SDKMetrics) (ev hits misses errs nets : Z) : Prop :=
  evaluations m' = (evaluations m + ev)%Z /\
  cache_hits m' = (cache_hits m + hits)%Z /\
  cache_misses m' = (cache_misses m + misses)%Z /\
  errors m' = (errors m + errs)%Z /\
  network_requests m' = (network_requests m + nets)%Z.


(** [r] is the result [_evaluate_remote] builds from the answer [a]: the
    fields of the body of a 200, or the default value on a 404. *)
Definition answer_result (default_value : json) (a : Client.http_result)
    (r : EvaluationResult) : Prop :=
  match a with
  | Client.Response status body =>
      (status = 200%Z /\
       exists data, body = Some (JDict data) /\
         value r = dict_get data "value" default_value /\
         variation r = dict_get data "variation" JNull /\
         reason r = (if truthy (dict_get data "matched" JNull)
                     then TARGETING_MATCH else DEFAULT)) \/
      (status = 404%Z /\
       value r = default_value /\ variation r = JNull /\
       reason r = DEFAULT /\ metadata r = None)
  | Client.Failed _ => False
  end.

(** An answer that makes an attempt of [_evaluate_remote] raise: a status
    other than 200 and 404, a 200 whose body does not decode to a dict, or
    an exception of the transport. *)
Definition attempt_fails (a : Client.http_result) : Prop :=
  match a with
  | Client.Response status body =>
      (status <> 200%Z /\ status <> 404%Z) \/
      (status = 200%Z /\ forall data, body <> Some (JDict data))
  | Client.Failed _ => True
  end.

(** The provider of the client after the coroutine [m] of the provider. *)
Definition cache_after {C A} (m : M C A) (cache : option C) : option C :=
  match cache with
  | Some c => Some (snd (m c))
  | None => None
  end.

(** The answer to the batch request decodes to a dict whose "flags" field
    is the dict [flags]. *)
Definition batch_answer (a : Client.http_result) (flags : list (string * json)) : Prop :=
  exists data, a = Client.Response 200 (Some (JDict data)) /\
               dict_get data "flags" (JDict []) = JDict flags.

(** The exception one attempt of [_test_connection] raises on the answer
    [a] of the health endpoint; [None] for a 200. *)
Definition health_failure (invalid_api_key : exn) (a : Client.http_result)
    : option exn :=
  match a with
  | Client.Response status _ =>
      if (status =? 200)%Z then None
      else if (status =? 401)%Z then Some invalid_api_key
      else Some (ApiStatus status)
  | Client.Failed e => Some e
  end.

(** What a run of the connection test leaves of the instance [s]: [k]
    more health requests and the delays [slept], nothing else. *)
Definition tested {C} (s s' : Client.instance C) (k : nat) (slept : list Z) : Prop :=
  Client.health_requests s' = (Client.health_requests s + k)%nat /\
  Client.client s'
  = Client.with_sleeps (Client.sleeps (Client.client s) ++ slept) (Client.client s) /\
  Client._session s' = Client._session s /\
  Client._ready s' = Client._ready s /\
  Client._polling_task s' = Client._polling_task s /\
  Client.ready_calls s' = Client.ready_calls s.

(* ===================================================================== *)
(** * Properties of the encoder and of the cache key *)
(* ===================================================================== *)

(* ===================================================================== *)
(** * Sorting the items of a dict *)
(* ===================================================================== *)

Section Sorting.

Lemma leb_le s1 s2 :
  String.leb s1 s2 = true <-> s1 = s2 \/ String_as_OT.lt s1 s2.
Proof.
  unfold String.leb.
  pose proof (String_as_OT.cmp_eq s1 s2) as He.
  pose proof (String_as_OT.cmp_lt s1 s2) as Hl.
  pose proof (String_as_OT.cmp_antisym s1 s2) as Ha.
  unfold String_as_OT.cmp in *.
  destruct (String.compare s1 s2) eqn:E; split; intros Hx; try reflexivity;
    try discriminate.
  - left. now apply He.
  - right. now apply Hl.
  - destruct Hx as [Hx|Hx]; [apply He in Hx|apply Hl in Hx]; discriminate.
Qed.

Lemma leb_trans s1 s2 s3 :
  String.leb s1 s2 = true -> String.leb s2 s3 = true -> String.leb s1 s3 = true.
Proof.
  rewrite !leb_le. intros [->|H12] [->|H23]; auto.
  right. eapply String_as_OT.lt_trans; eassumption.
Qed.

Lemma leb_false_le s1 s2 : String.leb s1 s2 = false -> String.leb s2 s1 = true.
Proof.
  intros H. destruct (String.leb_total s1 s2) as [H'|H']; [congruence|exact H'].
Qed.

Context {A : Type}.
Implicit Types (x y : string * A) (l : list (string * A)).

Lemma insert_item_perm x l : Permutation (insert_item x l) (x :: l).
Proof.
  induction l as [|a l IH]; cbn; [reflexivity|].
  destruct (String.leb (fst x) (fst a)); [reflexivity|].
  rewrite IH. apply perm_swap.
Qed.

Lemma sort_items_cons x l : sort_items (x :: l) = insert_item x (sort_items l).
Proof. reflexivity. Qed.

Lemma sort_items_perm l : Permutation (sort_items l) l.
Proof.
  induction l as [|a l IH]; [reflexivity|].
  rewrite sort_items_cons, insert_item_perm. now constructor.
Qed.

Lemma insert_item_comm x y l :
  fst x <> fst y ->
  insert_item x (insert_item y l) = insert_item y (insert_item x l).
Proof.
  intros Hne.
  assert (Hxy : String.leb (fst x) (fst y) = negb (String.leb (fst y) (fst x))).
  { destruct (String.leb (fst x) (fst y)) eqn:E1, (String.leb (fst y) (fst x)) eqn:E2;
      try reflexivity.
    - exfalso. apply Hne. now apply String.leb_antisym.
    - apply leb_false_le in E1. congruence. }
  induction l as [|a l IH]; cbn.
  - rewrite Hxy. destruct (String.leb (fst y) (fst x)); reflexivity.
  - destruct (String.leb (fst y) (fst a)) eqn:Eya,
             (String.leb (fst x) (fst a)) eqn:Exa; cbn;
      rewrite ?Eya, ?Exa.
    + rewrite Hxy. destruct (String.leb (fst y) (fst x)); reflexivity.
    + assert (Eyx : String.leb (fst y) (fst x) = true).
      { apply leb_false_le in Exa. eapply leb_trans; eassumption. }
      rewrite Hxy, Eyx. reflexivity.
    + assert (Exy : String.leb (fst x) (fst y) = true).
      { apply leb_false_le in Eya. eapply leb_trans; eassumption. }
      rewrite Hxy in Exy. apply negb_true_iff in Exy. rewrite Exy. reflexivity.
    + now rewrite IH.
Qed.

(** Dicts with the same items have the same sorted items. *)
Lemma sort_items_unique l1 l2 :
  Permutation l1 l2 -> NoDup (map fst l1) -> sort_items l1 = sort_items l2.
Proof.
  induction 1 as [|a l1 l2 Hp IH|a b l|l1 l2 l3 Hp1 IH1 Hp2 IH2]; intros Hnd.
  - reflexivity.
  - rewrite !sort_items_cons, IH; [reflexivity|].
    cbn in Hnd. now apply NoDup_cons in Hnd.
  - rewrite !sort_items_cons. apply insert_item_comm. cbn in Hnd.
    apply NoDup_cons in Hnd as [Hin _]. intros Heq. apply Hin.
    rewrite Heq. left.
  - rewrite IH1 by exact Hnd. apply IH2.
    rewrite <- (Permutation_map fst Hp1). exact Hnd.
Qed.

End Sorting.

(* ===================================================================== *)
(** * The encoder is injective *)
(* ===================================================================== *)

(** ** String literals *)

Lemma in_all_ascii c : In c all_ascii.
Proof.
  unfold all_ascii. apply in_map_iff. exists (nat_of_ascii c).
  split; [apply ascii_nat_embedding|].
  apply in_seq. pose proof (nat_ascii_bounded c). lia.
Qed.

Lemma app_eq_is_prefix l1 l2 x y :
  l1 ++ x = l2 ++ y -> is_prefix l1 l2 = true \/ is_prefix l2 l1 = true.
Proof.
  revert l2. induction l1 as [|a l1 IH]; intros [|b l2] E; cbn; auto.
  cbn in E. injection E as -> E. rewrite Ascii.eqb_refl. cbn. now apply IH.
Qed.

Lemma escape_char_prefix_free_check :
  forallb (fun c1 =>
    forallb (fun c2 =>
      Ascii.eqb c1 c2 || negb (is_prefix (escape_char c1) (escape_char c2)))
      all_ascii) all_ascii = true.
Proof. vm_compute. reflexivity. Qed.

Lemma escape_char_head_check :
  forallb (fun c =>
    match escape_char c with
    | [] => false
    | a :: _ => negb (Ascii.eqb a dquote)
    end) all_ascii = true.
Proof. vm_compute. reflexivity. Qed.

Lemma escape_char_not_prefix c1 c2 :
  c1 <> c2 -> is_prefix (escape_char c1) (escape_char c2) = false.
Proof.
  intros Hne. pose proof escape_char_prefix_free_check as Hc.
  rewrite forallb_forall in Hc. specialize (Hc c1 (in_all_ascii c1)).
  rewrite forallb_forall in Hc. specialize (Hc c2 (in_all_ascii c2)).
  apply orb_true_iff in Hc as [Hc|Hc].
  - apply Ascii.eqb_eq in Hc. contradiction.
  - now apply negb_true_iff in Hc.
Qed.

Lemma escape_char_inj c1 c2 x y :
  escape_char c1 ++ x = escape_char c2 ++ y -> c1 = c2 /\ x = y.
Proof.
  intros E. destruct (ascii_dec c1 c2) as [->|Hne].
  - split; [reflexivity|]. now apply app_inv_head in E.
  - exfalso. destruct (app_eq_is_prefix _ _ _ _ E) as [Hp|Hp].
    + rewrite escape_char_not_prefix in Hp by exact Hne. discriminate.
    + rewrite escape_char_not_prefix in Hp by (intros ->; now apply Hne). discriminate.
Qed.

Lemma escape_char_head c x :
  exists a rest, escape_char c ++ x = a :: rest /\ a <> dquote.
Proof.
  pose proof escape_char_head_check as Hc.
  rewrite forallb_forall in Hc. specialize (Hc c (in_all_ascii c)).
  destruct (escape_char c) as [|a t]; [discriminate|].
  exists a, (t ++ x). split; [reflexivity|].
  apply negb_true_iff, Ascii.eqb_neq in Hc. exact Hc.
Qed.

Lemma escape_inj s1 s2 r1 r2 :
  escape s1 ++ dquote :: r1 = escape s2 ++ dquote :: r2 -> s1 = s2 /\ r1 = r2.
Proof.
  unfold escape. revert s2.
  induction s1 as [|c1 s1 IH]; intros [|c2 s2]; cbn [flat_map]; intros E.
  - cbn in E. now injection E as ->.
  - exfalso. rewrite <- app_assoc in E.
    destruct (escape_char_head c2 (flat_map escape_char s2 ++ dquote :: r2))
      as (a & rest & Ea & Hne).
    rewrite Ea in E. cbn in E. injection E as E _. now apply Hne.
  - exfalso. rewrite <- app_assoc in E.
    destruct (escape_char_head c1 (flat_map escape_char s1 ++ dquote :: r1))
      as (a & rest & Ea & Hne).
    rewrite Ea in E. cbn in E. injection E as E _. now apply Hne.
  - rewrite <- !app_assoc in E. apply escape_char_inj in E as [-> E].
    apply IH in E as [-> ->]. auto.
Qed.

Lemma chars_inj s1 s2 : chars s1 = chars s2 -> s1 = s2.
Proof.
  intros E. rewrite <- (string_of_list_ascii_of_string s1),
    <- (string_of_list_ascii_of_string s2). unfold chars in E. now rewrite E.
Qed.

Lemma quote_inj s1 s2 r1 r2 :
  quote s1 ++ r1 = quote s2 ++ r2 -> s1 = s2 /\ r1 = r2.
Proof.
  unfold quote. cbn. rewrite <- !app_assoc. cbn. intros E. injection E as E.
  apply escape_inj in E as [E ->]. split; [now apply chars_inj|reflexivity].
Qed.

(** ** Integers *)

Lemma uint_chars_inj d1 :
  forall d2 r1 r2,
    delimited r1 -> delimited r2 ->
    uint_chars d1 ++ r1 = uint_chars d2 ++ r2 -> d1 = d2 /\ r1 = r2.
Proof.
  induction d1 as [|d1 IH|d1 IH|d1 IH|d1 IH|d1 IH|d1 IH|d1 IH|d1 IH|d1 IH|d1 IH];
    intros [|d2|d2|d2|d2|d2|d2|d2|d2|d2|d2] r1 r2 H1 H2 E; cbn in E;
    try (split; [reflexivity|exact E]);
    try (subst; cbn in *; discriminate);
    try (injection E as E; apply IH in E as [-> ->]; auto; fail);
    try discriminate.
Qed.

Lemma uint_chars_head d r :
  d <> Decimal.Nil ->
  exists c rest, uint_chars d ++ r = c :: rest /\ is_digit c = true.
Proof.
  intros Hd. destruct d; [contradiction|..]; cbn; eexists _, _; split; reflexivity.
Qed.

Lemma to_int_pos_nonnil n d : Z.to_int n = Decimal.Pos d -> d <> Decimal.Nil.
Proof.
  destruct n; cbn; intros [= <-]; [discriminate|].
  apply Unsigned.to_uint_nonnil.
Qed.

Lemma int_chars_inj n1 n2 r1 r2 :
  delimited r1 -> delimited r2 ->
  int_chars n1 ++ r1 = int_chars n2 ++ r2 -> n1 = n2 /\ r1 = r2.
Proof.
  intros H1 H2. unfold int_chars.
  destruct (Z.to_int n1) as [d1|d1] eqn:E1, (Z.to_int n2) as [d2|d2] eqn:E2;
    intros E.
  - apply uint_chars_inj in E as [-> ->]; auto.
    split; [|reflexivity]. apply DecimalZ.to_int_inj. congruence.
  - exfalso. destruct (uint_chars_head d1 r1 (to_int_pos_nonnil _ _ E1))
      as (c & rest & Ec & Hc).
    rewrite Ec in E. cbn in E. injection E as -> _. discriminate.
  - exfalso. destruct (uint_chars_head d2 r2 (to_int_pos_nonnil _ _ E2))
      as (c & rest & Ec & Hc).
    rewrite Ec in E. cbn in E. injection E as <- _. discriminate.
  - cbn in E. injection E as E. apply uint_chars_inj in E as [-> ->]; auto.
    split; [|reflexivity]. apply DecimalZ.to_int_inj. congruence.
Qed.

(** ** Induction on values *)

Lemma json_ind (P : json -> Prop) :
  P JNull ->
  (forall b, P (JBool b)) ->
  (forall n, P (JInt n)) ->
  (forall s, P (JStr s)) ->
  (forall l, Forall P l -> P (JList l)) ->
  (forall d, Forall (fun kv => P (snd kv)) d -> P (JDict d)) ->
  forall v, P v.
Proof.
  intros HNull HBool HInt HStr HList HDict.
  fix IH 1. intros [|b|n|s|l|d].
  - exact HNull.
  - apply HBool.
  - apply HInt.
  - apply HStr.
  - apply HList. induction l as [|x l IHl]; constructor; [apply IH|exact IHl].
  - apply HDict. induction d as [|[k x] d IHd]; constructor; [apply IH|exact IHd].
Qed.

Lemma wf_json_list l : wf_json (JList l) <-> Forall wf_json l.
Proof.
  cbn. induction l as [|x l IH]; [split; constructor|].
  rewrite Forall_cons, <- IH. reflexivity.
Qed.

Lemma wf_json_dict d :
  wf_json (JDict d) <-> NoDup (map fst d) /\ Forall (fun kv => wf_json (snd kv)) d.
Proof.
  cbn. apply and_iff_compat_l.
  induction d as [|[k x] d IH]; [split; constructor|].
  rewrite Forall_cons, <- IH. reflexivity.
Qed.

(** [assoc] and membership. *)
Lemma assoc_In {A} k (x : A) d : assoc k d = Some x -> In (k, x) d.
Proof.
  induction d as [|[k' y] d IH]; cbn; [discriminate|].
  destruct (String.eqb_spec k k') as [->|Hne].
  - intros [= ->]. now left.
  - intros H. right. now apply IH.
Qed.

Lemma In_assoc {A} k (x : A) d : NoDup (map fst d) -> In (k, x) d -> assoc k d = Some x.
Proof.
  induction d as [|[k' y] d IH]; cbn; [contradiction|].
  intros Hnd Hin. apply NoDup_cons in Hnd as [Hk Hnd].
  destruct (String.eqb_spec k k') as [->|Hne].
  - destruct Hin as [[= ->]|Hin]; [reflexivity|].
    exfalso. apply Hk. apply list_elem_of_In. apply in_map_iff. now exists (k', x).
  - destruct Hin as [[= -> ->]|Hin]; [contradiction|]. now apply IH.
Qed.

Lemma same_value_list l l' : same_value (JList l) (JList l') = same_list l l'.
Proof. reflexivity. Qed.

Lemma same_value_dict d d' :
  same_value (JDict d) (JDict d') = (length d =? length d')%nat && same_items d d'.
Proof. reflexivity. Qed.

Lemma same_list_cons x l y l' :
  same_list (x :: l) (y :: l') = same_value x y && same_list l l'.
Proof. reflexivity. Qed.

Lemma same_items_spec d d' :
  same_items d d' = true <->
  forall k x, In (k, x) d -> exists y, assoc k d' = Some y /\ same_value x y = true.
Proof.
  induction d as [|[k0 x0] d IH].
  - split; [intros _ k x []|reflexivity].
  - change (same_items ((k0, x0) :: d) d')
      with (match assoc k0 d' with
            | Some y => same_value x0 y
            | None => false
            end && same_items d d').
    rewrite andb_true_iff, IH. split.
    + intros [H0 Hd] k x [[= -> ->]|Hin]; [|now apply Hd].
      destruct (assoc k d') as [y|]; [|discriminate]. eauto.
    + intros Hall. split.
      * destruct (Hall k0 x0 (or_introl eq_refl)) as (y & -> & Hy). exact Hy.
      * intros k x Hin. apply Hall. now right.
Qed.

(** ** The first character of an encoded value tells its kind *)

Lemma dumps_head v r :
  exists c rest, dumps v ++ r = c :: rest /\ head_tag c = tag v.
Proof.
  destruct v as [|[]|n|s|l|d]; try (eexists _, _; split; reflexivity).
  cbn [dumps tag]. unfold int_chars.
  destruct (Z.to_int n) as [d|d] eqn:E.
  - destruct (uint_chars_head d r (to_int_pos_nonnil _ _ E)) as (c & rest & -> & Hc).
    exists c, rest. split; [reflexivity|]. unfold head_tag. now rewrite Hc.
  - eexists _, _. split; reflexivity.
Qed.

Lemma dumps_tag v1 v2 r1 r2 :
  dumps v1 ++ r1 = dumps v2 ++ r2 -> tag v1 = tag v2.
Proof.
  intros E.
  destruct (dumps_head v1 r1) as (c1 & t1 & E1 & H1).
  destruct (dumps_head v2 r2) as (c2 & t2 & E2 & H2).
  rewrite E1, E2 in E. injection E as -> _. congruence.
Qed.

Lemma dumps_head_not c r v r' :
  head_tag c = 6 -> c :: r <> dumps v ++ r'.
Proof.
  intros Hc E. destruct (dumps_head v r') as (c' & t & E' & H').
  rewrite E' in E. injection E as -> _. rewrite Hc in H'. now destruct v.
Qed.

(** ** Sequences of items *)

Lemma join_items_cons x items t :
  join_items (x :: items) ++ t = x ++ sep_items items t.
Proof.
  destruct items as [|y items]; cbn [join_items sep_items]; [reflexivity|].
  rewrite <- app_assoc. reflexivity.
Qed.

Lemma sep_items_delimited items (c : ascii) r :
  is_digit c = false -> delimited (sep_items items (c :: r)).
Proof. intros Hc. destruct items; [exact Hc|reflexivity]. Qed.

Lemma sep_items_inj (close : ascii) items1 items2 r1 r2 :
  close <> ","%char ->
  sep_items items1 (close :: r1) = sep_items items2 (close :: r2) ->
  (items1 = [] /\ items2 = [] /\ r1 = r2) \/
  (items1 <> [] /\ items2 <> [] /\
   join_items items1 ++ close :: r1 = join_items items2 ++ close :: r2).
Proof.
  intros Hc. destruct items1 as [|x1 i1], items2 as [|x2 i2]; cbn [sep_items]; intros E.
  - left. now injection E as ->.
  - exfalso. injection E as E _. contradiction.
  - exfalso. injection E as E _. now apply Hc.
  - right. injection E as E. repeat split; try discriminate. exact E.
Qed.

Lemma list_items_inj l1 :
  Forall self_delimiting l1 ->
  forall l2 r1 r2,
    Forall wf_json l1 -> Forall wf_json l2 ->
    join_items (map dumps l1) ++ "]"%char :: r1
    = join_items (map dumps l2) ++ "]"%char :: r2 ->
    same_list l1 l2 = true /\ r1 = r2.
Proof.
  induction 1 as [|x l1 Hx Hl1 IH]; intros [|y l2] r1 r2 Hw1 Hw2 E.
  - cbn in E. now injection E as ->.
  - exfalso. cbn [map] in E. rewrite join_items_cons in E. cbn [join_items app] in E.
    revert E. now apply dumps_head_not.
  - exfalso. cbn [map] in E. rewrite join_items_cons in E. cbn [join_items app] in E.
    symmetry in E. revert E. now apply dumps_head_not.
  - cbn [map] in E. rewrite !join_items_cons in E.
    apply Forall_cons in Hw1 as [Hwx Hw1], Hw2 as [Hwy Hw2].
    apply Hx in E as [Hxy E]; auto using sep_items_delimited.
    rewrite same_list_cons, Hxy. cbn [andb].
    apply sep_items_inj in E as [(E1 & E2 & ->)|(E1 & E2 & E)]; [| |discriminate].
    + destruct l1, l2; try discriminate. auto.
    + now apply IH.
Qed.

Lemma pair_items_inj L1 :
  Forall (encodes (fun x => wf_json x /\ self_delimiting x)) L1 ->
  forall L2 r1 r2,
    Forall (encodes wf_json) L2 ->
    join_items (map render_pair L1) ++ "}"%char :: r1
    = join_items (map render_pair L2) ++ "}"%char :: r2 ->
    L1 = L2 /\ r1 = r2.
Proof.
  induction 1 as [|[k1 t1] L1 (x & Ex & Hwx & Hx) HL1 IH];
    intros [|[k2 t2] L2] r1 r2 HL2 E.
  - cbn in E. now injection E as ->.
  - exfalso. cbn [map] in E. rewrite join_items_cons in E. cbn in E.
    injection E as E _. discriminate.
  - exfalso. cbn [map] in E. rewrite join_items_cons in E. cbn in E.
    injection E as E _. discriminate.
  - cbn [map] in E. rewrite !join_items_cons in E. unfold render_pair in E.
    cbn [fst snd] in *. rewrite <- !app_assoc in E.
    apply quote_inj in E as [-> E]. cbn in E. injection E as E.
    apply Forall_cons in HL2 as [(y & Ey & Hwy) HL2]. cbn [snd] in *. subst t1 t2.
    assert (Hd : forall items r, delimited (sep_items items ("}"%char :: r)))
      by (intros; now apply sep_items_delimited).
    pose proof E as E'. apply Hx in E as [_ E]; auto.
    rewrite E in E'. apply app_inv_tail in E'. rewrite E'.
    apply sep_items_inj in E as [(E1 & E2 & ->)|(E1 & E2 & E)]; [| |discriminate].
    + destruct L1, L2; try discriminate. auto.
    + apply IH in E as [-> ->]; auto.
Qed.

(** ** Values *)

Lemma dumps_dict d :
  dumps (JDict d)
  = "{"%char :: join_items (map render_pair (sort_items (map encode_item d)))
      ++ ["}"%char].
Proof. reflexivity. Qed.

Lemma map_fst_encode d : map fst (map encode_item d) = map fst d.
Proof. induction d as [|[k x] d IH]; cbn; congruence. Qed.

Lemma In_encode kt d :
  In kt (map encode_item d) <-> exists x, In (fst kt, x) d /\ snd kt = dumps x.
Proof.
  rewrite in_map_iff. split.
  - intros ([k x] & <- & Hin). exists x. auto.
  - intros (x & Hin & E). exists (fst kt, x). split; [|exact Hin].
    destruct kt. cbn in *. now subst.
Qed.

Theorem dumps_self_delimiting v : self_delimiting v.
Proof.
  induction v as [|b|n|s|l IHl|d IHd] using json_ind;
    intros v2 r1 r2 Hw1 Hw2 Hd1 Hd2 E;
    pose proof (dumps_tag _ _ _ _ E) as Ht;
    destruct v2 as [|b2|n2|s2|l2|d2]; try discriminate Ht; clear Ht.
  - cbn in E. now injection E as ->.
  - destruct b, b2; cbn in E; try discriminate; now injection E as ->.
  - cbn [dumps] in E. apply int_chars_inj in E as [-> ->]; auto.
    split; [apply Z.eqb_refl|reflexivity].
  - cbn [dumps] in E. apply quote_inj in E as [-> ->].
    split; [apply String.eqb_refl|reflexivity].
  - cbn [dumps] in E. injection E as E. rewrite <- !app_assoc in E. cbn [app] in E.
    rewrite same_value_list. apply wf_json_list in Hw1, Hw2.
    now apply (list_items_inj l IHl l2).
  - rewrite !dumps_dict in E. injection E as E.
    rewrite <- !app_assoc in E. cbn [app] in E.
    apply wf_json_dict in Hw1 as [Hnd1 Hw1], Hw2 as [Hnd2 Hw2].
    rewrite List.Forall_forall in Hw1, Hw2, IHd.
    apply pair_items_inj in E as [E ->].
    + split; [|reflexivity].
      assert (Hp : Permutation (map encode_item d) (map encode_item d2)).
      { rewrite <- (sort_items_perm (map encode_item d)), E. apply sort_items_perm. }
      rewrite same_value_dict. apply andb_true_iff. split.
      * apply Nat.eqb_eq. apply Permutation_length in Hp.
        now rewrite !length_map in Hp.
      * apply same_items_spec. intros k x Hin.
        assert (Hin2 : In (k, dumps x) (map encode_item d2)).
        { eapply Permutation_in; [exact Hp|]. apply In_encode. exists x. auto. }
        apply In_encode in Hin2 as (y & Hy & Exy). cbn [fst snd] in *.
        exists y. split; [now apply In_assoc|].
        apply (IHd (k, x) Hin y [] []); cbn; auto.
        -- apply (Hw1 (k, x) Hin).
        -- apply (Hw2 (k, y) Hy).
        -- now rewrite !app_nil_r.
    + apply List.Forall_forall. intros kt Hin.
      eapply Permutation_in in Hin; [|apply sort_items_perm].
      apply In_encode in Hin as (x & Hin & Ex). exists x.
      split; [exact Ex|]. split; [apply (Hw1 _ Hin)|apply (IHd _ Hin)].
    + apply List.Forall_forall. intros kt Hin.
      eapply Permutation_in in Hin; [|apply sort_items_perm].
      apply In_encode in Hin as (y & Hin & Ey). exists y.
      split; [exact Ey|apply (Hw2 _ Hin)].
Qed.

(** Two values with the same text are the same value. *)
Corollary dumps_inj v1 v2 :
  wf_json v1 -> wf_json v2 -> dumps v1 = dumps v2 -> same_value v1 v2 = true.
Proof.
  intros Hw1 Hw2 E.
  apply (dumps_self_delimiting v1 v2 [] []); cbn; auto.
  now rewrite !app_nil_r.
Qed.

(** The same value has the same text, whatever the order of insertion. *)
Theorem same_value_dumps v1 :
  forall v2, wf_json v1 -> wf_json v2 ->
             same_value v1 v2 = true -> dumps v1 = dumps v2.
Proof.
  induction v1 as [|b|n|s|l IHl|d IHd] using json_ind;
    intros [|b2|n2|s2|l2|d2] Hw1 Hw2 Hs; try discriminate Hs.
  - reflexivity.
  - cbn in Hs. apply Bool.eqb_prop in Hs. now subst.
  - cbn in Hs. apply Z.eqb_eq in Hs. now subst.
  - cbn in Hs. apply String.eqb_eq in Hs. now subst.
  - rewrite same_value_list in Hs. apply wf_json_list in Hw1, Hw2.
    cbn [dumps]. do 3 f_equal.
    revert l2 Hw1 Hw2 Hs. induction IHl as [|x l Hx Hl IH];
      intros [|y l2] Hw1 Hw2 Hs; try discriminate Hs; [reflexivity|].
    rewrite same_list_cons in Hs. apply andb_true_iff in Hs as [Hxy Hs].
    apply Forall_cons in Hw1 as [Hwx Hw1], Hw2 as [Hwy Hw2].
    cbn [map]. f_equal; [now apply Hx|now apply IH].
  - rewrite same_value_dict in Hs. apply andb_true_iff in Hs as [Hlen Hs].
    apply Nat.eqb_eq in Hlen. rewrite same_items_spec in Hs.
    apply wf_json_dict in Hw1 as [Hnd1 Hw1], Hw2 as [Hnd2 Hw2].
    rewrite List.Forall_forall in Hw1, Hw2, IHd.
    rewrite !dumps_dict. do 4 f_equal.
    apply sort_items_unique; [|now rewrite map_fst_encode].
    apply NoDup_Permutation_bis.
    + apply NoDup_ListNoDup. eapply NoDup_fmap_1 with (f := fst).
      change (NoDup (map fst (map encode_item d))). now rewrite map_fst_encode.
    + now rewrite !length_map, Hlen.
    + intros kt Hin. apply In_encode in Hin as (x & Hin & Ex).
      destruct (Hs _ _ Hin) as (y & Hy & Hxy).
      apply In_encode. exists y. split; [now apply assoc_In|].
      rewrite Ex.
      apply (IHd (fst kt, x) Hin y);
        [apply (Hw1 _ Hin) | apply (Hw2 (fst kt, y)); now apply assoc_In | exact Hxy].
Qed.

(* ===================================================================== *)
(** * The cache key *)
(* ===================================================================== *)

Lemma chars_append a b : chars (a +:+ b) = chars a ++ chars b.
Proof.
  unfold chars. induction a as [|c a IH]; [reflexivity|].
  change (String c a +:+ b) with (String c (a +:+ b)).
  cbn [list_ascii_of_string app]. f_equal. exact IH.
Qed.

Lemma append_inj_l a x y : a +:+ x = a +:+ y -> x = y.
Proof.
  induction a as [|c a IH]; [auto|].
  change (String c a +:+ x) with (String c (a +:+ x)).
  change (String c a +:+ y) with (String c (a +:+ y)).
  intros [= E]. auto.
Qed.

Lemma append_inj_r b x y : x +:+ b = y +:+ b -> x = y.
Proof.
  intros E. apply chars_inj. apply (f_equal chars) in E.
  rewrite !chars_append in E. now apply app_inv_tail in E.
Qed.

Lemma dumps_str_inj v w : dumps_str v = dumps_str w -> dumps v = dumps w.
Proof.
  unfold dumps_str. intros E. apply (f_equal list_ascii_of_string) in E.
  now rewrite !list_ascii_of_string_of_list_ascii in E.
Qed.

Lemma wf_context_dict c : wf_context c -> wf_json (Client._context_to_dict (Some c)).
Proof.
  intros (Ha & Hd & Hs). unfold Client._context_to_dict.
  apply wf_json_dict. split.
  - apply (bool_decide_unpack _). reflexivity.
  - repeat (apply Forall_cons; split); try exact Ha; try exact Hs; try exact I.
    + now destruct (user_id c).
    + fold (device_dict c). apply wf_json_dict. split.
      * unfold device_dict. clear -Hd.
        assert (E : forall l : list (string * string),
                   map fst (map (fun '(k, s) => (k, JStr s)) l) = map fst l).
        { induction l as [|[k s] l IH]; cbn; congruence. }
        now rewrite E.
      * apply List.Forall_forall. intros [k x] Hin. unfold device_dict in Hin.
        apply in_map_iff in Hin as ([k' s] & [= <- <-] & _). exact I.
    + constructor.
Qed.

Lemma same_context_dict c1 c2 :
  same_context c1 c2 <->
  same_value (Client._context_to_dict (Some c1)) (Client._context_to_dict (Some c2))
  = true.
Proof.
  unfold Client._context_to_dict.
  fold (device_dict c1). fold (device_dict c2).
  match goal with
  | |- _ <-> same_value (JDict ?a) (JDict ?b) = true => set (d1 := a); set (d2 := b)
  end.
  assert (Hmain : same_value (JDict d1) (JDict d2) = true <->
                  forall k x, In (k, x) d1 ->
                              exists y, assoc k d2 = Some y /\ same_value x y = true).
  { rewrite same_value_dict, andb_true_iff, same_items_spec.
    split; [now intros [_ Hall]|intros Hall; split; [reflexivity|exact Hall]]. }
  rewrite Hmain. clear Hmain. unfold same_context, d1, d2. split.
  - intros (Hu & Ha & Hd & Hs).
    intros k x [[= <- <-]|[[= <- <-]|[[= <- <-]|[[= <- <-]|[]]]]];
      cbn; eexists; (split; [reflexivity|]); auto.
    rewrite Hu. destruct (user_id c2); [apply String.eqb_refl|reflexivity].
  - intros Hall.
    destruct (Hall "userId" _ (or_introl eq_refl)) as (yu & [= <-] & Hu).
    destruct (Hall "attributes" _ (or_intror (or_introl eq_refl))) as (ya & [= <-] & Ha).
    destruct (Hall "device" _ (or_intror (or_intror (or_introl eq_refl))))
      as (yd & [= <-] & Hd).
    destruct (Hall "session" _ (or_intror (or_intror (or_intror (or_introl eq_refl)))))
      as (ys & [= <-] & Hs).
    repeat split; auto.
    destruct (user_id c1), (user_id c2); try discriminate Hu; [|reflexivity].
    cbn in Hu. apply String.eqb_eq in Hu. now subst.
Qed.

Lemma cache_key_eq_iff config flag_key c1 c2 :
  Client._build_cache_key config flag_key (Some c1)
  = Client._build_cache_key config flag_key (Some c2) <->
  dumps (Client._context_to_dict (Some c1)) = dumps (Client._context_to_dict (Some c2)).
Proof.
  unfold Client._build_cache_key. split.
  - intros E. apply append_inj_l, append_inj_l, append_inj_r in E.
    now apply dumps_str_inj.
  - intros E. unfold dumps_str. now rewrite E.
Qed.

(** C3: for one flag key and one environment, two contexts with the same
    user id and the same attribute, device and session dicts have the same
    cache key, in whatever order the dicts were filled; two contexts that
    give different values to some attribute have different cache keys. *)
Theorem cache_key_determinism
    (config : FlexFlagConfig) (flag_key : string) (c1 c2 : EvaluationContext) :
  wf_context c1 ->
  wf_context c2 ->
  (same_context c1 c2 ->
   Client._build_cache_key config flag_key (Some c1)
   = Client._build_cache_key config flag_key (Some c2)) /\
  (forall k x1 x2,
      assoc k (attributes c1) = Some x1 ->
      assoc k (attributes c2) = Some x2 ->
      same_value x1 x2 = false ->
      Client._build_cache_key config flag_key (Some c1)
      <> Client._build_cache_key config flag_key (Some c2)).
Proof.
  intros Hw1 Hw2. pose proof (wf_context_dict c1 Hw1) as Hd1.
  pose proof (wf_context_dict c2 Hw2) as Hd2. split.
  - intros Hsame. apply cache_key_eq_iff.
    apply same_value_dumps; auto. now apply same_context_dict.
  - intros k x1 x2 H1 H2 Hdiff E. apply cache_key_eq_iff in E.
    apply dumps_inj in E; auto.
    apply same_context_dict in E as (_ & Ha & _).
    rewrite same_value_dict in Ha. apply andb_true_iff in Ha as [_ Ha].
    rewrite same_items_spec in Ha.
    destruct (Ha k x1 (assoc_In _ _ _ H1)) as (y & Hy & Hxy).
    rewrite H2 in Hy. injection Hy as <-. congruence.
Qed.

(** Permuting the items of the attribute dict gives the same context. *)
Lemma same_value_refl v : wf_json v -> same_value v v = true.
Proof.
  induction v as [|b|n|s|l IHl|d IHd] using json_ind; intros Hw.
  - reflexivity.
  - now destruct b.
  - apply Z.eqb_refl.
  - apply String.eqb_refl.
  - rewrite same_value_list. apply wf_json_list in Hw.
    induction IHl as [|x l Hx Hl IH]; [reflexivity|].
    apply Forall_cons in Hw as [Hwx Hw].
    rewrite same_list_cons, Hx, IH; auto.
  - rewrite same_value_dict, Nat.eqb_refl. cbn [andb].
    apply wf_json_dict in Hw as [Hnd Hw]. rewrite List.Forall_forall in Hw, IHd.
    apply same_items_spec. intros k x Hin. exists x.
    split; [now apply In_assoc|]. apply (IHd _ Hin), (Hw _ Hin).
Qed.

Lemma same_value_permutation d1 d2 :
  wf_json (JDict d1) -> Permutation d1 d2 ->
  same_value (JDict d1) (JDict d2) = true.
Proof.
  intros Hw Hp. apply wf_json_dict in Hw as [Hnd Hw].
  rewrite List.Forall_forall in Hw.
  rewrite same_value_dict, (Permutation_length Hp), Nat.eqb_refl. cbn [andb].
  apply same_items_spec. intros k x Hin. exists x. split.
  - apply In_assoc; [now rewrite <- (Permutation_map fst Hp)|].
    eapply Permutation_in; eassumption.
  - apply same_value_refl, (Hw _ Hin).
Qed.

(** The attributes of [ctx_a] and [ctx_b] are the same in another order:
    one cache key; [ctx_c] has another value for "age": another cache key. *)
Lemma cache_key_determinism_witness :
  let config := Examples.config_with streaming ∅ in
  Client._build_cache_key config "x" (Some Examples.ctx_a)
  = Client._build_cache_key config "x" (Some Examples.ctx_b) /\
  Client._build_cache_key config "x" (Some Examples.ctx_a)
  <> Client._build_cache_key config "x" (Some Examples.ctx_c).
Proof.
  assert (Hnd : forall l : list string, bool_decide (NoDup l) = true -> NoDup l)
    by (intros l; apply bool_decide_eq_true_1).
  assert (Hwa : wf_context Examples.ctx_a)
    by (repeat split; try (apply Hnd; reflexivity)).
  assert (Hwb : wf_context Examples.ctx_b)
    by (repeat split; try (apply Hnd; reflexivity)).
  assert (Hwc : wf_context Examples.ctx_c)
    by (repeat split; try (apply Hnd; reflexivity)).
  split.
  - apply (proj1 (cache_key_determinism _ "x" _ _ Hwa Hwb)).
    repeat split; reflexivity.
  - apply (proj2 (cache_key_determinism _ "x" _ _ Hwa Hwc) "age" (JInt 30) (JInt 31));
      reflexivity.
Defined.

(* ===================================================================== *)
(** * Properties of the evaluation pipeline *)
(* ===================================================================== *)

(* ===================================================================== *)
(** * Reasoning about coroutines *)
(* ===================================================================== *)

Section Logic.

Context {S : Type}.

Lemma triple_ret {A} (P : S -> Prop) (a : A) Q R :
  (forall s, P s -> Q a s) -> triple P (ret a) Q R.
Proof. intros HQ s Hs. cbn. auto. Qed.

Lemma triple_raise {A} (P : S -> Prop) e (Q : A -> S -> Prop) R :
  (forall s, P s -> R e s) -> triple P (raise e) Q R.
Proof. intros HR s Hs. cbn. auto. Qed.

Lemma triple_gets {A} (P : S -> Prop) (f : S -> A) Q R :
  (forall s, P s -> Q (f s) s) -> triple P (gets f) Q R.
Proof. intros HQ s Hs. cbn. auto. Qed.

Lemma triple_modify (P : S -> Prop) (f : S -> S) Q R :
  (forall s, P s -> Q tt (f s)) -> triple P (modify f) Q R.
Proof. intros HQ s Hs. cbn. auto. Qed.

Lemma triple_bind {A B} (P : S -> Prop) (m : M S A) (k : A -> M S B) Q' Q R :
  triple P m Q' R ->
  (forall a, triple (Q' a) (k a) Q R) ->
  triple P (bind m k) Q R.
Proof.
  intros Hm Hk s Hs. unfold bind. specialize (Hm s Hs).
  destruct (m s) as [[a|e|] s']; try assumption.
  exact (Hk a s' Hm).
Qed.

Lemma triple_try_catch {A} (P : S -> Prop) (m : M S A) h Q R' R :
  triple P m Q R' ->
  (forall e, triple (R' e) (h e) Q R) ->
  triple P (try_catch m h) Q R.
Proof.
  intros Hm Hh s Hs. unfold try_catch. specialize (Hm s Hs).
  destruct (m s) as [[a|e|] s']; try assumption.
  exact (Hh e s' Hm).
Qed.

Lemma triple_conseq {A} (P P' : S -> Prop) (m : M S A) (Q Q' : A -> S -> Prop)
    (R R' : exn -> S -> Prop) :
  triple P' m Q' R' ->
  (forall s, P s -> P' s) ->
  (forall a s, Q' a s -> Q a s) ->
  (forall e s, R' e s -> R e s) ->
  triple P m Q R.
Proof.
  intros Hm HP HQ HR s Hs. specialize (Hm s (HP s Hs)).
  destruct (m s) as [[a|e|] s']; auto.
Qed.

Lemma triple_for_each {A} (I : S -> Prop) (xs : list A) (body : A -> M S unit) R :
  (forall x, triple I (body x) (fun _ => I) R) ->
  triple I (for_each xs body) (fun _ => I) R.
Proof.
  intros Hbody. induction xs as [|x xs IH]; cbn [for_each].
  - apply triple_ret. auto.
  - eapply triple_bind; [apply Hbody|]. intros u. exact IH.
Qed.

(** Equations for running a sequence step by step. *)
Lemma bind_ret_run {A B} (m : M S A) (k : A -> M S B) s a s' :
  m s = (Ret a, s') -> bind m k s = k a s'.
Proof. intros E. unfold bind. now rewrite E. Qed.

Lemma bind_raise_run {A B} (m : M S A) (k : A -> M S B) s e s' :
  m s = (Raise e, s') -> bind m k s = (Raise e, s').
Proof. intros E. unfold bind. now rewrite E. Qed.

Lemma try_ret_run {A} (m : M S A) h s a s' :
  m s = (Ret a, s') -> try_catch m h s = (Ret a, s').
Proof. intros E. unfold try_catch. now rewrite E. Qed.

Lemma try_raise_run {A} (m : M S A) h s e s' :
  m s = (Raise e, s') -> try_catch m h s = h e s'.
Proof. intros E. unfold try_catch. now rewrite E. Qed.

Lemma triple_pre_pure {A} (P : S -> Prop) (phi : Prop) (m : M S A) Q R :
  (phi -> triple P m Q R) -> triple (fun s => P s /\ phi) m Q R.
Proof. intros Hm s [Hs Hphi]. exact (Hm Hphi s Hs). Qed.

End Logic.

(* ===================================================================== *)
(** * The pipeline never suspends and never raises *)
(* ===================================================================== *)

Section Responsive.

Context {C : Type} `{CacheProvider C}.
Variable config : FlexFlagConfig.
Variable clock : nat -> Q.
Variable server : nat -> Client.request -> Client.http_result.

Variable Inv : C -> Prop.
Hypothesis Hresp : responsive Inv.

Abbreviation T := (Client.t C).
Abbreviation anyQ := (fun _ (s : T) => (cache_ok Inv) s).
Abbreviation anyR := (fun (_ : exn) (s : T) => (cache_ok Inv) s).
Abbreviation noR := (fun (_ : exn) (_ : T) => False).

Lemma on_cache_ok {A} (c : C) (m : M C A) :
  triple Inv m (fun _ => Inv) (fun _ => Inv) ->
  triple (fun s : T => Inv c) (Client.on_cache c m) anyQ anyR.
Proof.
  intros Hm s Hc. unfold Client.on_cache. specialize (Hm c Hc).
  destruct (m c) as [[a|e|] c']; cbn; auto.
Qed.

Lemma _get_from_cache_ok key :
  triple (cache_ok Inv) (Client._get_from_cache key) anyQ noR.
Proof.
  intros s Hs. unfold Client._get_from_cache, bind, gets, try_catch.
  unfold cache_ok in Hs. destruct (Client.cache s) as [c|] eqn:Ec; cbn.
  - destruct Hresp as [Hget _]. specialize (Hget key c Hs).
    unfold Client.on_cache. destruct (provider_get key c) as [[a|e|] c']; cbn; auto.
  - unfold cache_ok. now rewrite Ec.
Qed.

Lemma _set_cache_ok key v :
  triple (cache_ok Inv) (Client._set_cache key v) anyQ noR.
Proof.
  intros s Hs. unfold Client._set_cache, bind, gets, try_catch.
  unfold cache_ok in Hs. destruct (Client.cache s) as [c|] eqn:Ec; cbn.
  - destruct Hresp as [_ Hset]. specialize (Hset key v None c Hs).
    unfold Client.on_cache. destruct (provider_set key v None c) as [[a|e|] c']; cbn; auto.
  - unfold cache_ok. now rewrite Ec.
Qed.

(** Everything else leaves [self.cache] alone. *)
Lemma triple_frame_ret {A} (m : M T A) :
  (forall s, exists a s', m s = (Ret a, s') /\ Client.cache s' = Client.cache s) ->
  triple (cache_ok Inv) m anyQ noR.
Proof.
  intros Hm s Hs. destruct (Hm s) as (a & s' & -> & Ec).
  unfold cache_ok in *. now rewrite Ec.
Qed.

Lemma time_time_ok : triple (cache_ok Inv) (Client.time_time clock) anyQ noR.
Proof. apply triple_frame_ret. intros s. eauto. Qed.

Lemma sleep_ok d : triple (cache_ok Inv) (Client.sleep d) anyQ noR.
Proof. apply triple_frame_ret. intros s. eexists _, _. split; [reflexivity|]. reflexivity. Qed.

Lemma fire_ok b e : triple (cache_ok Inv) (Client.fire b e) anyQ noR.
Proof. apply triple_frame_ret. intros s. destruct b; eexists _, _; (split; [reflexivity|]); reflexivity. Qed.

Lemma update_metrics_ok f : triple (cache_ok Inv) (Client.update_metrics f) anyQ noR.
Proof. apply triple_frame_ret. intros s. eexists _, _. split; [reflexivity|]. reflexivity. Qed.

Lemma _update_average_latency_ok q :
  triple (cache_ok Inv) (Client._update_average_latency q) anyQ noR.
Proof. apply update_metrics_ok. Qed.

Lemma is_offline_ok : triple (cache_ok Inv) (Client.is_offline config) anyQ noR.
Proof. apply triple_frame_ret. intros s. eexists _, _. split; [reflexivity|]. reflexivity. Qed.

Lemma or_self_ok ctx : triple (cache_ok Inv) (Client.or_self ctx) anyQ noR.
Proof. apply triple_frame_ret. intros s. destruct ctx; eexists _, _; (split; [reflexivity|]); reflexivity. Qed.

Lemma post_ok r : triple (cache_ok Inv) (Client.post server r) anyQ anyR.
Proof.
  intros s Hs. unfold Client.post.
  destruct (server _ r); cbn; exact Hs.
Qed.

Lemma response_json_ok body : triple (cache_ok Inv) (Client.response_json body) anyQ anyR.
Proof.
  intros s Hs. unfold Client.response_json.
  destruct body as [[]|]; cbn; exact Hs.
Qed.

Lemma items_ok v : triple (cache_ok Inv) (Client.items v) anyQ anyR.
Proof. intros s Hs. destruct v; cbn; exact Hs. Qed.


Lemma triple_noR {A} (P : T -> Prop) (m : M T A) Q (R : exn -> T -> Prop) :
  triple P m Q noR -> triple P m Q R.
Proof. intros Hm. eapply triple_conseq; [exact Hm|auto..]. intros e s []. Qed.

Ltac prim :=
  first [ apply time_time_ok | apply sleep_ok | apply fire_ok
        | apply update_metrics_ok | apply _update_average_latency_ok
        | apply is_offline_ok | apply or_self_ok | apply post_ok
        | apply response_json_ok | apply items_ok
        | apply _get_from_cache_ok | apply _set_cache_ok ].
Ltac step :=
  eapply triple_bind; [ first [ prim | apply triple_noR; prim ] | intros ? ].

(** An attempt returns a result only if the server answered 200 or 404. *)
Lemma remote_attempt_ok payload dv :
  triple (cache_ok Inv) (Client.remote_attempt clock server payload dv)
    (fun r s => (cache_ok Inv) s /\ ~ always_fails server) anyR.
Proof.
  intros s Hs. unfold Client.remote_attempt, bind, Client.post.
  assert (Hf : always_fails server -> fails (server (length (Client.requests s)) payload))
    by (intros Ha; apply Ha).
  destruct (server _ payload) as [status body|e]; cbn; [|exact Hs].
  destruct (status =? 200)%Z eqn:E200.
  - apply Z.eqb_eq in E200.
    destruct body as [[| | | | |d]|]; cbn; try exact Hs.
    split; [exact Hs|]. intros Ha. now destruct (Hf Ha).
  - destruct (status =? 404)%Z eqn:E404; cbn; [|exact Hs].
    apply Z.eqb_eq in E404. split; [exact Hs|]. intros Ha. now destruct (Hf Ha).
Qed.

Lemma retry_loop_ok attempts payload dv :
  triple (cache_ok Inv) (Client.retry_loop config clock server attempts payload dv)
    (fun r s => (cache_ok Inv) s /\ ~ always_fails server) anyR.
Proof.
  induction attempts as [|attempt rest IH]; cbn [Client.retry_loop].
  - apply triple_raise. auto.
  - eapply triple_try_catch; [apply remote_attempt_ok|].
    intros e. cbv beta.
    destruct (Z.of_nat attempt =? _)%Z.
    + apply triple_raise. auto.
    + eapply triple_bind; [apply triple_noR, sleep_ok|]. intros u. exact IH.
Qed.

Lemma _evaluate_remote_ok fk ctx dv :
  triple (cache_ok Inv) (Client._evaluate_remote config clock server fk ctx dv)
    (fun r s => (cache_ok Inv) s /\ ~ always_fails server) anyR.
Proof.
  unfold Client._evaluate_remote. step. apply retry_loop_ok.
Qed.

Lemma _evaluate_offline_ok fk dv st (R : exn -> T -> Prop) :
  triple (cache_ok Inv) (Client._evaluate_offline config clock fk dv st)
    (fun r s => (cache_ok Inv) s /\ offline_result config fk dv r) R.
Proof.
  unfold Client._evaluate_offline. step. step.
  apply triple_ret. intros s Hs. split; [exact Hs|]. split; reflexivity.
Qed.

Lemma evaluate_with_details_ok fk ctx dv :
  triple (cache_ok Inv) (Client.evaluate_with_details config clock server fk ctx dv)
    (fun r s => (cache_ok Inv) s /\
                (reason r = CACHED \/ offline_result config fk dv r \/ ~ always_fails server))
    noR.
Proof.
  unfold Client.evaluate_with_details. step. step.
  eapply triple_try_catch with (R' := anyR).
  - step. destruct (is_not_None _).
    + do 4 step. step. step.
      apply triple_ret. intros s Hs. split; [exact Hs|]. now left.
    + do 3 step. destruct a4.
      * eapply triple_conseq; [apply (_evaluate_offline_ok fk dv _ anyR)|auto..].
        cbv beta. intros r s [? ?]. auto.
      * eapply triple_bind; [apply _evaluate_remote_ok|]. intros r.
        apply triple_pre_pure. intros Hr.
        do 5 step.
        apply triple_ret. intros s Hs. split; [exact Hs|]. auto.
  - intros e. cbv beta. do 2 step.
    eapply triple_conseq; [apply (_evaluate_offline_ok fk dv _ noR)|auto..].
    cbv beta. intros r s [? ?]. auto.
Qed.

End Responsive.

Section Runs.

Context {C : Type} `{CacheProvider C}.
Variable config : FlexFlagConfig.
Variable clock : nat -> Q.
Variable server : nat -> Client.request -> Client.http_result.
Variable Inv : C -> Prop.
Hypothesis Hresp : responsive Inv.

Abbreviation T := (Client.t C).

Lemma _get_from_cache_run key s :
  cache_ok Inv s ->
  exists c', Client._get_from_cache key s
             = (Ret (cache_lookup key s), Client.with_cache c' s) /\
             cache_ok Inv (Client.with_cache c' s).
Proof.
  intros Hs. unfold Client._get_from_cache, cache_lookup, bind, gets, try_catch,
    Client.on_cache, cache_ok in *.
  destruct (Client.cache s) as [c|] eqn:Ec; cbn.
  - destruct Hresp as [Hget _]. specialize (Hget key c Hs).
    destruct (provider_get key c) as [[v|e|] c']; cbn; [| |contradiction];
      exists (Some c'); split; auto.
  - exists None. split; [|exact I]. unfold ret. f_equal.
    destruct s; cbn in *; now subst.
Qed.

Lemma _set_cache_run key v s :
  cache_ok Inv s ->
  exists c', Client._set_cache key v s = (Ret tt, Client.with_cache c' s) /\
             cache_ok Inv (Client.with_cache c' s).
Proof.
  intros Hs. unfold Client._set_cache, bind, gets, try_catch,
    Client.on_cache, cache_ok in *.
  destruct (Client.cache s) as [c|] eqn:Ec; cbn.
  - destruct Hresp as [_ Hset]. specialize (Hset key v None c Hs).
    destruct (provider_set key v None c) as [[u|e|] c']; cbn; [| |contradiction];
      exists (Some c'); split; auto. now destruct u.
  - exists None. split; [|exact I]. unfold ret. f_equal.
    destruct s; cbn in *; now subst.
Qed.

Ltac state_eq :=
  unfold net_state, Client.with_sleeps, Client.with_requests, Client.with_ticks,
    Client.with_metrics, Client.with_fired, Client.with_cache;
  cbn; reflexivity.

Lemma retry_loop_run attempts payload dv (s : T) :
  exists out tk rq sl,
    Client.retry_loop config clock server attempts payload dv s
    = (out, net_state s tk rq sl) /\ remote_post server out.
Proof.
  revert s. induction attempts as [|attempt rest IH]; intros s; cbn [Client.retry_loop].
  - exists (Raise RetriesExhausted), (Client.ticks s), (Client.requests s), (Client.sleeps s).
    split; [|exact I]. unfold raise, net_state. f_equal. now destruct s.
  - match goal with
    | |- context [ try_catch _ ?h ] => set (hdl := h)
    end.
    assert (Hh : forall e s1, exists out tk rq sl,
               hdl e s1 = (out, net_state s1 tk rq sl) /\ remote_post server out).
    { intros e s1. subst hdl. cbv beta. destruct (_ =? _)%Z.
      - exists (Raise e), (Client.ticks s1), (Client.requests s1), (Client.sleeps s1).
        split; [|exact I]. unfold raise, net_state. f_equal. now destruct s1.
      - unfold bind, Client.sleep, modify.
        destruct (IH (Client.with_sleeps
                        (Client.sleeps s1 ++ [Client.retry_sleep config attempt]) s1))
          as (out & tk & rq & sl & E & Hout).
        rewrite E. exists out, tk, rq, sl. split; [state_eq|exact Hout]. }
    clearbody hdl.
    assert (Hraise : forall e s1 tk rq sl,
               net_state s1 tk rq sl = net_state s tk rq sl ->
               exists out tk rq sl,
                 hdl e s1 = (out, net_state s tk rq sl) /\ remote_post server out).
    { intros e s1 tk0 rq0 sl0 Hs1.
      destruct (Hh e s1) as (out & tk & rq & sl & E & Hout).
      exists out, tk, rq, sl. split; [|exact Hout]. rewrite E. f_equal.
      revert Hs1. unfold net_state, Client.with_sleeps, Client.with_requests,
        Client.with_ticks. cbn. intros [= -> -> -> -> ->]. reflexivity. }
    unfold try_catch, Client.remote_attempt, bind, Client.post.
    assert (Hf : always_fails server ->
                 fails (server (length (Client.requests s)) payload))
      by (intros Ha; apply Ha).
    destruct (server _ payload) as [status body|e]; cbn.
    + destruct (status =? 200)%Z eqn:E200; [|destruct (status =? 404)%Z eqn:E404].
      * apply Z.eqb_eq in E200.
        destruct body as [[| | | | |d]|]; cbn.
        6:{ eexists _, _, _, _. split; [state_eq|]. cbn.
            split; [|split].
            - destruct (truthy _); discriminate.
            - destruct (truthy _); discriminate.
            - intros Ha. now destruct (Hf Ha). }
        all: eapply Hraise with (tk := 0%nat) (rq := []) (sl := []); state_eq.
      * apply Z.eqb_eq in E404. cbn.
        eexists _, _, _, _. split; [state_eq|]. cbn.
        split; [discriminate|split; [discriminate|]].
        intros Ha. now destruct (Hf Ha).
      * cbn. eapply Hraise with (tk := 0%nat) (rq := []) (sl := []); state_eq.
    + eapply Hraise with (tk := 0%nat) (rq := []) (sl := []); state_eq.
Qed.


Lemma remote_attempt_fails payload dv (s : T) :
  fails (server (length (Client.requests s)) payload) ->
  Client.remote_attempt clock server payload dv s
  = (Raise (attempt_exn (server (length (Client.requests s)) payload)),
     Client.with_requests (Client.requests s ++ [payload]) s).
Proof.
  intros Hf. unfold Client.remote_attempt, bind, Client.post.
  destruct (server _ payload) as [status body|e]; cbn in *; [|reflexivity].
  destruct Hf as [H200 H404].
  apply Z.eqb_neq in H200, H404. now rewrite H200, H404.
Qed.

Lemma repeat_snoc {A} (x : A) n : repeat x n ++ [x] = x :: repeat x n.
Proof. induction n; cbn; [reflexivity|]. now rewrite IHn. Qed.

(** When every attempt fails, the loop sends one request per attempt, sleeps
    after every attempt but the last, and raises the last exception. *)
Lemma retry_loop_all_fail payload dv :
  always_fails server ->
  forall k a (s : T),
    (0 < k)%nat ->
    Z.of_nat (a + k) = retry_attempts (connection config) ->
    Client.retry_loop config clock server (seq a k) payload dv s
    = (Raise (attempt_exn (server (length (Client.requests s) + k - 1) payload)),
       net_state s (Client.ticks s)
         (Client.requests s ++ repeat payload k)
         (Client.sleeps s ++ map (Client.retry_sleep config) (seq a (k - 1)))).
Proof.
  intros Hall. induction k as [|k IH]; intros a s Hk Hn; [lia|].
  cbn [seq Client.retry_loop]. unfold try_catch.
  rewrite remote_attempt_fails by apply Hall.
  destruct (Z.of_nat a =? retry_attempts (connection config) - 1)%Z eqn:Elast.
  - apply Z.eqb_eq in Elast. assert (k = 0)%nat as -> by lia.
    unfold raise. cbn [repeat seq map Nat.sub]. rewrite app_nil_r.
    replace (length (Client.requests s) + 1 - 1)%nat with (length (Client.requests s)) by lia.
    f_equal.
  - apply Z.eqb_neq in Elast. assert (0 < k)%nat by lia.
    unfold bind at 1. unfold Client.sleep at 1, modify.
    rewrite IH by lia.
    cbn [Client.requests Client.with_sleeps Client.with_requests Client.sleeps Client.ticks].
    rewrite length_app. cbn [length].
    replace (length (Client.requests s) + 1 + k - 1)%nat
      with (length (Client.requests s) + S k - 1)%nat by lia.
    f_equal. unfold net_state, Client.with_sleeps, Client.with_requests, Client.with_ticks.
    cbn. f_equal.
    + rewrite <- app_assoc. reflexivity.
    + rewrite <- app_assoc. cbn [app]. f_equal.
      destruct k as [|k']; [lia|]. cbn [Nat.sub seq map].
      rewrite Nat.sub_0_r. reflexivity.
Qed.


Lemma _evaluate_remote_run fk ectx dv (s : T) :
  exists out tk rq sl,
    Client._evaluate_remote config clock server fk ectx dv s
    = (out, Client.with_metrics (Client.incr_network_requests (Client.metrics s))
              (net_state s tk rq sl)) /\ remote_post server out.
Proof.
  unfold Client._evaluate_remote, bind at 1. cbn [Client.update_metrics modify].
  match goal with
  | |- context [ Client.retry_loop _ _ _ ?a ?p ?d ?s0 ] =>
      destruct (retry_loop_run a p d s0) as (out & tk & rq & sl & Erun & Hout)
  end.
  rewrite Erun. exists out, tk, rq, sl. split; [state_eq|exact Hout].
Qed.

Lemma or_self_run ctx (s : T) :
  Client.or_self ctx s = (Ret (effective_context ctx s), s).
Proof. now destruct ctx. Qed.


Lemma fire_run b e (s : T) :
  Client.fire b e s
  = (Ret tt, Client.with_fired (Client.fired s ++ (if b then [e] else [])) s).
Proof.
  destruct b; cbn; [reflexivity|]. rewrite app_nil_r. now destruct s.
Qed.

Lemma evaluate_miss_run fk ctx dv (s : T) :
  cache_ok Inv s ->
  is_not_None (cache_lookup (Client._build_cache_key config fk (effective_context ctx s)) s)
    = false ->
  exists r s',
    Client.evaluate_with_details config clock server fk ctx dv s = (Ret r, s') /\
    cache_ok Inv s' /\
    reason r <> CACHED /\
    cache_misses (Client.metrics s') = (cache_misses (Client.metrics s) + 1)%Z /\
    cache_hits (Client.metrics s') = cache_hits (Client.metrics s) /\
    (exists rest,
        Client.fired s' =
        Client.fired s
        ++ (if on_cache_miss (events config) then [Client.CacheMiss fk] else [])
        ++ rest) /\
    (if offline_now config s
     then offline_result config fk dv r /\
          Client.requests s' = Client.requests s /\
          network_requests (Client.metrics s') = network_requests (Client.metrics s)
     else network_requests (Client.metrics s')
          = (network_requests (Client.metrics s) + 1)%Z /\
          (always_fails server -> offline_result config fk dv r)).
Proof.
  intros Hs Hmiss. unfold Client.evaluate_with_details.
  unfold bind at 1. cbn [Client.time_time].
  rewrite (bind_ret_run _ _ _ _ _ (or_self_run ctx _)).
  change (effective_context ctx (Client.with_ticks _ s))
    with (effective_context ctx s).
  set (key := Client._build_cache_key config fk (effective_context ctx s)) in *.
  set (s1 := Client.with_ticks (S (Client.ticks s)) s).
  assert (Hs1 : cache_ok Inv s1) by exact Hs.
  destruct (_get_from_cache_run key s1 Hs1) as (c1 & Eget & Hs2).
  change (cache_lookup key s1) with (cache_lookup key s) in Eget.
  unfold try_catch. rewrite (bind_ret_run _ _ _ _ _ Eget). rewrite Hmiss.
  rewrite (bind_ret_run _ _ _ _ _ (fire_run _ _ _)).
  unfold bind at 1. cbn [Client.update_metrics modify].
  unfold bind at 1. cbn [Client.is_offline gets].
  change (Client._offline_mode _ || _) with (offline_now config s).
  destruct (offline_now config s) eqn:Eoff.
  - cbn. eexists _, _. split; [reflexivity|]. cbn.
    split; [exact Hs2|]. split; [discriminate|]. split; [reflexivity|].
    split; [reflexivity|]. split; [exists []; now rewrite app_nil_r|].
    split; [split; reflexivity|]. split; reflexivity.
  - match goal with
    | |- context [ bind (Client._evaluate_remote _ _ _ ?f ?c ?d) _ ?s0 ] =>
        destruct (_evaluate_remote_run f c d s0) as (out & tk & rq & sl & Erun & Hout)
    end.
    unfold bind at 1. rewrite Erun.
    destruct out as [r|e|]; [| |contradiction].
    + destruct Hout as (HnC & HnO & Hnf).
      match type of Erun with
      | _ = (_, ?s4) => assert (Hs4 : cache_ok Inv s4) by exact Hs2
      end.
      destruct (_set_cache_run key (value r) _ Hs4) as (c2 & Eset & Hs5).
      rewrite (bind_ret_run _ _ _ _ _ Eset).
      unfold bind at 1. cbn [Client.update_metrics modify].
      unfold bind at 1. cbn [Client.time_time].
      unfold bind at 1. cbn [Client._update_average_latency Client.update_metrics modify].
      rewrite (bind_ret_run _ _ _ _ _ (fire_run _ _ _)).
      eexists _, _. split; [reflexivity|]. cbn.
      split; [exact Hs5|]. split; [exact HnC|].
      split; [destruct (_ =? _)%Z; reflexivity|].
      split; [destruct (_ =? _)%Z; reflexivity|].
      split; [eexists; symmetry; apply app_assoc|].
      split; [destruct (_ =? _)%Z; reflexivity|].
      intros Ha. contradiction.
    + unfold bind at 1. cbn [Client.update_metrics modify].
      rewrite (bind_ret_run _ _ _ _ _ (fire_run _ _ _)).
      cbn. eexists _, _. split; [reflexivity|]. cbn.
      split; [exact Hs2|]. split; [discriminate|]. split; [reflexivity|].
      split; [reflexivity|]. split; [eexists; symmetry; apply app_assoc|].
      split; [reflexivity|]. intros _. split; reflexivity.
Qed.


Lemma _evaluate_remote_all_fail fk ectx dv (s : T) :
  always_fails server ->
  (0 < retry_attempts (connection config))%Z ->
  let n := Z.to_nat (retry_attempts (connection config)) in
  Client._evaluate_remote config clock server fk ectx dv s
  = (Raise (attempt_exn (server (length (Client.requests s) + n - 1)
                           (payload_of config fk ectx))),
     Client.with_metrics (Client.incr_network_requests (Client.metrics s))
       (net_state s (Client.ticks s)
          (Client.requests s ++ repeat (payload_of config fk ectx) n)
          (Client.sleeps s ++ map (Client.retry_sleep config) (seq 0 (n - 1))))).
Proof.
  intros Hall Hn n. unfold Client._evaluate_remote, bind at 1.
  cbn [Client.update_metrics modify].
  fold (payload_of config fk ectx). fold n.
  rewrite (retry_loop_all_fail (payload_of config fk ectx) dv Hall n 0) by (subst n; lia).
  f_equal.
Qed.

(** A cache hit: the cached value is returned, nothing is sent. *)
Lemma evaluate_hit_run fk ctx dv (s : T) :
  cache_ok Inv s ->
  let key := Client._build_cache_key config fk (effective_context ctx s) in
  is_not_None (cache_lookup key s) = true ->
  exists r s',
    Client.evaluate_with_details config clock server fk ctx dv s = (Ret r, s') /\
    cache_ok Inv s' /\
    reason r = CACHED /\ value r = cache_lookup key s /\
    Client.requests s' = Client.requests s /\
    evaluations (Client.metrics s') = (evaluations (Client.metrics s) + 1)%Z /\
    cache_hits (Client.metrics s') = (cache_hits (Client.metrics s) + 1)%Z /\
    cache_misses (Client.metrics s') = cache_misses (Client.metrics s) /\
    let n := (evaluations (Client.metrics s) + 1)%Z in
    let sample := ((clock (S (Client.ticks s)) - clock (Client.ticks s)) * 1000)%Q in
    average_latency_ms (Client.metrics s') =
      if (n =? 0)%Z then sample
      else ((average_latency_ms (Client.metrics s) * inject_Z n + sample)
            / inject_Z (n + 1))%Q.
Proof.
  intros Hs key Hhit. unfold Client.evaluate_with_details.
  unfold bind at 1. cbn [Client.time_time].
  rewrite (bind_ret_run _ _ _ _ _ (or_self_run ctx _)).
  change (effective_context ctx (Client.with_ticks _ s))
    with (effective_context ctx s).
  fold key.
  set (s1 := Client.with_ticks (S (Client.ticks s)) s).
  assert (Hs1 : cache_ok Inv s1) by exact Hs.
  destruct (_get_from_cache_run key s1 Hs1) as (c1 & Eget & Hs2).
  change (cache_lookup key s1) with (cache_lookup key s) in Eget.
  unfold try_catch. rewrite (bind_ret_run _ _ _ _ _ Eget). rewrite Hhit.
  unfold bind at 1. cbn [Client.update_metrics modify].
  unfold bind at 1. cbn [Client.update_metrics modify].
  rewrite (bind_ret_run _ _ _ _ _ (fire_run _ _ _)).
  cbn. eexists _, _. split; [reflexivity|]. cbn.
  split; [exact Hs2|].
  repeat split; destruct (_ =? _)%Z; reflexivity.
Qed.

(** A miss while online, every attempt failing: the exact trace. *)
Lemma evaluate_all_fail_run fk ctx dv (s : T) :
  cache_ok Inv s ->
  let ectx := effective_context ctx s in
  let key := Client._build_cache_key config fk ectx in
  let n := Z.to_nat (retry_attempts (connection config)) in
  is_not_None (cache_lookup key s) = false ->
  offline_now config s = false ->
  always_fails server ->
  (0 < retry_attempts (connection config))%Z ->
  exists r s',
    Client.evaluate_with_details config clock server fk ctx dv s = (Ret r, s') /\
    offline_result config fk dv r /\
    Client.requests s' = Client.requests s ++ repeat (payload_of config fk ectx) n /\
    Client.sleeps s' =
      Client.sleeps s ++ map (Client.retry_sleep config) (seq 0 (n - 1)) /\
    Client.fired s' =
      Client.fired s
      ++ (if on_cache_miss (events config) then [Client.CacheMiss fk] else [])
      ++ (if on_error (events config)
          then [Client.Error
                  (attempt_exn (server (length (Client.requests s) + n - 1)
                                  (payload_of config fk ectx)))]
          else []) /\
    Client.metrics s' =
      Client.incr_errors
        (Client.incr_network_requests
           (Client.incr_cache_misses (Client.metrics s))).
Proof.
  intros Hs ectx key n Hmiss Eoff Hall Hn. unfold Client.evaluate_with_details.
  unfold bind at 1. cbn [Client.time_time].
  rewrite (bind_ret_run _ _ _ _ _ (or_self_run ctx _)).
  change (effective_context ctx (Client.with_ticks _ s)) with ectx.
  fold key.
  set (s1 := Client.with_ticks (S (Client.ticks s)) s).
  assert (Hs1 : cache_ok Inv s1) by exact Hs.
  destruct (_get_from_cache_run key s1 Hs1) as (c1 & Eget & Hs2).
  change (cache_lookup key s1) with (cache_lookup key s) in Eget.
  unfold try_catch. rewrite (bind_ret_run _ _ _ _ _ Eget). rewrite Hmiss.
  rewrite (bind_ret_run _ _ _ _ _ (fire_run _ _ _)).
  unfold bind at 1. cbn [Client.update_metrics modify].
  unfold bind at 1. cbn [Client.is_offline gets].
  change (Client._offline_mode _ || _) with (offline_now config s). rewrite Eoff.
  unfold bind at 1. rewrite (_evaluate_remote_all_fail _ _ _ _ Hall Hn).
  fold n.
  unfold bind at 1. cbn [Client.update_metrics modify].
  rewrite (bind_ret_run _ _ _ _ _ (fire_run _ _ _)).
  cbn. eexists _, _. split; [reflexivity|]. cbn.
  split; [split; reflexivity|]. split; [reflexivity|]. split; [reflexivity|].
  split; [|reflexivity]. symmetry. apply app_assoc.
Qed.

End Runs.

Lemma FaultyCache_responsive : responsive (C := FaultyCache.t) (fun _ => True).
Proof.
  split; intros; intros c _; cbn; unfold FaultyCache.get, FaultyCache.set.
  - now destruct (FaultyCache.get_fault c).
  - now destruct (FaultyCache.set_fault c).
Qed.

Lemma MemoryCache_responsive :
  responsive (fun c : MemoryCache.t => MemoryCache._lock c = false).
Proof.
  split; intros; intros c Hc; cbn.
  - unfold MemoryCache.get, with_lock. rewrite Hc. reflexivity.
  - unfold MemoryCache.set, with_lock. rewrite Hc.
    cbn [MemoryCache.config MemoryCache.set_lock].
    destruct (max_size (MemoryCache.config c) <? 1)%Z; reflexivity.
Qed.

Lemma always_fails_always status :
  status <> 200%Z -> status <> 404%Z -> always_fails (always status).
Proof. intros H2 H4 n r. cbn. auto. Qed.

(** C1: a single evaluation returns an [EvaluationResult], whatever the
    cache backend does when asked (return or raise) and whatever the server
    answers.  When every request fails, the result is the cached value if
    the lookup found one, and otherwise the offline result: the configured
    default of the flag, else the default value of the caller. *)
Theorem evaluate_with_details_never_raises
    {C : Type} `{CacheProvider C} (Inv : C -> Prop)
    (config : FlexFlagConfig) (clock : nat -> Q)
    (server : nat -> Client.request -> Client.http_result)
    (flag_key : string) (context : option EvaluationContext)
    (default_value : json) (s : Client.t C) :
  responsive Inv ->
  cache_ok Inv s ->
  exists r s',
    Client.evaluate_with_details config clock server
      flag_key context default_value s = (Ret r, s') /\
    (always_fails server ->
       let key := Client._build_cache_key config flag_key
                    (effective_context context s) in
       if is_not_None (cache_lookup key s)
       then reason r = CACHED /\ value r = cache_lookup key s
       else reason r = OFFLINE /\
            value r = default default_value
                        (default_flags (offline_cfg config) !! flag_key)).
Proof.
  intros Hresp Hs.
  destruct (is_not_None (cache_lookup
              (Client._build_cache_key config flag_key (effective_context context s)) s))
    eqn:Ehit.
  - destruct (evaluate_hit_run config clock server Inv Hresp
                flag_key context default_value s Hs Ehit)
      as (r & s' & Erun & _ & Hr & Hv & _).
    exists r, s'. split; [exact Erun|]. intros _. cbv zeta. rewrite Ehit. auto.
  - destruct (evaluate_miss_run config clock server Inv Hresp
                flag_key context default_value s Hs Ehit)
      as (r & s' & Erun & _ & _ & _ & _ & _ & Hoff).
    exists r, s'. split; [exact Erun|]. intros Hall. cbv zeta. rewrite Ehit.
    destruct (offline_now config s).
    + apply Hoff.
    + apply Hoff, Hall.
Qed.

(** The cache backend raises on every call and the server answers 500 to
    every request: the configured default of the flag is returned. *)
Lemma evaluate_with_details_never_raises_witness :
  exists r s',
    Client.evaluate_with_details
      (config_with streaming {["x" := JBool true]}) clock10 (always 500)
      "x" None (JBool false) (fresh (Some broken)) = (Ret r, s') /\
    reason r = OFFLINE /\ value r = JBool true.
Proof.
  destruct (evaluate_with_details_never_raises (fun _ => True)
              (config_with streaming {["x" := JBool true]}) clock10 (always 500)
              "x" None (JBool false) (fresh (Some broken))
              FaultyCache_responsive I)
    as (r & s' & Erun & Hfail).
  exists r, s'. split; [exact Erun|].
  apply (Hfail (always_fails_always 500 ltac:(lia) ltac:(lia))).
Defined.

(** C4 (amended): with [retry_attempts = 3] and a server that fails every
    attempt, an evaluation that misses the cache while online sends exactly
    three requests and then falls back to the offline result; it sleeps
    after the first and the second failure only ([delay], then [2*delay]
    under exponential backoff, [delay] twice otherwise): the third failure
    is raised without sleeping. *)
Theorem retry_budget_three_attempts_two_sleeps
    {C : Type} `{CacheProvider C} (Inv : C -> Prop)
    (config : FlexFlagConfig) (clock : nat -> Q)
    (server : nat -> Client.request -> Client.http_result)
    (flag_key : string) (context : option EvaluationContext)
    (default_value : json) (s : Client.t C) :
  responsive Inv ->
  cache_ok Inv s ->
  retry_attempts (connection config) = 3%Z ->
  always_fails server ->
  offline_now config s = false ->
  let ectx := effective_context context s in
  let p := Client.PostEvaluate flag_key (Client._context_to_dict ectx)
             (environment config) in
  let delay := retry_delay (connection config) in
  is_not_None (cache_lookup (Client._build_cache_key config flag_key ectx) s) = false ->
  exists r s',
    Client.evaluate_with_details config clock server
      flag_key context default_value s = (Ret r, s') /\
    Client.requests s' = Client.requests s ++ [p; p; p] /\
    Client.sleeps s' =
      Client.sleeps s ++
      (if exponential_backoff (connection config)
       then [delay; 2 * delay]%Z else [delay; delay]) /\
    reason r = OFFLINE /\
    value r = default default_value
                (default_flags (offline_cfg config) !! flag_key).
Proof.
  intros Hresp Hs Hn Hall Hon ectx p delay Hmiss.
  assert (Hpos : (0 < retry_attempts (connection config))%Z) by lia.
  destruct (evaluate_all_fail_run config clock server Inv Hresp
              flag_key context default_value s Hs Hmiss Hon Hall Hpos)
    as (r & s' & Erun & [Hr Hv] & Hreq & Hsl & _).
  exists r, s'. split; [exact Erun|].
  rewrite Hn in Hreq, Hsl. cbn in Hreq, Hsl.
  split; [exact Hreq|]. split; [|auto].
  rewrite Hsl. f_equal. unfold Client.retry_sleep. fold delay.
  change (Z.to_nat 3 - 1)%nat with 2%nat.
  destruct (exponential_backoff (connection config)); [|reflexivity].
  change (Z.to_nat 3 - 1)%nat with 2%nat. cbn [seq map].
  f_equal; [lia|]. f_equal. lia.
Qed.

Lemma retry_budget_three_attempts_two_sleeps_witness :
  exists r s',
    Client.evaluate_with_details
      (config_with streaming {["x" := JBool true]}) clock10 (always 500)
      "x" None (JBool false) (fresh (Some (memory ∅))) = (Ret r, s') /\
    Client.requests s' =
      [Client.PostEvaluate "x" (JDict []) "production";
       Client.PostEvaluate "x" (JDict []) "production";
       Client.PostEvaluate "x" (JDict []) "production"] /\
    Client.sleeps s' = [1; 2]%Z /\
    reason r = OFFLINE /\ value r = JBool true.
Proof.
  exact (retry_budget_three_attempts_two_sleeps
           (fun c : MemoryCache.t => MemoryCache._lock c = false)
           (config_with streaming {["x" := JBool true]}) clock10 (always 500)
           "x" None (JBool false) (fresh (Some (memory ∅)))
           MemoryCache_responsive eq_refl eq_refl
           (always_fails_always 500 ltac:(lia) ltac:(lia)) eq_refl eq_refl).
Defined.

(** C4 as stated fails: three attempts are made, but the sleeps are
    [1, 2] and not [1, 2, 4]. *)
Lemma retry_budget_no_third_sleep :
  let s' := snd (Client.evaluate_with_details
                   (config_with streaming ∅) clock10 (always 500)
                   "x" None JNull (fresh (@None MemoryCache.t))) in
  length (Client.requests s') = 3%nat /\
  Client.sleeps s' = [1; 2]%Z /\
  Client.sleeps s' <> [1; 2; 4]%Z.
Proof. vm_compute. repeat split; discriminate. Qed.

(** C5 (amended): a 401 answer is handled as any other status that is
    neither 200 nor 404: the request is repeated until the budget of
    [retry_attempts] requests is used up, the last exception is reported to
    the error handler, and the evaluation degrades to the offline result. *)
Theorem unauthorized_is_retried
    {C : Type} `{CacheProvider C} (Inv : C -> Prop)
    (config : FlexFlagConfig) (clock : nat -> Q)
    (server : nat -> Client.request -> Client.http_result)
    (flag_key : string) (context : option EvaluationContext)
    (default_value : json) (s : Client.t C) :
  responsive Inv ->
  cache_ok Inv s ->
  (0 < retry_attempts (connection config))%Z ->
  (forall n r, exists body, server n r = Client.Response 401 body) ->
  offline_now config s = false ->
  let ectx := effective_context context s in
  let p := Client.PostEvaluate flag_key (Client._context_to_dict ectx)
             (environment config) in
  is_not_None (cache_lookup (Client._build_cache_key config flag_key ectx) s) = false ->
  exists r s',
    Client.evaluate_with_details config clock server
      flag_key context default_value s = (Ret r, s') /\
    Client.requests s' =
      Client.requests s ++ repeat p (Z.to_nat (retry_attempts (connection config))) /\
    Client.fired s' =
      Client.fired s
      ++ (if on_cache_miss (events config) then [Client.CacheMiss flag_key] else [])
      ++ (if on_error (events config) then [Client.Error (ApiStatus 401)] else []) /\
    errors (Client.metrics s') = (errors (Client.metrics s) + 1)%Z /\
    reason r = OFFLINE /\
    value r = default default_value
                (default_flags (offline_cfg config) !! flag_key).
Proof.
  intros Hresp Hs Hn H401 Hon ectx p Hmiss.
  assert (Hall : always_fails server).
  { intros n r. destruct (H401 n r) as [body ->]. cbn. lia. }
  destruct (evaluate_all_fail_run config clock server Inv Hresp
              flag_key context default_value s Hs Hmiss Hon Hall Hn)
    as (r & s' & Erun & [Hr Hv] & Hreq & _ & Hfired & Hm).
  exists r, s'. split; [exact Erun|]. split; [exact Hreq|].
  split.
  - rewrite Hfired. do 2 f_equal.
    match goal with
    | |- context [ attempt_exn (server ?n ?q) ] => destruct (H401 n q) as [body ->]
    end. reflexivity.
  - rewrite Hm. cbn. auto.
Qed.

Lemma unauthorized_is_retried_witness :
  exists r s',
    Client.evaluate_with_details
      (config_with streaming {["x" := JBool true]}) clock10 (always 401)
      "x" None (JBool false) (fresh (Some (memory ∅))) = (Ret r, s') /\
    Client.requests s' =
      [Client.PostEvaluate "x" (JDict []) "production";
       Client.PostEvaluate "x" (JDict []) "production";
       Client.PostEvaluate "x" (JDict []) "production"] /\
    Client.fired s' = [Client.CacheMiss "x"; Client.Error (ApiStatus 401)] /\
    errors (Client.metrics s') = 1%Z /\
    reason r = OFFLINE /\ value r = JBool true.
Proof.
  exact (unauthorized_is_retried
           (fun c : MemoryCache.t => MemoryCache._lock c = false)
           (config_with streaming {["x" := JBool true]}) clock10 (always 401)
           "x" None (JBool false) (fresh (Some (memory ∅)))
           MemoryCache_responsive eq_refl eq_refl
           (fun _ _ => ex_intro _ None eq_refl) eq_refl eq_refl).
Defined.

(** C5 as stated fails: the first answer is a 401, and two more requests
    follow it. *)
Lemma unauthorized_three_requests :
  let s' := snd (Client.evaluate_with_details
                   (config_with streaming ∅) clock10 (always 401)
                   "x" None JNull (fresh (@None MemoryCache.t))) in
  always 401 0%nat (Client.PostEvaluate "x" (JDict []) "production")
    = Client.Response 401 None /\
  length (Client.requests s') = 3%nat /\
  length (Client.requests s') <> 1%nat.
Proof. vm_compute. repeat split; discriminate. Qed.

(* ===================================================================== *)
(** * Properties of batch evaluation *)
(* ===================================================================== *)

Section Batch.

Context {C : Type} `{CacheProvider C}.
Variable config : FlexFlagConfig.
Variable clock : nat -> Q.
Variable server : nat -> Client.request -> Client.http_result.
Variable Inv : C -> Prop.
Hypothesis Hresp : responsive Inv.

Abbreviation T := (Client.t C).

Lemma offline_defaults_lookup misses (results : gmap string json) k :
  Client.offline_defaults config misses results !! k =
  match offline_default config k with
  | Some v => if bool_decide (k ∈ misses) then Some v else results !! k
  | None => results !! k
  end.
Proof.
  unfold Client.offline_defaults. revert results.
  induction misses as [|m misses IH]; intros results; cbn [fold_left].
  - destruct (offline_default config k); [|reflexivity].
    rewrite bool_decide_eq_false_2; [reflexivity|]. apply not_elem_of_nil.
  - rewrite IH. clear IH. unfold offline_default.
    destruct (decide (k = m)) as [->|Hne].
    + rewrite (bool_decide_eq_true_2 (m ∈ m :: misses)) by left.
      destruct (default_flags (offline_cfg config) !! m) as [v|] eqn:Em; cbn;
        [|reflexivity].
      destruct (is_not_None v) eqn:Ev; [|reflexivity].
      destruct (bool_decide (m ∈ misses)); [reflexivity|].
      now rewrite lookup_insert_eq.
    + assert (Hin : bool_decide (k ∈ m :: misses) = bool_decide (k ∈ misses)).
      { apply bool_decide_ext. rewrite elem_of_cons. tauto. }
      rewrite Hin.
      cbv beta zeta.
      destruct (is_not_None (default JNull _)); [|reflexivity].
      now rewrite lookup_insert_ne.
Qed.

Lemma batch_lookup_run keys ectx :
  forall hits misses (s : T),
    cache_ok Inv s ->
    exists hits' ms s',
      Client.batch_lookup config keys ectx hits misses s
      = (Ret (hits', misses ++ ms), s') /\
      cache_ok Inv s' /\ lookup_frame s s' /\
      (forall k, k ∈ ms -> k ∈ keys) /\
      (forall k, k ∉ keys -> hits' !! k = hits !! k) /\
      (NoDup keys -> forall k, k ∈ ms -> hits' !! k = hits !! k) /\
      cache_misses (Client.metrics s')
      = (cache_misses (Client.metrics s) + Z.of_nat (length ms))%Z.
Proof.
  induction keys as [|k0 keys IH]; intros hits misses s Hs; cbn [Client.batch_lookup].
  - exists hits, [], s. rewrite app_nil_r. split; [reflexivity|].
    split; [exact Hs|]. split; [repeat split|].
    split; [intros k Hk; now apply elem_of_nil in Hk|].
    split; [reflexivity|]. split; [reflexivity|]. cbn. lia.
  - destruct (_get_from_cache_run Inv Hresp
                (Client._build_cache_key config k0 ectx) s Hs) as (c1 & Eget & Hs1).
    rewrite (bind_ret_run _ _ _ _ _ Eget).
    destruct (is_not_None _) eqn:Ehit.
    + unfold bind at 1. cbn [Client.update_metrics modify].
      rewrite (bind_ret_run _ _ _ _ _ (fire_run _ _ _)).
      match goal with
      | |- context [ Client.batch_lookup _ _ _ ?h ?m ?s0 ] =>
          destruct (IH h m s0 Hs1)
            as (hits' & ms & s' & Erun & Hs' & Hfr & Hsub & Hout & Hnd & Hcm)
      end.
      rewrite Erun. exists hits', ms, s'. split; [reflexivity|].
      split; [exact Hs'|]. split; [exact Hfr|].
      split; [intros k Hk; right; auto|].
      split.
      { intros k Hk. rewrite not_elem_of_cons in Hk. destruct Hk as [Hne Hk].
        rewrite Hout by exact Hk. now rewrite lookup_insert_ne. }
      split; [|exact Hcm].
      intros Hnodup k Hk. apply NoDup_cons in Hnodup as [Hk0 Hnodup].
      rewrite (Hnd Hnodup k Hk). apply lookup_insert_ne.
      intros ->. apply Hk0, Hsub, Hk.
    + unfold bind at 1. cbn [Client.update_metrics modify].
      rewrite (bind_ret_run _ _ _ _ _ (fire_run _ _ _)).
      match goal with
      | |- context [ Client.batch_lookup _ _ _ ?h ?m ?s0 ] =>
          destruct (IH h m s0 Hs1)
            as (hits' & ms & s' & Erun & Hs' & Hfr & Hsub & Hout & Hnd & Hcm)
      end.
      rewrite Erun. exists hits', (k0 :: ms), s'.
      split; [now rewrite <- app_assoc|].
      split; [exact Hs'|]. split; [exact Hfr|].
      split; [intros k Hk; apply elem_of_cons in Hk as [->|Hk]; [left|right; auto]|].
      split; [intros k Hk; rewrite not_elem_of_cons in Hk; now apply Hout|].
      split.
      { intros Hnodup k Hk. apply NoDup_cons in Hnodup as [Hk0 Hnodup].
        apply elem_of_cons in Hk as [->|Hk]; [now apply Hout|now apply Hnd]. }
      rewrite Hcm. cbn [length Client.metrics Client.with_metrics Client.with_fired
                        Client.with_cache cache_misses Client.incr_cache_misses].
      lia.
Qed.


Lemma cache_writes_run (items : list (string * json)) ectx :
  forall s : T,
    cache_ok Inv s ->
    exists c' fs,
      for_each items
        (fun '(flag_key, value) =>
           let cache_key := Client._build_cache_key config flag_key ectx in
           Client._set_cache cache_key value ;;
           Client.fire (on_evaluation (events config))
             (Client.Evaluation flag_key value)) s
      = (Ret tt, Client.with_fired (Client.fired s ++ fs) (Client.with_cache c' s)) /\
      cache_ok Inv (Client.with_cache c' s).
Proof.
  match goal with
  | |- context [ for_each _ ?b ] => set (body := b)
  end.
  induction items as [|[k v] items IH]; intros s Hs; cbn [for_each].
  - exists (Client.cache s), []. split; [|exact Hs].
    unfold ret. f_equal. rewrite app_nil_r. now destruct s.
  - destruct (_set_cache_run Inv Hresp (Client._build_cache_key config k ectx) v s Hs)
      as (c1 & Eset & Hs1).
    assert (Ebody : body (k, v) s
                    = (Ret tt, Client.with_fired
                                 (Client.fired s ++
                                  (if on_evaluation (events config)
                                   then [Client.Evaluation k v] else []))
                                 (Client.with_cache c1 s))).
    { unfold body. cbv zeta. rewrite (bind_ret_run _ _ _ _ _ Eset).
      exact (fire_run _ _ (Client.with_cache c1 s)). }
    rewrite (bind_ret_run _ _ _ _ _ Ebody).
    match goal with
    | |- context [ for_each _ _ ?s0 ] =>
        destruct (IH s0 Hs1) as (c2 & fs & Erun & Hs2)
    end.
    rewrite Erun. eexists c2, (_ ++ fs). split; [|exact Hs2].
    f_equal. unfold Client.with_fired, Client.with_cache. cbn. f_equal.
    symmetry. apply app_assoc.
Qed.

Lemma _evaluate_batch_remote_run misses ectx (s : T) :
  exists out,
    Client._evaluate_batch_remote config server misses ectx s
    = (out, Client.with_requests (Client.requests s ++ [batch_payload config misses ectx])
              (Client.with_metrics
                 (Client.incr_network_requests (Client.metrics s)) s)) /\
    out <> Block /\
    (batch_fails (server (length (Client.requests s)) (batch_payload config misses ectx)) ->
     exists e, out = Raise e).
Proof.
  unfold Client._evaluate_batch_remote, bind at 1.
  cbn [Client.update_metrics modify].
  fold (batch_payload config misses ectx).
  unfold bind, Client.post. cbn [Client.requests Client.with_metrics].
  destruct (server _ _) as [status body|e]; cbn.
  - destruct (status =? 200)%Z eqn:E200.
    + apply Z.eqb_eq in E200.
      destruct body as [[| | | | |d]|]; cbn;
        eexists; (split; [reflexivity|]); (split; [discriminate|]);
        intros Hf; contradiction.
    + eexists. split; [reflexivity|]. split; [discriminate|]. eauto.
  - eexists. split; [reflexivity|]. split; [discriminate|]. eauto.
Qed.

Lemma is_offline_run (s : T) :
  Client.is_offline config s = (Ret (offline_now config s), s).
Proof. reflexivity. Qed.

Lemma evaluate_batch_run flag_keys ctx (s : T) hits misses s1 :
  Client.batch_lookup config flag_keys (effective_context ctx s) ∅ [] s
  = (Ret (hits, misses), s1) ->
  cache_ok Inv s1 ->
  exists res s',
    Client.evaluate_batch config server flag_keys ctx s = (Ret res, s') /\
    cache_ok Inv s' /\
    evaluations (Client.metrics s')
    = (evaluations (Client.metrics s1) + Z.of_nat (length flag_keys))%Z /\
    cache_misses (Client.metrics s') = cache_misses (Client.metrics s1) /\
    cache_hits (Client.metrics s') = cache_hits (Client.metrics s1) /\
    (exists fs, Client.fired s' = Client.fired s1 ++ fs) /\
    (if offline_now config s1
     then res = Client.offline_defaults config misses (hits ∪ ∅) /\
          Client.requests s' = Client.requests s1 /\
          network_requests (Client.metrics s') = network_requests (Client.metrics s1)
     else
       match misses with
       | [] =>
           res = hits ∪ ∅ /\
           Client.requests s' = Client.requests s1 /\
           network_requests (Client.metrics s') = network_requests (Client.metrics s1)
       | _ :: _ =>
           let p := batch_payload config misses (effective_context ctx s) in
           Client.requests s' = Client.requests s1 ++ [p] /\
           network_requests (Client.metrics s')
           = (network_requests (Client.metrics s1) + 1)%Z /\
           (batch_fails (server (length (Client.requests s1)) p) ->
            res = Client.offline_defaults config misses (hits ∪ ∅) /\
            errors (Client.metrics s') = (errors (Client.metrics s1) + 1)%Z)
       end).
Proof.
  intros Elook Hs1. unfold Client.evaluate_batch.
  rewrite (bind_ret_run _ _ _ _ _ (or_self_run ctx _)).
  rewrite (bind_ret_run _ _ _ _ _ Elook). cbv zeta.
  unfold bind at 1. cbn [Client.is_offline gets].
  change (Client._offline_mode s1 || _) with (offline_now config s1).
  destruct (offline_now config s1) eqn:Eoff.
  -     destruct misses as [|m0 ms]; cbn [negb].
    all: unfold bind at 1; cbn [ret].
    all: unfold bind at 1; cbn [Client.is_offline gets].
    all: change (Client._offline_mode s1 || _) with (offline_now config s1).
    all: rewrite Eoff; cbn.
    all: eexists _, _; (split; [reflexivity|]); cbn.
    all: split; [exact Hs1|]; repeat split; try reflexivity.
    all: exists []; now rewrite app_nil_r.
  - destruct misses as [|m0 ms]; cbn [negb].
    + unfold bind at 1; cbn [ret].
      unfold bind at 1; cbn [Client.is_offline gets].
      change (Client._offline_mode s1 || _) with (offline_now config s1).
      rewrite Eoff; cbn.
      eexists _, _; (split; [reflexivity|]); cbn.
      split; [exact Hs1|]; repeat split; try reflexivity.
      exists []; now rewrite app_nil_r.
    + set (misses := m0 :: ms) in *.
      set (ectx := effective_context ctx s) in *.
      match goal with
      | |- context [ try_catch _ ?h ] => set (hdl := h)
      end.
      assert (Hh : forall e (s2 : T),
                 hdl e s2
                 = (Ret (Client.offline_defaults config misses (hits ∪ ∅)),
                    Client.with_fired
                      (Client.fired s2 ++
                       (if on_error (events config) then [Client.Error e] else []))
                      (Client.with_metrics (Client.incr_errors (Client.metrics s2)) s2))).
      { intros e s2. subst hdl. cbv beta. unfold bind at 1.
        cbn [Client.update_metrics modify].
        rewrite (bind_ret_run _ _ _ _ _ (fire_run _ _ _)). reflexivity. }
      clearbody hdl.
      destruct (_evaluate_batch_remote_run misses ectx s1)
        as (out & Eremote & Hnb & Hfail).
      unfold bind at 1. unfold try_catch. unfold bind at 1. rewrite Eremote.
      destruct out as [v|e|]; [| |contradiction].
      * assert (Hv : batch_fails (server (length (Client.requests s1))
                                    (batch_payload config misses ectx)) -> False).
        { intros Hf. destruct (Hfail Hf) as [e He]. discriminate. }
        destruct v as [| | | | |d];
          try (cbn [Client.items]; unfold bind at 1; cbn [raise]; rewrite Hh;
               rewrite (bind_ret_run _ _ _ _ _ (is_offline_run _));
               change (offline_now config _) with (offline_now config s1);
               rewrite Eoff; cbn;
               eexists _, _; (split; [reflexivity|]); cbn;
               split; [exact Hs1|]; repeat split; try reflexivity;
               try (eexists; reflexivity);
               try (exfalso; auto; fail)).
        cbn [Client.items]. unfold bind at 1. cbn [ret].
        match goal with
        | |- context [ bind (for_each d ?b) _ ?s0 ] =>
            destruct (cache_writes_run d ectx s0 Hs1) as (c2 & fs & Ewr & Hs2)
        end.
        cbv zeta in Ewr. unfold bind at 1. rewrite Ewr. cbn [ret].
        rewrite (bind_ret_run _ _ _ _ _ (is_offline_run _)).
        change (offline_now config _) with (offline_now config s1).
        rewrite Eoff; cbn.
        eexists _, _; (split; [reflexivity|]); cbn.
        split; [exact Hs2|]. repeat split; try reflexivity;
          try (eexists; reflexivity);
          try (exfalso; auto; fail).
      * rewrite Hh.
        rewrite (bind_ret_run _ _ _ _ _ (is_offline_run _)).
        change (offline_now config _) with (offline_now config s1).
        rewrite Eoff; cbn.
        eexists _, _; (split; [reflexivity|]); cbn.
        split; [exact Hs1|]. repeat split; try reflexivity.
        eexists; reflexivity.
Qed.

End Batch.

(** C9 (amended): in a batch evaluation while online, the keys that missed
    the cache are fetched by one batch request (network_requests grows by
    exactly 1, whatever the number of keys).  If that request fails, every
    missed key whose configured offline default is not None is mapped to
    that default; a missed key with no configured default, or whose
    configured default is None, gets no entry from the fallback and, the
    keys of the batch being distinct, is absent from the result mapping. *)
Theorem batch_failure_falls_back_per_key
    {C : Type} `{CacheProvider C} (Inv : C -> Prop)
    (config : FlexFlagConfig)
    (server : nat -> Client.request -> Client.http_result)
    (flag_keys : list string) (context : option EvaluationContext)
    (s : Client.t C) :
  responsive Inv ->
  cache_ok Inv s ->
  offline_now config s = false ->
  let ectx := effective_context context s in
  (exists hits misses s1,
      Client.batch_lookup config flag_keys ectx ∅ [] s = (Ret (hits, misses), s1)) /\
  (forall hits misses s1,
      Client.batch_lookup config flag_keys ectx ∅ [] s = (Ret (hits, misses), s1) ->
      misses <> [] ->
      let p := Client.PostBatch misses (Client._context_to_dict ectx)
                 (environment config) in
      exists res s',
        Client.evaluate_batch config server flag_keys context s = (Ret res, s') /\
        Client.requests s' = Client.requests s ++ [p] /\
        network_requests (Client.metrics s')
        = (network_requests (Client.metrics s) + 1)%Z /\
        (batch_fails (server (length (Client.requests s)) p) ->
         forall k, k ∈ misses ->
           match default_flags (offline_cfg config) !! k with
           | Some v =>
               if is_not_None v then res !! k = Some v
               else res !! k = hits !! k /\ (NoDup flag_keys -> res !! k = None)
           | None => res !! k = hits !! k /\ (NoDup flag_keys -> res !! k = None)
           end)).
Proof.
  intros Hresp Hs Hon ectx.
  destruct (batch_lookup_run config Inv Hresp flag_keys ectx ∅ [] s Hs)
    as (hits0 & ms0 & s0 & Elook0 & Hs0 & Hfr0 & Hsub0 & Hout0 & Hnd0 & Hcm0).
  split; [eauto|].
  intros hits misses s1 Elook Hne p.
  rewrite Elook in Elook0. injection Elook0 as -> -> ->.
  destruct Hfr0 as (Hrq & _ & _ & Hom & _ & _ & _ & Hnr).
  assert (Hon1 : offline_now config s0 = false)
    by (unfold offline_now in *; now rewrite Hom).
  destruct (evaluate_batch_run config server Inv Hresp flag_keys context s
              _ _ _ Elook Hs0)
    as (res & s' & Erun & _ & _ & _ & _ & _ & Hcase).
  destruct (offline_now config s0); [discriminate|]. cbn [app] in *.
  destruct ms0 as [|m0 ms0]; [contradiction|].
  destruct Hcase as (Hreq & Hnet & Hfail).
  exists res, s'. split; [exact Erun|].
  split; [now rewrite Hreq, Hrq|]. split; [now rewrite Hnet, Hnr|].
  rewrite Hrq in Hfail. intros Hf k Hk.
  destruct (Hfail Hf) as [-> _].
  rewrite offline_defaults_lookup. unfold offline_default.
  assert (Hu : hits0 ∪ ∅ = hits0) by apply (right_id_L ∅ (∪)).
  rewrite !Hu.
  assert (Hnone : NoDup flag_keys -> hits0 !! k = None).
  { intros Hnodup. rewrite (Hnd0 Hnodup k Hk). apply lookup_empty. }
  destruct (default_flags (offline_cfg config) !! k) as [v|].
  - destruct (is_not_None v).
    + now rewrite bool_decide_eq_true_2.
    + split; [reflexivity|exact Hnone].
  - split; [reflexivity|exact Hnone].
Qed.

(** Keys ["a"; "b"], only "a" has a default, the server answers 500: one
    request is sent and the result maps "a" to its default and omits "b". *)
Lemma batch_failure_falls_back_per_key_witness :
  exists res s',
    Client.evaluate_batch (config_with streaming {["a" := JBool true]}) (always 500)
      ["a"; "b"] None (fresh (Some (memory ∅))) = (Ret res, s') /\
    length (Client.requests s') = 1%nat /\
    network_requests (Client.metrics s') = 1%Z /\
    res !! "a" = Some (JBool true) /\
    res !! "b" = None.
Proof.
  destruct (batch_failure_falls_back_per_key
              (fun c : MemoryCache.t => MemoryCache._lock c = false)
              (config_with streaming {["a" := JBool true]}) (always 500)
              ["a"; "b"] None (fresh (Some (memory ∅)))
              MemoryCache_responsive eq_refl eq_refl)
    as [(hits & misses & s1 & Elook) Hb].
  assert (Hm : misses = ["a"; "b"]).
  { vm_compute in Elook. now injection Elook as <- <- <-. }
  subst misses.
  destruct (Hb hits ["a"; "b"] s1 Elook ltac:(discriminate))
    as (res & s' & Erun & Hreq & Hnet & Hfail).
  exists res, s'. split; [exact Erun|].
  split; [now rewrite Hreq|]. split; [exact Hnet|].
  assert (Hf : batch_fails (always 500 0%nat
                 (Client.PostBatch ["a"; "b"] (JDict []) "production")))
    by (cbn; lia).
  assert (Hnd : NoDup ["a"; "b"]) by (apply (bool_decide_unpack _); reflexivity).
  split.
  - exact (Hfail Hf "a" ltac:(set_solver)).
  - exact (proj2 (Hfail Hf "b" ltac:(set_solver)) Hnd).
Defined.

(** C9 as stated fails: "a" has a configured offline default, the value
    None, and is left out of the result mapping when the batch call fails. *)
Lemma batch_failure_omits_none_default :
  let config := config_with streaming {["a" := JNull]} in
  default_flags (offline_cfg config) !! "a" = Some JNull /\
  fst (Client.evaluate_batch config (always 500) ["a"] None
         (fresh (@None MemoryCache.t)))
  = Ret (∅ : gmap string json).
Proof. vm_compute. split; reflexivity. Qed.

(* ===================================================================== *)
(** * The in-memory cache as the provider of the client *)
(* ===================================================================== *)

Section Memory.

Variable config : FlexFlagConfig.
Variable clock : nat -> Q.
Variable server : nat -> Client.request -> Client.http_result.

Abbreviation TM := (Client.t MemoryCache.t).
Abbreviation unlocked := (fun c : MemoryCache.t => MemoryCache._lock c = false).

Lemma MemoryCache_get_run c key :
  MemoryCache._lock c = false ->
  MemoryCache.get key c = (Ret (mem_get c key), c).
Proof.
  intros Hc. unfold MemoryCache.get, with_lock. rewrite Hc. cbn.
  unfold mem_get. f_equal. destruct c; cbn in *; now subst.
Qed.

Lemma make_room_frame turns :
  forall c,
    MemoryCache.config (MemoryCache.make_room turns c) = MemoryCache.config c /\
    MemoryCache._lock (MemoryCache.make_room turns c) = MemoryCache._lock c /\
    MemoryCache.lru (MemoryCache.make_room turns c) = MemoryCache.lru c.
Proof.
  induction turns as [|turns IH]; intros c; cbn [MemoryCache.make_room]; [auto|].
  destruct (_ <? _)%Z; [|auto].
  destruct (IH (MemoryCache.popitem c)) as (-> & -> & ->). auto.
Qed.

Lemma make_room_enough c :
  (Z.of_nat (base.size (MemoryCache.cache c)) < max_size (MemoryCache.config c))%Z ->
  forall turns, MemoryCache.make_room turns c = c.
Proof.
  intros Hroom [|turns]; cbn [MemoryCache.make_room]; [reflexivity|].
  destruct (Z.ltb_spec (max_size (MemoryCache.config c))
              (Z.of_nat (base.size (MemoryCache.cache c)) + 1)); [lia|reflexivity].
Qed.

(** [set] on a TTLCache that holds at least one entry: the value is there
    for the next coroutine when [ttl] is positive, and not otherwise. *)
Lemma MemoryCache_set_stored c key v ttl0 :
  MemoryCache._lock c = false ->
  (1 <= max_size (MemoryCache.config c))%Z ->
  exists c',
    MemoryCache.set key v ttl0 c = (Ret tt, c') /\
    MemoryCache._lock c' = false /\
    MemoryCache.config c' = MemoryCache.config c /\
    MemoryCache.cache c' !! (key_prefix (MemoryCache.config c) +:+ key)
    = (if (0 <? ttl (MemoryCache.config c))%Z then Some v else None).
Proof.
  intros Hc Hsize. unfold MemoryCache.set, with_lock. rewrite Hc.
  cbn [MemoryCache.config MemoryCache.set_lock MemoryCache.cache].
  destruct (Z.ltb_spec (max_size (MemoryCache.config c)) 1); [lia|].
  eexists. split; [reflexivity|].
  unfold MemoryCache.config_ttl. cbn [MemoryCache.config].
  set (c1 := match _ with Some _ => _ | None => _ end).
  assert (Hcfg : MemoryCache.config c1 = MemoryCache.config c).
  { subst c1. destruct (MemoryCache.cache c !! _); [reflexivity|].
    now rewrite (proj1 (make_room_frame _ _)). }
  cbn. split; [reflexivity|]. split; [exact Hcfg|].
  destruct (0 <? ttl (MemoryCache.config c))%Z.
  - apply lookup_insert_eq.
  - apply lookup_delete_eq.
Qed.

(** [set] on a TTLCache that has room for the key, or holds it already. *)
Lemma MemoryCache_set_room c key v ttl0 :
  MemoryCache._lock c = false ->
  (1 <= max_size (MemoryCache.config c))%Z ->
  (0 < ttl (MemoryCache.config c))%Z ->
  is_Some (MemoryCache.cache c !! (key_prefix (MemoryCache.config c) +:+ key)) \/
  (Z.of_nat (base.size (MemoryCache.cache c)) < max_size (MemoryCache.config c))%Z ->
  MemoryCache.set key v ttl0 c
  = (Ret tt,
     MemoryCache.set_store
       (<[key_prefix (MemoryCache.config c) +:+ key := v]> (MemoryCache.cache c)) c).
Proof.
  intros Hc Hsize Httl Hroom. unfold MemoryCache.set, with_lock. rewrite Hc.
  unfold MemoryCache.config_ttl.
  destruct c as [cfg store lk lru n]. cbn in *. subst lk.
  destruct (Z.ltb_spec (max_size cfg) 1); [lia|].
  destruct (Z.ltb_spec 0 (ttl cfg)); [|lia].
  destruct (store !! (key_prefix cfg +:+ key)) eqn:Ek; [reflexivity|].
  rewrite make_room_enough.
  - reflexivity.
  - cbn. destruct Hroom as [[x Hx]|Hlt]; [discriminate|exact Hlt].
Qed.

(** [set] on a TTLCache of size 0 (or less) raises and stores nothing. *)
Lemma MemoryCache_set_too_large c key v ttl0 :
  MemoryCache._lock c = false ->
  (max_size (MemoryCache.config c) < 1)%Z ->
  MemoryCache.set key v ttl0 c = (Raise (CacheError "value too large"), c).
Proof.
  intros Hc Hsize. unfold MemoryCache.set, with_lock. rewrite Hc.
  cbn [MemoryCache.config MemoryCache.set_lock].
  destruct (Z.ltb_spec (max_size (MemoryCache.config c)) 1); [|lia].
  f_equal. destruct c; cbn in *; now subst.
Qed.

Lemma cache_lookup_memory (s : TM) c key :
  Client.cache s = Some c ->
  MemoryCache._lock c = false ->
  cache_lookup key s = mem_get c key.
Proof.
  intros Ec Hc. unfold cache_lookup. rewrite Ec. cbn.
  now rewrite MemoryCache_get_run.
Qed.

Lemma _get_from_cache_memory (s : TM) c key :
  Client.cache s = Some c ->
  MemoryCache._lock c = false ->
  Client._get_from_cache key s = (Ret (mem_get c key), s).
Proof.
  intros Ec Hc. unfold Client._get_from_cache, bind, gets, try_catch, Client.on_cache.
  rewrite Ec. cbn. rewrite MemoryCache_get_run by exact Hc. cbn.
  f_equal. destruct s; cbn in *; now subst.
Qed.

Lemma batch_lookup_memory (c : MemoryCache.t) ectx keys :
  MemoryCache._lock c = false ->
  forall hits misses (s : TM),
    Client.cache s = Some c ->
    exists hits' s',
      Client.batch_lookup config keys ectx hits misses s
      = (Ret (hits', misses ++ List.filter (missing config c ectx) keys), s') /\
      Client.cache s' = Some c /\
      lookup_frame s s' /\
      (forall k, missing config c ectx k = true -> hits' !! k = hits !! k) /\
      cache_misses (Client.metrics s')
      = (cache_misses (Client.metrics s)
         + Z.of_nat (length (List.filter (missing config c ectx) keys)))%Z /\
      exists fs, Client.fired s' = Client.fired s ++ fs /\
                 (on_cache_miss (events config) = true ->
                  forall k, k ∈ keys -> missing config c ectx k = true ->
                            Client.CacheMiss k ∈ fs).
Proof.
  intros Hc. induction keys as [|k0 keys IH]; intros hits misses s Ec;
    cbn [Client.batch_lookup].
  - exists hits, s. rewrite app_nil_r. split; [reflexivity|].
    split; [exact Ec|]. split; [repeat split|]. split; [reflexivity|].
    split; [cbn; lia|]. exists []. rewrite app_nil_r. split; [reflexivity|].
    intros _ k Hk. now apply elem_of_nil in Hk.
  - rewrite (bind_ret_run _ _ _ _ _ (_get_from_cache_memory s c _ Ec Hc)).
    cbn [List.filter].
    change (missing config c ectx k0)
      with (negb (is_not_None (mem_get c (Client._build_cache_key config k0 ectx)))).
    destruct (is_not_None _) eqn:Ehit; cbn [negb].
    + unfold bind at 1. cbn [Client.update_metrics modify].
      rewrite (bind_ret_run _ _ _ _ _ (fire_run _ _ _)).
      match goal with
      | |- context [ Client.batch_lookup _ _ _ ?h ?m ?s0 ] =>
          destruct (IH h m s0 Ec)
            as (hits' & s' & Erun & Ec' & Hfr & Hhit & Hcm & fs & Hfs & Hin)
      end.
      rewrite Erun.
      exists hits', s'. split; [reflexivity|]. split; [exact Ec'|].
      split; [exact Hfr|].
      split.
      { intros k Hk. rewrite (Hhit k Hk). apply lookup_insert_ne.
        intros ->. unfold missing in Hk. rewrite Ehit in Hk. discriminate. }
      split; [exact Hcm|].
      eexists. split; [rewrite Hfs; cbn; symmetry; apply app_assoc|].
      intros Hon k Hk Hmiss. apply elem_of_cons in Hk as [->|Hk].
      * unfold missing in Hmiss. rewrite Ehit in Hmiss. discriminate.
      * apply elem_of_app. right. now apply Hin.
    + unfold bind at 1. cbn [Client.update_metrics modify].
      rewrite (bind_ret_run _ _ _ _ _ (fire_run _ _ _)).
      match goal with
      | |- context [ Client.batch_lookup _ _ _ ?h ?m ?s0 ] =>
          destruct (IH h m s0 Ec)
            as (hits' & s' & Erun & Ec' & Hfr & Hhit & Hcm & fs & Hfs & Hin)
      end.
      rewrite Erun.
      exists hits', s'. split; [now rewrite <- app_assoc|]. split; [exact Ec'|].
      split; [exact Hfr|]. split; [exact Hhit|].
      split.
      { rewrite Hcm. cbn [length Client.metrics Client.with_metrics Client.with_fired
                          cache_misses Client.incr_cache_misses]. lia. }
      eexists. split; [rewrite Hfs; cbn; symmetry; apply app_assoc|].
      intros Hon k Hk Hmiss. apply elem_of_cons in Hk as [->|Hk].
      * rewrite Hon. apply elem_of_app. left. left.
      * apply elem_of_app. right. now apply Hin.
Qed.


End Memory.

(* ===================================================================== *)
(** * Metrics and cache providers on concrete inputs *)
(* ===================================================================== *)

(** The server knows no flag (404) and the caller gives no default: the
    first evaluation stores None under the cache key, and the second
    evaluation misses again and asks the server again. *)
Example none_written_back_is_fetched_again :
  let config := config_with streaming ∅ in
  let s0 := fresh (Some (memory ∅)) in
  let s1 := snd (Client.evaluate_with_details config clock10 (always 404)
                   "x" None JNull s0) in
  let s2 := snd (Client.evaluate_with_details config clock10 (always 404)
                   "x" None JNull s1) in
  (exists c, Client.cache s1 = Some c /\
             MemoryCache.cache c !! "flexflag:x::production" = Some JNull) /\
  cache_misses (Client.metrics s2) = 2%Z /\
  cache_hits (Client.metrics s2) = 0%Z /\
  network_requests (Client.metrics s2) = 2%Z.
Proof. vm_compute. split; [eexists; split; reflexivity|]. repeat split. Qed.

(** C2 fails on the code: a single evaluation answered offline, because the
    client is in offline mode or because the remote call failed, leaves
    [evaluations] unchanged, while a batch evaluation of the same key in the
    same situation counts it. *)
Theorem evaluations_not_counted_on_offline_paths :
  let offline_client := config_with offline {["x" := JBool true]} in
  let online_client := config_with streaming {["x" := JBool true]} in
  let s0 := fresh (@None MemoryCache.t) in
  let in_offline_mode :=
    Client.evaluate_with_details offline_client clock10 (always 500)
      "x" None JNull s0 in
  let after_failure :=
    Client.evaluate_with_details online_client clock10 (always 500)
      "x" None JNull s0 in
  let batch_in_offline_mode :=
    Client.evaluate_batch offline_client (always 500) ["x"] None s0 in
  (exists r, fst in_offline_mode = Ret r /\ value r = JBool true) /\
  evaluations (Client.metrics (snd in_offline_mode)) = 0%Z /\
  cache_misses (Client.metrics (snd in_offline_mode)) = 1%Z /\
  (exists r, fst after_failure = Ret r /\ value r = JBool true) /\
  evaluations (Client.metrics (snd after_failure)) = 0%Z /\
  cache_misses (Client.metrics (snd after_failure)) = 1%Z /\
  evaluations (Client.metrics (snd batch_in_offline_mode)) = 1%Z.
Proof.
  vm_compute. repeat split; eexists; split; reflexivity.
Qed.

(** C6 fails on the code: [evaluations] is incremented before
    [_update_average_latency] reads it, so the first sample (10 ms) is
    divided by 2 and the average after one evaluation is 5 ms. *)
Theorem average_latency_counts_one_sample_too_many :
  let s0 := fresh (Some (memory {["flexflag:x::production" := JBool true]})) in
  let run := Client.evaluate_with_details (config_with streaming ∅) clock10
               (always 500) "x" None JNull s0 in
  (exists r md, fst run = Ret r /\ metadata r = Some md /\
                evaluation_time_ms md == 10) /\
  evaluations (Client.metrics (snd run)) = 1%Z /\
  average_latency_ms (Client.metrics (snd run)) == 5 /\
  ~ average_latency_ms (Client.metrics (snd run)) == 10.
Proof.
  vm_compute. split; [|split; [reflexivity|split; [reflexivity|discriminate]]].
  eexists _, _. split; [reflexivity|]. split; reflexivity.
Qed.

(** C7 fails on the code: tier 0 has no value and cannot be written, tier 1
    holds the value; the backfill raises and [get] raises with it. *)
Theorem tiered_get_raises_when_backfill_fails :
  let tiers := {| TieredCache.caches := [read_only ∅; healthy {["k" := JStr "v"]}];
                  TieredCache._lock := false |} in
  fst (FaultyCache.get "k" (healthy {["k" := JStr "v"]})) = Ret (JStr "v") /\
  fst (TieredCache.get "k" tiers) = Raise (CacheError "read-only").
Proof. vm_compute. split; reflexivity. Qed.

(** With tiers that can be written, the value found in tier 1 is returned
    and copied into tier 0. *)
Example tiered_get_backfills :
  let tiers := {| TieredCache.caches := [healthy ∅; healthy {["k" := JStr "v"]}];
                  TieredCache._lock := false |} in
  TieredCache.get "k" tiers
  = (Ret (JStr "v"),
     {| TieredCache.caches := [healthy {["k" := JStr "v"]};
                               healthy {["k" := JStr "v"]}];
        TieredCache._lock := false |}).
Proof. vm_compute. reflexivity. Qed.

(** [DiskCache.get] holds the lock of the cache when it finds the row
    expired, and [delete] waits for the same lock. *)
Lemma DiskCache_get_expired_blocks (s : DiskCache.t) key value_data expires_at :
  DiskCache._lock s = false ->
  DiskCache.rows s !! (key_prefix (DiskCache.config s) +:+ key)
  = Some (value_data, expires_at) ->
  (expires_at < DiskCache.now s)%Q ->
  DiskCache.get key s = (Block, DiskCache.set_lock true s).
Proof.
  intros Hl Hrow Hexp. unfold DiskCache.get, with_lock. rewrite Hl.
  cbn. rewrite Hrow.
  destruct (Qlt_le_dec expires_at (DiskCache.now s)) as [_|Hle].
  - reflexivity.
  - exfalso. apply (Qlt_not_le _ _ Hexp Hle).
Qed.

(** C8 fails on the code: the row of "k" expired at time 5 and it is now
    10; [get] never returns, and the row stays in the table. *)
Theorem disk_get_of_expired_row_never_returns :
  let s := disk {["flexflag:k" := (JStr "v", 5%Q)]} 10%Q in
  fst (DiskCache.get "k" s) = Block /\
  DiskCache.rows (snd (DiskCache.get "k" s)) !! "flexflag:k" = Some (JStr "v", 5%Q) /\
  DiskCache._lock (snd (DiskCache.get "k" s)) = true /\
  fst (DiskCache.delete "k" s) = Ret tt /\
  DiskCache.rows (snd (DiskCache.delete "k" s)) !! "flexflag:k" = None.
Proof. vm_compute. repeat split. Qed.

(** ** Prefixed keys *)

Lemma prefix_append p k : String.prefix p (p +:+ k) = true.
Proof.
  induction p as [|c p IH]; [now destruct k|].
  change (String c p +:+ k) with (String c (p +:+ k)).
  cbn. destruct (ascii_dec c c); [exact IH|contradiction].
Qed.

Lemma slice_from_append p k : slice_from (String.length p) (p +:+ k) = k.
Proof.
  induction p as [|c p IH]; [now destruct k|].
  change (String c p +:+ k) with (String c (p +:+ k)). exact IH.
Qed.

Lemma prefix_slice p s :
  String.prefix p s = true -> p +:+ slice_from (String.length p) s = s.
Proof.
  revert s. induction p as [|c p IH]; intros s Hp; [now destruct s|].
  destruct s as [|c' s]; [discriminate|]. cbn in Hp.
  destruct (ascii_dec c c') as [->|]; [|discriminate].
  change (String c' p +:+ ?x) with (String c' (p +:+ x)).
  cbn [String.length slice_from]. f_equal. now apply IH.
Qed.

(** A key is listed by [strip_prefix] exactly when the prefixed key is among
    the stored keys. *)
Lemma elem_of_strip_prefix p (ks : list string) k :
  k ∈ strip_prefix p ks <-> (p +:+ k) ∈ ks.
Proof.
  unfold strip_prefix. rewrite list_elem_of_In, in_map_iff. split.
  - intros (pk & <- & Hin). apply filter_In in Hin as [Hin Hp].
    rewrite (prefix_slice _ _ Hp). now apply list_elem_of_In.
  - intros Hin. exists (p +:+ k). split; [apply slice_from_append|].
    apply filter_In. split; [now apply list_elem_of_In|apply prefix_append].
Qed.

Lemma strip_prefix_length p (ks : list string) :
  (length (strip_prefix p ks) <= length ks)%nat.
Proof.
  unfold strip_prefix. rewrite length_map. apply List.filter_length_le.
Qed.

(* ===================================================================== *)
(** * The persistent cache *)
(* ===================================================================== *)

Section Disk.

Local Open Scope Q_scope.

Variable hash : string -> Z.
Variable float_add : Q -> Z -> option Q.

Abbreviation pkey s key := (key_prefix (DiskCache.config s) +:+ key).

Lemma DiskCache_unlock (s : DiskCache.t) :
  DiskCache._lock s = false ->
  DiskCache.set_lock false (DiskCache.set_lock true s) = s.
Proof. intros Hl. destruct s; cbn in *; now subst. Qed.

Lemma DiskCache_locked_blocks {A} (body : M DiskCache.t A) (s : DiskCache.t) :
  DiskCache._lock s = true ->
  with_lock DiskCache._lock DiskCache.set_lock body s = (Block, s).
Proof. intros Hl. unfold with_lock. now rewrite Hl. Qed.

Lemma DiskCache_get_live (s : DiskCache.t) key v e :
  DiskCache._lock s = false ->
  DiskCache.rows s !! pkey s key = Some (v, e) ->
  DiskCache.now s <= e ->
  DiskCache.get key s = (Ret v, s).
Proof.
  intros Hl Hrow He. unfold DiskCache.get, with_lock. rewrite Hl. cbn.
  rewrite Hrow. destruct (Qlt_le_dec e (DiskCache.now s)) as [Hlt|_].
  - exfalso. apply (Qlt_not_le _ _ Hlt He).
  - cbn. now rewrite DiskCache_unlock.
Qed.

Lemma DiskCache_get_absent (s : DiskCache.t) key :
  DiskCache._lock s = false ->
  DiskCache.rows s !! pkey s key = None ->
  DiskCache.get key s = (Ret JNull, s).
Proof.
  intros Hl Hrow. unfold DiskCache.get, with_lock. rewrite Hl. cbn.
  rewrite Hrow. cbn. now rewrite DiskCache_unlock.
Qed.

Lemma DiskCache_exists_expired (s : DiskCache.t) key v e :
  DiskCache._lock s = false ->
  DiskCache.rows s !! pkey s key = Some (v, e) ->
  e < DiskCache.now s ->
  DiskCache.exists_ key s = (Block, DiskCache.set_lock true s).
Proof.
  intros Hl Hrow He. unfold DiskCache.exists_, with_lock. rewrite Hl. cbn.
  rewrite Hrow. destruct (Qlt_le_dec e (DiskCache.now s)) as [_|Hle].
  - reflexivity.
  - exfalso. apply (Qlt_not_le _ _ He Hle).
Qed.

(** The rows after [set]: the row written, and the sweep when the key
    hashes to a multiple of 100. *)
Lemma DiskCache_set_run (s : DiskCache.t) key value ttl expires_at :
  DiskCache._lock s = false ->
  float_add (DiskCache.now s) (DiskCache.ttl_or ttl (DiskCache.config_ttl s))
  = Some expires_at ->
  let written := <[pkey s key := (value, expires_at)]> (DiskCache.rows s) in
  DiskCache.set hash float_add key value ttl s
  = (Ret tt,
     DiskCache.set_rows
       (if (hash key mod 100 =? 0)%Z
        then omap (DiskCache.live (DiskCache.now s)) written
        else written) s).
Proof.
  intros Hl Hsum written. subst written. unfold DiskCache.set, with_lock.
  rewrite Hl. destruct s as [cfg rows now lk].
  unfold DiskCache.config_ttl, DiskCache.ttl_or in *. cbn in *. rewrite Hsum. subst lk.
  destruct (hash key mod 100 =? 0)%Z; reflexivity.
Qed.

Lemma DiskCache_set_overflow (s : DiskCache.t) key value ttl :
  DiskCache._lock s = false ->
  float_add (DiskCache.now s) (DiskCache.ttl_or ttl (DiskCache.config_ttl s)) = None ->
  DiskCache.set hash float_add key value ttl s
  = (Raise (CacheError "int too large to convert to float"), s).
Proof.
  intros Hl Hsum. unfold DiskCache.set, with_lock.
  rewrite Hl. destruct s as [cfg rows now lk].
  unfold DiskCache.config_ttl, DiskCache.ttl_or in *. cbn in *. rewrite Hsum. now subst lk.
Qed.

Lemma live_Some now row :
  now < snd row -> DiskCache.live now row = Some row.
Proof.
  intros H. unfold DiskCache.live. destruct (Qlt_le_dec now (snd row)) as [_|Hle].
  - reflexivity.
  - exfalso. apply (Qlt_not_le _ _ H Hle).
Qed.

Lemma live_None now row :
  snd row <= now -> DiskCache.live now row = None.
Proof.
  intros H. unfold DiskCache.live. destruct (Qlt_le_dec now (snd row)) as [Hlt|_].
  - exfalso. apply (Qlt_not_le _ _ Hlt H).
  - reflexivity.
Qed.

Lemma lookup_live now (rows : gmap string (json * Q)) pk row :
  omap (DiskCache.live now) rows !! pk = Some row <->
  rows !! pk = Some row /\ now < snd row.
Proof.
  rewrite lookup_omap. destruct (rows !! pk) as [r|]; cbn.
  - unfold DiskCache.live. destruct (Qlt_le_dec now (snd r)) as [Hlt|Hle].
    + split; [intros [= ->]; auto|intros [[= ->] _]; reflexivity].
    + split; [discriminate|]. intros [[= ->] Hlt].
      exfalso. apply (Qlt_not_le _ _ Hlt Hle).
  - split; [discriminate|]. intros [[=] _].
Qed.

(** X1. [set] stores the value with the expiry instant that is the float
    sum of the clock and [ttl] seconds, the configured [ttl] when [ttl] is
    [None] or 0.  When that instant is after the clock, [get] returns the
    value at every reading of the clock up to that instant, the instant
    itself included, and never returns at any later reading.  When the
    [ttl] is too large for a float, [set] raises, writes nothing and
    releases the lock. *)
Theorem disk_value_served_until_it_expires
    (key : string) (value : json) (ttl : option Z) (s : DiskCache.t) :
  DiskCache._lock s = false ->
  let life := match ttl with
              | Some n => if (n =? 0)%Z then DiskCache.config_ttl s else n
              | None => DiskCache.config_ttl s
              end in
  match float_add (DiskCache.now s) life with
  | None =>
      DiskCache.set hash float_add key value ttl s
      = (Raise (CacheError "int too large to convert to float"), s)
  | Some expires_at =>
      DiskCache.now s < expires_at ->
      exists s1,
        DiskCache.set hash float_add key value ttl s = (Ret tt, s1) /\
        forall time : Q,
          let later := DiskCache.at_time time s1 in
          (time <= expires_at -> DiskCache.get key later = (Ret value, later)) /\
          (expires_at < time -> fst (DiskCache.get key later) = Block)
  end.
Proof.
  intros Hl life.
  change life with (DiskCache.ttl_or ttl (DiskCache.config_ttl s)).
  destruct (float_add _ _) as [e|] eqn:Hsum;
    [|exact (DiskCache_set_overflow s key value ttl Hl Hsum)].
  intros He. rewrite (DiskCache_set_run s key value ttl e Hl Hsum).
  set (written := <[_ := _]> _).
  set (rows1 := if (hash key mod 100 =? 0)%Z then _ else _).
  assert (Hrow : rows1 !! pkey s key = Some (value, e)).
  { subst rows1. destruct (hash key mod 100 =? 0)%Z.
    - apply lookup_live. split; [apply lookup_insert_eq|exact He].
    - apply lookup_insert_eq. }
  eexists. split; [reflexivity|]. intros time later. split.
  - intros Hle. eapply DiskCache_get_live; [exact Hl|exact Hrow|exact Hle].
  - intros Hlt. subst later.
    erewrite DiskCache_get_expired_blocks; [reflexivity|exact Hl|exact Hrow|exact Hlt].
Qed.

(** X2. A read of an expired row leaves the provider unusable:
    [exists], like [get], finds the row expired while it holds the lock and
    waits for [delete], which waits for the lock.  The lock is never
    released, so every later operation of the provider, at any later time,
    never returns either, and the expired row is still in the table. *)
Theorem disk_expired_row_wedges_the_provider
    (key : string) (value_data : json) (expires_at : Q) (s : DiskCache.t) :
  DiskCache._lock s = false ->
  DiskCache.rows s !! pkey s key = Some (value_data, expires_at) ->
  expires_at < DiskCache.now s ->
  let wedged := DiskCache.set_lock true s in
  DiskCache.exists_ key s = (Block, wedged) /\
  DiskCache.get key s = (Block, wedged) /\
  DiskCache.rows wedged !! pkey s key = Some (value_data, expires_at) /\
  forall (time : Q) (k : string) (v : json) (ttl : option Z),
    let later := DiskCache.at_time time wedged in
    DiskCache.get k later = (Block, later) /\
    DiskCache.set hash float_add k v ttl later = (Block, later) /\
    DiskCache.delete k later = (Block, later) /\
    DiskCache.exists_ k later = (Block, later) /\
    DiskCache.clear later = (Block, later) /\
    DiskCache.size later = (Block, later) /\
    DiskCache.keys later = (Block, later).
Proof.
  intros Hl Hrow He wedged.
  split; [exact (DiskCache_exists_expired s key _ _ Hl Hrow He)|].
  split; [exact (DiskCache_get_expired_blocks s key _ _ Hl Hrow He)|].
  split; [exact Hrow|].
  intros time k v ttl later.
  repeat split; apply DiskCache_locked_blocks; reflexivity.
Qed.

(** X3. Whether [set] sweeps the table depends on the hash of the key.
    When [hash(key) % 100 == 0], the table after [set] holds exactly the
    rows that are live among the row written and the rows that were
    there: a row written with an expiry instant that is not after the
    clock is swept at once, and a [get] of any key returns.  Otherwise
    the row written is in the table, whatever its expiry instant, no other
    row changes, and the expired rows of the other keys stay. *)
Theorem disk_set_sweeps_when_hash_is_multiple_of_100
    (key : string) (value : json) (ttl : option Z) (s : DiskCache.t)
    (expires_at : Q) :
  DiskCache._lock s = false ->
  float_add (DiskCache.now s) (DiskCache.ttl_or ttl (DiskCache.config_ttl s))
  = Some expires_at ->
  exists s1,
    DiskCache.set hash float_add key value ttl s = (Ret tt, s1) /\
    DiskCache._lock s1 = false /\
    DiskCache.now s1 = DiskCache.now s /\
    DiskCache.config s1 = DiskCache.config s /\
    if (hash key mod 100 =? 0)%Z
    then DiskCache.rows s1 !! pkey s key
         = DiskCache.live (DiskCache.now s) (value, expires_at) /\
         (forall pk, pk <> pkey s key ->
                     DiskCache.rows s1 !! pk
                     = DiskCache.rows s !! pk ≫= DiskCache.live (DiskCache.now s)) /\
         (forall k, fst (DiskCache.get k s1) <> Block)
    else DiskCache.rows s1 !! pkey s key = Some (value, expires_at) /\
         (forall pk, pk <> pkey s key ->
                     DiskCache.rows s1 !! pk = DiskCache.rows s !! pk).
Proof.
  intros Hl Hsum. rewrite (DiskCache_set_run s key value ttl expires_at Hl Hsum).
  eexists. split; [reflexivity|]. split; [exact Hl|]. split; [reflexivity|].
  split; [reflexivity|].
  destruct (hash key mod 100 =? 0)%Z.
  - cbn [DiskCache.rows DiskCache.set_rows]. split; [|split].
    + now rewrite lookup_omap, lookup_insert_eq.
    + intros pk Hne. now rewrite lookup_omap, lookup_insert_ne.
    + intros k.
      match goal with
      | |- context [ DiskCache.get k ?s0 ] => set (s1 := s0)
      end.
      destruct (DiskCache.rows s1 !! pkey s1 k) as [[v e]|] eqn:Erow.
      * assert (Hlive : DiskCache.now s1 < e).
        { subst s1. cbn [DiskCache.rows DiskCache.set_rows] in Erow.
          now apply lookup_live in Erow. }
        rewrite (DiskCache_get_live s1 k v e Hl Erow); [discriminate|].
        now apply Qlt_le_weak.
      * rewrite (DiskCache_get_absent s1 k Hl Erow). discriminate.
  - cbn. split; [apply lookup_insert_eq|].
    intros pk Hne. now rewrite lookup_insert_ne.
Qed.

(** X4. At the very instant a row expires ([expires_at] equal to the
    reading of the clock) the operations disagree: [get] still returns the
    value and [exists] answers [True], while [keys] does not list the key,
    [size] does not count the row, and the sweep deletes it. *)
Theorem disk_row_at_its_expiry_instant
    (key : string) (value_data : json) (expires_at : Q) (s : DiskCache.t) :
  DiskCache._lock s = false ->
  DiskCache.rows s !! pkey s key = Some (value_data, expires_at) ->
  expires_at == DiskCache.now s ->
  DiskCache.get key s = (Ret value_data, s) /\
  DiskCache.exists_ key s = (Ret true, s) /\
  (exists ks, DiskCache.keys s = (Ret ks, s) /\ key ∉ ks) /\
  (exists n, DiskCache.size s = (Ret n, s) /\
             fst (DiskCache.size
                    (DiskCache.set_rows (base.delete (pkey s key) (DiskCache.rows s)) s))
             = Ret n) /\
  DiskCache.rows (snd (DiskCache._cleanup_expired s)) !! pkey s key = None.
Proof.
  intros Hl Hrow He.
  assert (Hle : DiskCache.now s <= expires_at) by (rewrite He; apply Qle_refl).
  assert (Hdead : omap (DiskCache.live (DiskCache.now s)) (DiskCache.rows s)
                  !! pkey s key = None).
  { rewrite lookup_omap, Hrow. cbn. apply live_None. cbn. rewrite He. apply Qle_refl. }
  split; [exact (DiskCache_get_live s key _ _ Hl Hrow Hle)|].
  split.
  { unfold DiskCache.exists_, with_lock. rewrite Hl. cbn. rewrite Hrow.
    destruct (Qlt_le_dec expires_at (DiskCache.now s)) as [Hlt|_].
    - exfalso. apply (Qlt_not_le _ _ Hlt Hle).
    - cbn. now rewrite DiskCache_unlock. }
  split.
  { unfold DiskCache.keys, with_lock. rewrite Hl. cbn.
    rewrite DiskCache_unlock by exact Hl.
    eexists. split; [reflexivity|].
    rewrite elem_of_strip_prefix, list_elem_of_fmap.
    intros ([pk row] & Epk & Hin). cbn in Epk. subst pk.
    apply elem_of_map_to_list in Hin.
    change (key_prefix (DiskCache.config s) +:+ key) with (pkey s key) in Hin.
    rewrite Hdead in Hin. discriminate. }
  split.
  { unfold DiskCache.size, with_lock. cbn. rewrite Hl. cbn.
    rewrite DiskCache_unlock by exact Hl.
    eexists. split; [reflexivity|]. do 2 f_equal. apply (f_equal base.size).
    apply map_eq. intros pk. rewrite !lookup_omap.
    destruct (decide (pk = pkey s key)) as [->|Hne].
    - rewrite lookup_delete_eq, Hrow. cbn. symmetry. apply live_None. cbn.
      rewrite He. apply Qle_refl.
    - now rewrite lookup_delete_ne. }
  exact Hdead.
Qed.

(** X5. [delete] removes the row of the key, expired or not, and only that
    row: afterwards [get] returns [None] and [exists] answers [False]
    without suspending, and deleting again changes nothing. *)
Theorem disk_delete_then_get (key : string) (s : DiskCache.t) :
  DiskCache._lock s = false ->
  exists s1,
    DiskCache.delete key s = (Ret tt, s1) /\
    DiskCache.get key s1 = (Ret JNull, s1) /\
    DiskCache.exists_ key s1 = (Ret false, s1) /\
    DiskCache.delete key s1 = (Ret tt, s1) /\
    forall pk, pk <> pkey s key ->
               DiskCache.rows s1 !! pk = DiskCache.rows s !! pk.
Proof.
  intros Hl.
  set (s1 := DiskCache.set_rows (base.delete (pkey s key) (DiskCache.rows s)) s).
  assert (Hdel : DiskCache.delete key s = (Ret tt, s1)).
  { unfold DiskCache.delete, with_lock. rewrite Hl. cbn. f_equal.
    subst s1. destruct s; cbn in *; now subst. }
  assert (Hnone : DiskCache.rows s1 !! pkey s1 key = None)
    by apply lookup_delete_eq.
  exists s1. split; [exact Hdel|].
  split; [exact (DiskCache_get_absent s1 key Hl Hnone)|].
  split.
  { unfold DiskCache.exists_, with_lock.
    change (DiskCache._lock s1) with (DiskCache._lock s). rewrite Hl. cbn.
    change (key_prefix (DiskCache.config s) +:+ key) with (pkey s key).
    rewrite lookup_delete_eq. cbn. f_equal.
    subst s1. destruct s; cbn in *; now subst. }
  split.
  { unfold DiskCache.delete, with_lock.
    change (DiskCache._lock s1) with (DiskCache._lock s). rewrite Hl. cbn. f_equal.
    subst s1. unfold DiskCache.set_rows, DiskCache.set_lock. cbn.
    rewrite delete_delete_eq, Hl. reflexivity. }
  intros pk Hne. cbn. now rewrite lookup_delete_ne.
Qed.

(** X6. [clear] empties the whole table, the rows stored under the
    prefixes of other providers included: afterwards [size] is 0, [keys]
    is empty and [get] returns [None] for every key. *)
Theorem disk_clear_empties_the_table (s : DiskCache.t) :
  DiskCache._lock s = false ->
  exists s1,
    DiskCache.clear s = (Ret tt, s1) /\
    DiskCache.rows s1 = ∅ /\
    DiskCache.size s1 = (Ret 0%Z, s1) /\
    DiskCache.keys s1 = (Ret [], s1) /\
    forall k, DiskCache.get k s1 = (Ret JNull, s1).
Proof.
  intros Hl. set (s1 := DiskCache.set_rows ∅ s).
  assert (Hl1 : DiskCache._lock s1 = false) by exact Hl.
  exists s1. split.
  { unfold DiskCache.clear, with_lock. rewrite Hl. cbn. f_equal.
    subst s1. destruct s; cbn in *; now subst. }
  split; [reflexivity|]. split; [|split].
  - unfold DiskCache.size, with_lock. rewrite Hl1. cbn.
    rewrite omap_empty, map_size_empty. f_equal.
    subst s1. destruct s; cbn in *; now subst.
  - unfold DiskCache.keys, with_lock. rewrite Hl1. cbn.
    rewrite omap_empty, map_to_list_empty. cbn. f_equal.
    subst s1. destruct s; cbn in *; now subst.
  - intros k. apply DiskCache_get_absent; [exact Hl1|apply lookup_empty].
Qed.

(** X7. [keys] lists a key exactly when a live row is stored under the
    prefixed key, and [size], which counts the live rows of every prefix,
    is never smaller than the number of keys listed. *)
Theorem disk_keys_are_the_live_rows (s : DiskCache.t) :
  DiskCache._lock s = false ->
  exists ks n,
    DiskCache.keys s = (Ret ks, s) /\
    DiskCache.size s = (Ret n, s) /\
    (forall k, k ∈ ks <->
               exists v e, DiskCache.rows s !! pkey s k = Some (v, e) /\
                           DiskCache.now s < e) /\
    (Z.of_nat (length ks) <= n)%Z.
Proof.
  intros Hl. unfold DiskCache.keys, DiskCache.size, with_lock. rewrite Hl. cbn.
  rewrite DiskCache_unlock by exact Hl.
  eexists _, _. split; [reflexivity|]. split; [reflexivity|]. split.
  - intros k. rewrite elem_of_strip_prefix, list_elem_of_fmap. split.
    + intros ([pk [v e]] & Epk & Hin). cbn in Epk. subst pk.
      apply elem_of_map_to_list, lookup_live in Hin. eauto.
    + intros (v & e & Hrow & Hlive).
      exists (pkey s k, (v, e)). split; [reflexivity|].
      apply elem_of_map_to_list, lookup_live. auto.
  - apply Nat2Z.inj_le.
    etransitivity; [apply strip_prefix_length|].
    rewrite length_map, length_map_to_list. reflexivity.
Qed.

End Disk.

Lemma disk_value_served_until_it_expires_witness :
  let s := disk ∅ 10 in
  exists s1,
    DiskCache.set (fun _ => 1%Z) exact_sum "k" (JStr "v") (Some 0%Z) s = (Ret tt, s1) /\
    DiskCache.get "k" (DiskCache.at_time 310 s1)
    = (Ret (JStr "v"), DiskCache.at_time 310 s1) /\
    fst (DiskCache.get "k" (DiskCache.at_time 311 s1)) = Block.
Proof.
  destruct (disk_value_served_until_it_expires (fun _ => 1%Z) exact_sum
              "k" (JStr "v") (Some 0%Z) (disk ∅ 10) eq_refl eq_refl)
    as (s1 & Eset & Hget).
  exists s1. split; [exact Eset|]. split.
  - apply (proj1 (Hget 310%Q)). discriminate.
  - apply (proj2 (Hget 311%Q)). reflexivity.
Defined.

Lemma disk_expired_row_wedges_the_provider_witness :
  let s := disk {["flexflag:k" := (JStr "v", 5%Q)]} 10%Q in
  DiskCache.exists_ "k" s = (Block, DiskCache.set_lock true s) /\
  DiskCache.get "k" s = (Block, DiskCache.set_lock true s).
Proof.
  pose proof (disk_expired_row_wedges_the_provider (fun _ => 1%Z) exact_sum
                "k" (JStr "v") 5%Q
                (disk {["flexflag:k" := (JStr "v", 5%Q)]} 10%Q)
                eq_refl eq_refl eq_refl) as (Hex & Hget & _).
  split; [exact Hex|exact Hget].
Defined.

Lemma disk_set_sweeps_when_hash_is_multiple_of_100_witness :
  let s := disk {["flexflag:old" := (JStr "v", 5%Q)]} 10%Q in
  exists s1,
    DiskCache.set (fun _ => 200%Z) exact_sum "k" (JBool true) (Some (-1)%Z) s
    = (Ret tt, s1) /\
    DiskCache.rows s1 !! "flexflag:k" = None /\
    DiskCache.rows s1 !! "flexflag:old" = None.
Proof.
  destruct (disk_set_sweeps_when_hash_is_multiple_of_100 (fun _ => 200%Z) exact_sum
              "k" (JBool true) (Some (-1)%Z)
              (disk {["flexflag:old" := (JStr "v", 5%Q)]} 10%Q) 9%Q
              eq_refl eq_refl)
    as (s1 & Eset & _ & _ & _ & Hkey & Hother & _).
  exists s1. split; [exact Eset|]. split; [exact Hkey|].
  rewrite (Hother "flexflag:old"); [reflexivity|discriminate].
Defined.

Lemma disk_row_at_its_expiry_instant_witness :
  let s := disk {["flexflag:k" := (JStr "v", 10%Q)]} 10%Q in
  DiskCache.get "k" s = (Ret (JStr "v"), s) /\
  exists ks, DiskCache.keys s = (Ret ks, s) /\ "k" ∉ ks.
Proof.
  pose proof (disk_row_at_its_expiry_instant "k" (JStr "v") 10%Q
                (disk {["flexflag:k" := (JStr "v", 10%Q)]} 10%Q)
                eq_refl eq_refl eq_refl) as (Hget & _ & Hkeys & _).
  split; [exact Hget|exact Hkeys].
Defined.

Lemma disk_delete_then_get_witness :
  let s := disk {["flexflag:k" := (JStr "v", 5%Q)]} 10%Q in
  exists s1,
    DiskCache.delete "k" s = (Ret tt, s1) /\
    DiskCache.get "k" s1 = (Ret JNull, s1).
Proof.
  destruct (disk_delete_then_get "k"
              (disk {["flexflag:k" := (JStr "v", 5%Q)]} 10%Q) eq_refl)
    as (s1 & Edel & Hget & _).
  exists s1. split; [exact Edel|exact Hget].
Defined.

Lemma disk_clear_empties_the_table_witness :
  let s := disk {["flexflag:k" := (JStr "v", 50%Q); "other:k" := (JInt 1, 50%Q)]} 10%Q in
  exists s1,
    DiskCache.clear s = (Ret tt, s1) /\
    DiskCache.size s1 = (Ret 0%Z, s1).
Proof.
  destruct (disk_clear_empties_the_table
              (disk {["flexflag:k" := (JStr "v", 50%Q);
                      "other:k" := (JInt 1, 50%Q)]} 10%Q) eq_refl)
    as (s1 & Eclear & _ & Hsize & _).
  exists s1. split; [exact Eclear|exact Hsize].
Defined.

Lemma disk_keys_are_the_live_rows_witness :
  let s := disk {["flexflag:k" := (JStr "v", 50%Q); "other:k" := (JInt 1, 50%Q)]} 10%Q in
  exists ks n,
    DiskCache.keys s = (Ret ks, s) /\
    DiskCache.size s = (Ret n, s) /\
    "k" ∈ ks /\ (Z.of_nat (length ks) <= n)%Z.
Proof.
  destruct (disk_keys_are_the_live_rows
              (disk {["flexflag:k" := (JStr "v", 50%Q);
                      "other:k" := (JInt 1, 50%Q)]} 10%Q) eq_refl)
    as (ks & n & Ekeys & Esize & Hiff & Hle).
  exists ks, n. split; [exact Ekeys|]. split; [exact Esize|]. split; [|exact Hle].
  apply Hiff. exists (JStr "v"), 50%Q. split; reflexivity.
Defined.

(* ===================================================================== *)
(** * The in-memory cache *)
(* ===================================================================== *)

Section MemoryOps.

Abbreviation mkey c key := (key_prefix (MemoryCache.config c) +:+ key).

Lemma MemoryCache_unlock (c : MemoryCache.t) :
  MemoryCache._lock c = false ->
  MemoryCache.set_lock false (MemoryCache.set_lock true c) = c.
Proof. intros Hl. destruct c; cbn in *; now subst. Qed.

Lemma MemoryCache_delete_run (c : MemoryCache.t) key :
  MemoryCache._lock c = false ->
  MemoryCache.delete key c
  = (Ret tt, MemoryCache.set_store (base.delete (mkey c key) (MemoryCache.cache c)) c).
Proof.
  intros Hl. unfold MemoryCache.delete, with_lock. rewrite Hl. cbn. f_equal.
  destruct c; cbn in *; now subst.
Qed.

Lemma MemoryCache_clear_run (c : MemoryCache.t) :
  MemoryCache._lock c = false ->
  MemoryCache.clear c = (Ret tt, MemoryCache.set_store ∅ c).
Proof.
  intros Hl. unfold MemoryCache.clear, with_lock. rewrite Hl. cbn. f_equal.
  destruct c; cbn in *; now subst.
Qed.

Lemma MemoryCache_exists_run (c : MemoryCache.t) key :
  MemoryCache._lock c = false ->
  MemoryCache.exists_ key c
  = (Ret (match MemoryCache.cache c !! mkey c key with
          | Some _ => true
          | None => false
          end), c).
Proof.
  intros Hl. unfold MemoryCache.exists_, with_lock. rewrite Hl. cbn.
  now rewrite MemoryCache_unlock.
Qed.

Lemma MemoryCache_keys_run (c : MemoryCache.t) :
  MemoryCache._lock c = false ->
  MemoryCache.keys c
  = (Ret (strip_prefix (key_prefix (MemoryCache.config c))
            (map fst (map_to_list (MemoryCache.cache c)))), c).
Proof.
  intros Hl. unfold MemoryCache.keys, with_lock. rewrite Hl. cbn.
  now rewrite MemoryCache_unlock.
Qed.

Lemma MemoryCache_size_run (c : MemoryCache.t) :
  MemoryCache._lock c = false ->
  MemoryCache.size c = (Ret (Z.of_nat (base.size (MemoryCache.cache c))), c).
Proof.
  intros Hl. unfold MemoryCache.size, with_lock. rewrite Hl. cbn.
  now rewrite MemoryCache_unlock.
Qed.

Lemma elem_of_memory_keys (c : MemoryCache.t) k :
  k ∈ strip_prefix (key_prefix (MemoryCache.config c))
        (map fst (map_to_list (MemoryCache.cache c)))
  <-> is_Some (MemoryCache.cache c !! mkey c k).
Proof.
  rewrite elem_of_strip_prefix, list_elem_of_fmap. split.
  - intros ([pk v] & Epk & Hin). cbn in Epk. subst pk.
    apply elem_of_map_to_list in Hin. eauto.
  - intros [v Hv]. exists (mkey c k, v). split; [reflexivity|].
    now apply elem_of_map_to_list.
Qed.


(** X9. [delete] and [clear] succeed on what is absent.  After [delete]
    the key is gone for [get], [exists] and [keys], the other keys are
    untouched (the passing of time apart, which makes entries expire),
    and a second [delete] changes nothing; after [clear] the cache has
    size 0 and lists no key. *)
Theorem memory_delete_and_clear (key : string) (c : MemoryCache.t) :
  MemoryCache._lock c = false ->
  (exists c1,
      MemoryCache.delete key c = (Ret tt, c1) /\
      MemoryCache.get key c1 = (Ret JNull, c1) /\
      MemoryCache.exists_ key c1 = (Ret false, c1) /\
      (exists ks, MemoryCache.keys c1 = (Ret ks, c1) /\ key ∉ ks) /\
      MemoryCache.delete key c1 = (Ret tt, c1) /\
      forall k, k <> key -> MemoryCache.get k c1 = (Ret (mem_get c k), c1)) /\
  (exists c2,
      MemoryCache.clear c = (Ret tt, c2) /\
      MemoryCache.size c2 = (Ret 0%Z, c2) /\
      MemoryCache.keys c2 = (Ret [], c2) /\
      MemoryCache.clear c2 = (Ret tt, c2)).
Proof.
  intros Hl. split.
  - rewrite (MemoryCache_delete_run c key Hl).
    set (c1 := MemoryCache.set_store _ c).
    assert (Hl1 : MemoryCache._lock c1 = false) by exact Hl.
    assert (Hst : MemoryCache.cache c1 !! mkey c1 key = None)
      by apply lookup_delete_eq.
    exists c1. split; [reflexivity|]. split; [|split; [|split; [|split]]].
    + rewrite (MemoryCache_get_run c1 key Hl1). unfold mem_get. now rewrite Hst.
    + rewrite (MemoryCache_exists_run c1 key Hl1). now rewrite Hst.
    + rewrite (MemoryCache_keys_run c1 Hl1). eexists. split; [reflexivity|].
      rewrite elem_of_memory_keys, Hst. intros [v Hv]. discriminate.
    + rewrite (MemoryCache_delete_run c1 key Hl1). f_equal.
      subst c1. unfold MemoryCache.set_store. cbn.
      now rewrite delete_delete_eq.
    + intros k Hne. rewrite (MemoryCache_get_run c1 k Hl1). f_equal. f_equal.
      unfold mem_get. subst c1. cbn. rewrite lookup_delete_ne; [reflexivity|].
      intros E. apply append_inj_l in E. congruence.
  - rewrite (MemoryCache_clear_run c Hl).
    set (c2 := MemoryCache.set_store ∅ c).
    assert (Hl2 : MemoryCache._lock c2 = false) by exact Hl.
    exists c2. split; [reflexivity|]. split; [|split].
    + rewrite (MemoryCache_size_run c2 Hl2). cbn. now rewrite map_size_empty.
    + rewrite (MemoryCache_keys_run c2 Hl2). cbn. now rewrite map_to_list_empty.
    + now rewrite (MemoryCache_clear_run c2 Hl2).
Qed.

End MemoryOps.


Lemma memory_delete_and_clear_witness :
  exists c1,
    MemoryCache.delete "k" (memory ∅) = (Ret tt, c1) /\
    MemoryCache.get "k" c1 = (Ret JNull, c1).
Proof.
  destruct (memory_delete_and_clear "k" (memory ∅) eq_refl)
    as ((c1 & Edel & Hget & _) & _).
  exists c1. auto.
Defined.

(* ===================================================================== *)
(** * The tiered cache *)
(* ===================================================================== *)

Section FanOut.

Context {C : Type} `{CacheProvider C}.

Lemma run_tasks_done {A} (op : M C A) (cs : list C) :
  Forall (fun c => fst (op c) <> Block) cs ->
  TieredCache.run_tasks op cs = (true, map (fun c => snd (op c)) cs).
Proof.
  induction 1 as [|c cs Hc _ IH]; cbn; [reflexivity|].
  rewrite IH. destruct (op c) as [[a|e|] c']; cbn in *;
    [reflexivity|reflexivity|contradiction].
Qed.

Lemma run_tasks_suspended {A} (op : M C A) (cs : list C) :
  Exists (fun c => fst (op c) = Block) cs ->
  fst (TieredCache.run_tasks op cs) = false.
Proof.
  induction 1 as [c cs Hc|c cs _ IH]; cbn.
  - destruct (op c) as [[a|e|] c']; cbn in *; try discriminate.
    now destruct (TieredCache.run_tasks op cs).
  - destruct (op c) as [r c']. destruct (TieredCache.run_tasks op cs) as [done cs'].
    cbn in *. subst done. now destruct r.
Qed.

(** X10. [TieredCache.set] runs [set] on every tier and returns, whatever
    the tiers do short of never returning: a tier whose [set] raises keeps
    the state its own [set] left, the other tiers are written, and no
    exception reaches the caller.  If the [set] of some tier never returns,
    neither does [TieredCache.set], and the lock of the tiered cache stays
    held. *)
Theorem tiered_set_writes_every_tier_and_never_raises
    (key : string) (value : json) (ttl : option Z) (s : TieredCache.t C) :
  TieredCache._lock s = false ->
  (Forall (fun c => fst (provider_set key value ttl c) <> Block)
          (TieredCache.caches s) ->
   TieredCache.set key value ttl s
   = (Ret tt,
      {| TieredCache.caches :=
           map (fun c => snd (provider_set key value ttl c)) (TieredCache.caches s);
         TieredCache._lock := false |})) /\
  (Exists (fun c => fst (provider_set key value ttl c) = Block)
          (TieredCache.caches s) ->
   fst (TieredCache.set key value ttl s) = Block /\
   TieredCache._lock (snd (TieredCache.set key value ttl s)) = true).
Proof.
  intros Hl. unfold TieredCache.set, TieredCache.on_tiers, with_lock,
    TieredCache.gather. rewrite Hl. cbn. split.
  - intros Hall. rewrite (run_tasks_done _ _ Hall). reflexivity.
  - intros Hex. pose proof (run_tasks_suspended _ _ Hex) as Hs.
    destruct (TieredCache.run_tasks _ _) as [done cs']. cbn in Hs. subst done.
    cbn. auto.
Qed.

End FanOut.

Lemma tiered_set_writes_every_tier_and_never_raises_witness :
  let tiers := {| TieredCache.caches := [read_only ∅; healthy ∅];
                  TieredCache._lock := false |} in
  TieredCache.set "k" (JStr "v") None tiers
  = (Ret tt,
     {| TieredCache.caches := [read_only ∅; healthy {["k" := JStr "v"]}];
        TieredCache._lock := false |}).
Proof.
  refine (proj1 (tiered_set_writes_every_tier_and_never_raises
                   "k" (JStr "v") None
                   {| TieredCache.caches := [read_only ∅; healthy ∅];
                      TieredCache._lock := false |} eq_refl) _).
  repeat constructor; discriminate.
Defined.

Section GenericTiers.

Context {C : Type} `{CacheProvider C}.
Variable key : string.

Lemma at_tier_ret {A} (m : M C A) (cs : list C) j c a c' :
  cs !! j = Some c -> m c = (Ret a, c') ->
  TieredCache.at_tier j m cs = (Ret (Some a), <[j := c']> cs).
Proof. intros Hj Hm. unfold TieredCache.at_tier. now rewrite Hj, Hm. Qed.

Lemma at_tier_none {A} (m : M C A) (cs : list C) j :
  cs !! j = None -> TieredCache.at_tier j m cs = (Ret None, cs).
Proof. intros Hj. unfold TieredCache.at_tier. now rewrite Hj. Qed.

(** The backfill of the tiers [a .. a+k-1], when the [set] of each of them
    returns. *)
Lemma backfill_trace v k :
  forall a (cs : list C),
    (a + k <= length cs)%nat ->
    (forall j c, (a <= j)%nat -> (j < a + k)%nat -> cs !! j = Some c ->
                 fst (provider_set key v None c) = Ret tt) ->
    for_each (seq a k)
      (fun j => TieredCache.at_tier j (provider_set key v None) ;; ret tt) cs
    = (Ret tt,
       imap (fun j c => if ((a <=? j) && (j <? a + k))%nat
                        then snd (provider_set key v None c) else c) cs).
Proof.
  induction k as [|k IH]; intros a cs Hlen Hset; cbn [seq for_each].
  - unfold ret. f_equal. apply list_eq. intros j. rewrite list_lookup_imap.
    destruct (cs !! j); cbn -[Nat.leb Nat.ltb Nat.eqb Nat.add]; [|reflexivity].
    destruct ((a <=? j) && (j <? a + 0))%nat eqn:E; [|reflexivity].
    apply andb_true_iff in E as [E1 E2].
    apply Nat.leb_le in E1. apply Nat.ltb_lt in E2. lia.
  - destruct (lookup_lt_is_Some_2 cs a ltac:(lia)) as [c Hc].
    pose proof (Hset a c (Nat.le_refl a) ltac:(lia) Hc) as Hret.
    destruct (provider_set key v None c) as [r c'] eqn:Ec. cbn in Hret. subst r.
    unfold bind at 1. unfold bind at 1.
    rewrite (at_tier_ret _ cs a c tt c' Hc Ec). cbn [ret].
    rewrite (IH (S a) (<[a := c']> cs)).
    + f_equal. apply list_eq. intros j. rewrite !list_lookup_imap.
      destruct (decide (j = a)) as [->|Hne].
      * rewrite list_lookup_insert_eq by (apply lookup_lt_is_Some; eauto).
        rewrite Hc. cbn -[Nat.leb Nat.ltb Nat.eqb Nat.add].
        assert (E1 : ((S a <=? a) && (a <? S a + k))%nat = false).
        { apply andb_false_iff. left. apply Nat.leb_gt. lia. }
        assert (E2 : ((a <=? a) && (a <? a + S k))%nat = true).
        { apply andb_true_iff. split; [apply Nat.leb_le|apply Nat.ltb_lt]; lia. }
        rewrite E1, E2, Ec. reflexivity.
      * rewrite list_lookup_insert_ne by congruence.
        assert (E : ((S a <=? j) && (j <? S a + k))%nat
                    = ((a <=? j) && (j <? a + S k))%nat).
        { apply Bool.eq_iff_eq_true.
          rewrite !andb_true_iff, !Nat.leb_le, !Nat.ltb_lt. lia. }
        now rewrite E.
    + rewrite length_insert. lia.
    + intros j cj Hj1 Hj2 Hcj. rewrite list_lookup_insert_ne in Hcj by lia.
      apply (Hset j cj); [lia|lia|exact Hcj].
Qed.

Lemma at_tier_raise {A} (m : M C A) (cs : list C) j c e c' :
  cs !! j = Some c -> m c = (Raise e, c') ->
  TieredCache.at_tier j m cs = (Raise e, <[j := c']> cs).
Proof. intros Hj Hm. unfold TieredCache.at_tier. now rewrite Hj, Hm. Qed.

(** The backfill of the tiers [a .. a+k-1] stops at the first tier [b]
    whose [set] raises. *)
Lemma backfill_raises v e b k :
  forall a (cs : list C),
    (a <= b)%nat -> (b < a + k)%nat -> (a + k <= length cs)%nat ->
    (forall j c, (a <= j)%nat -> (j < b)%nat -> cs !! j = Some c ->
                 fst (provider_set key v None c) = Ret tt) ->
    (forall c, cs !! b = Some c -> fst (provider_set key v None c) = Raise e) ->
    for_each (seq a k)
      (fun j => TieredCache.at_tier j (provider_set key v None) ;; ret tt) cs
    = (Raise e,
       imap (fun j c => if ((a <=? j) && (j <=? b))%nat
                        then snd (provider_set key v None c) else c) cs).
Proof.
  induction k as [|k IH]; intros a cs Hab Hbk Hlen Hset Hraise; [lia|].
  cbn [seq for_each].
  destruct (lookup_lt_is_Some_2 cs a ltac:(lia)) as [c Hc].
  destruct (decide (a = b)) as [->|Hne].
  - pose proof (Hraise c Hc) as Hret.
    destruct (provider_set key v None c) as [r c'] eqn:Ec. cbn in Hret. subst r.
    unfold bind at 1. unfold bind at 1.
    rewrite (at_tier_raise _ cs b c e c' Hc Ec). f_equal.
    apply list_eq. intros j. rewrite list_lookup_imap.
    destruct (decide (j = b)) as [->|Hjb].
    + rewrite list_lookup_insert_eq by (apply lookup_lt_is_Some; eauto).
      rewrite Hc. cbn -[Nat.leb Nat.ltb Nat.eqb Nat.add].
      now rewrite Nat.leb_refl, Ec.
    + rewrite list_lookup_insert_ne by congruence.
      destruct (cs !! j); cbn -[Nat.leb Nat.ltb Nat.eqb Nat.add]; [|reflexivity].
      assert (E : ((b <=? j) && (j <=? b))%nat = false).
      { apply andb_false_iff.
        destruct (Nat.lt_ge_cases j b); [left|right]; apply Nat.leb_gt; lia. }
      now rewrite E.
  - pose proof (Hset a c (Nat.le_refl a) ltac:(lia) Hc) as Hret.
    destruct (provider_set key v None c) as [r c'] eqn:Ec. cbn in Hret. subst r.
    unfold bind at 1. unfold bind at 1.
    rewrite (at_tier_ret _ cs a c tt c' Hc Ec). cbn [ret].
    rewrite (IH (S a) (<[a := c']> cs)).
    + f_equal. apply list_eq. intros j. rewrite !list_lookup_imap.
      destruct (decide (j = a)) as [->|Hja].
      * rewrite list_lookup_insert_eq by (apply lookup_lt_is_Some; eauto).
        rewrite Hc. cbn -[Nat.leb Nat.ltb Nat.eqb Nat.add].
        assert (E1 : ((S a <=? a) && (a <=? b))%nat = false).
        { apply andb_false_iff. left. apply Nat.leb_gt. lia. }
        assert (E2 : ((a <=? a) && (a <=? b))%nat = true).
        { apply andb_true_iff. split; apply Nat.leb_le; lia. }
        rewrite E1, E2, Ec. reflexivity.
      * rewrite list_lookup_insert_ne by congruence.
        assert (E : ((S a <=? j) && (j <=? b))%nat = ((a <=? j) && (j <=? b))%nat).
        { apply Bool.eq_iff_eq_true. rewrite !andb_true_iff, !Nat.leb_le. lia. }
        now rewrite E.
    + lia.
    + lia.
    + rewrite length_insert. lia.
    + intros j cj Hj1 Hj2 Hcj. rewrite list_lookup_insert_ne in Hcj by lia.
      apply (Hset j cj); [lia|lia|exact Hcj].
    + intros cb Hcb. rewrite list_lookup_insert_ne in Hcb by congruence.
      now apply Hraise.
Qed.

(** The probes up to the first tier whose [get] returns a value. *)
Lemma probe_first_hit v h c c1 :
  forall n i (cs : list C),
    (i <= h)%nat -> (h < i + n)%nat ->
    cs !! h = Some c -> provider_get key c = (Ret v, c1) -> is_not_None v = true ->
    (forall j cj, (i <= j)%nat -> (j < h)%nat -> cs !! j = Some cj ->
                  fst (provider_get key cj) = Ret JNull) ->
    TieredCache.probe n i key cs
    = (TieredCache.backfill h key v ;; ret v)
        (imap (fun j cj => if ((i <=? j) && (j <=? h))%nat
                           then snd (provider_get key cj) else cj) cs).
Proof.
  induction n as [|n IH]; intros i cs Hih Hhn Hh Hget Hnn Hmiss; [lia|].
  cbn [TieredCache.probe].
  destruct (decide (i = h)) as [->|Hne].
  - unfold bind at 1. rewrite (at_tier_ret _ cs h c v c1 Hh Hget). rewrite Hnn.
    f_equal. apply list_eq. intros j. rewrite list_lookup_imap.
    destruct (decide (j = h)) as [->|Hjh].
    + rewrite list_lookup_insert_eq by (apply lookup_lt_is_Some; eauto).
      rewrite Hh. cbn -[Nat.leb Nat.ltb Nat.eqb Nat.add]. rewrite Nat.leb_refl, Hget. reflexivity.
    + rewrite list_lookup_insert_ne by congruence.
      destruct (cs !! j); cbn -[Nat.leb Nat.ltb Nat.eqb Nat.add]; [|reflexivity].
      assert (E : ((h <=? j) && (j <=? h))%nat = false).
      { apply andb_false_iff.
        destruct (Nat.lt_ge_cases j h); [left; apply Nat.leb_gt|right; apply Nat.leb_gt]; lia. }
      now rewrite E.
  - destruct (lookup_lt_is_Some_2 cs i) as [ci Hci].
    { apply lookup_lt_Some in Hh. lia. }
    pose proof (Hmiss i ci (Nat.le_refl i) ltac:(lia) Hci) as Hret.
    destruct (provider_get key ci) as [r ci'] eqn:Eci. cbn in Hret. subst r.
    unfold bind at 1. rewrite (at_tier_ret _ cs i ci JNull ci' Hci Eci).
    cbn [is_not_None].
    rewrite (IH (S i) (<[i := ci']> cs)); try assumption; try lia.
    + f_equal. apply list_eq. intros j. rewrite !list_lookup_imap.
      destruct (decide (j = i)) as [->|Hji].
      * rewrite list_lookup_insert_eq by (apply lookup_lt_is_Some; eauto).
        rewrite Hci. cbn -[Nat.leb Nat.ltb Nat.eqb Nat.add].
        assert (E1 : ((S i <=? i) && (i <=? h))%nat = false).
        { apply andb_false_iff. left. apply Nat.leb_gt. lia. }
        assert (E2 : ((i <=? i) && (i <=? h))%nat = true).
        { apply andb_true_iff. split; apply Nat.leb_le; lia. }
        rewrite E1, E2, Eci. reflexivity.
      * rewrite list_lookup_insert_ne by congruence.
        assert (E : ((S i <=? j) && (j <=? h))%nat = ((i <=? j) && (j <=? h))%nat).
        { apply Bool.eq_iff_eq_true. rewrite !andb_true_iff, !Nat.leb_le. lia. }
        now rewrite E.
    + rewrite list_lookup_insert_ne by congruence. exact Hh.
    + intros j cj Hj1 Hj2 Hcj. rewrite list_lookup_insert_ne in Hcj by lia.
      apply (Hmiss j cj); [lia|lia|exact Hcj].
Qed.

(** The probes when the [get] of every tier returns [None]. *)
Lemma probe_all_miss n :
  forall i (cs : list C),
    (length cs <= i + n)%nat ->
    (forall j cj, (i <= j)%nat -> cs !! j = Some cj ->
                  fst (provider_get key cj) = Ret JNull) ->
    TieredCache.probe n i key cs
    = (Ret JNull,
       imap (fun j cj => if (i <=? j)%nat then snd (provider_get key cj) else cj) cs).
Proof.
  induction n as [|n IH]; intros i cs Hlen Hmiss; cbn [TieredCache.probe].
  - unfold ret. f_equal. apply list_eq. intros j. rewrite list_lookup_imap.
    destruct (cs !! j) eqn:Ej; cbn -[Nat.leb Nat.ltb Nat.eqb Nat.add]; [|reflexivity].
    apply lookup_lt_Some in Ej.
    destruct (Nat.leb_spec i j); [lia|reflexivity].
  - destruct (cs !! i) as [ci|] eqn:Hci.
    + pose proof (Hmiss i ci (Nat.le_refl i) Hci) as Hret.
      destruct (provider_get key ci) as [r ci'] eqn:Eci. cbn in Hret. subst r.
      unfold bind at 1. rewrite (at_tier_ret _ cs i ci JNull ci' Hci Eci).
      cbn [is_not_None].
      rewrite (IH (S i) (<[i := ci']> cs)).
      * f_equal. apply list_eq. intros j. rewrite !list_lookup_imap.
        destruct (decide (j = i)) as [->|Hji].
        -- rewrite list_lookup_insert_eq by (apply lookup_lt_is_Some; eauto).
           rewrite Hci. cbn -[Nat.leb Nat.ltb Nat.eqb Nat.add]. rewrite Nat.leb_refl.
           destruct (Nat.leb_spec (S i) i); [lia|]. now rewrite Eci.
        -- rewrite list_lookup_insert_ne by congruence.
           assert (E : (S i <=? j)%nat = (i <=? j)%nat).
           { apply Bool.eq_iff_eq_true. rewrite !Nat.leb_le. lia. }
           now rewrite E.
      * rewrite length_insert. lia.
      * intros j cj Hj Hcj. rewrite list_lookup_insert_ne in Hcj by lia.
        apply (Hmiss j cj); [lia|exact Hcj].
    + unfold bind at 1. rewrite (at_tier_none _ cs i Hci). unfold ret. f_equal.
      apply list_eq. intros j. rewrite list_lookup_imap.
      destruct (cs !! j) eqn:Ej; cbn -[Nat.leb Nat.ltb Nat.eqb Nat.add]; [|reflexivity].
      apply lookup_lt_Some in Ej. apply lookup_ge_None in Hci.
      destruct (Nat.leb_spec i j); [lia|reflexivity].
Qed.

(** X11. [TieredCache.get] asks the tiers in order and returns the value of
    the first tier whose [get] returns one (a [None] does not count).
    Before it returns, it writes the value with [set] into every tier
    before that one, in order, each in the state its own [get] has left:
    when these [set] return, [get] returns the value and the tiers after
    the hit are not touched; when the [set] of one of them raises, [get]
    raises that exception, the tiers after that one are not written, and
    the lock is released.  When the [get] of every tier returns [None],
    [None] is returned and nothing is written. *)
Theorem tiered_get_returns_first_hit_and_backfills (tiers : list C) :
  let s := {| TieredCache.caches := tiers; TieredCache._lock := false |} in
  (forall h c v c1,
      tiers !! h = Some c ->
      provider_get key c = (Ret v, c1) ->
      v <> JNull ->
      (forall j cj, (j < h)%nat -> tiers !! j = Some cj ->
                    fst (provider_get key cj) = Ret JNull) ->
      (forall j cj, (j < h)%nat -> tiers !! j = Some cj ->
                    fst (provider_set key v None (snd (provider_get key cj))) = Ret tt) ->
      exists tiers',
        TieredCache.get key s
        = (Ret v, {| TieredCache.caches := tiers'; TieredCache._lock := false |}) /\
        forall j,
          tiers' !! j
          = (fun cj => if (j <? h)%nat
                       then snd (provider_set key v None (snd (provider_get key cj)))
                       else if (j =? h)%nat then c1 else cj) <$> tiers !! j) /\
  (forall h c v c1 b e,
      tiers !! h = Some c ->
      provider_get key c = (Ret v, c1) ->
      v <> JNull ->
      (forall j cj, (j < h)%nat -> tiers !! j = Some cj ->
                    fst (provider_get key cj) = Ret JNull) ->
      (b < h)%nat ->
      (forall j cj, (j < b)%nat -> tiers !! j = Some cj ->
                    fst (provider_set key v None (snd (provider_get key cj))) = Ret tt) ->
      (forall cb, tiers !! b = Some cb ->
                  fst (provider_set key v None (snd (provider_get key cb))) = Raise e) ->
      exists tiers',
        TieredCache.get key s
        = (Raise e, {| TieredCache.caches := tiers'; TieredCache._lock := false |}) /\
        forall j,
          tiers' !! j
          = (fun cj => if (j <=? b)%nat
                       then snd (provider_set key v None (snd (provider_get key cj)))
                       else if (j <? h)%nat then snd (provider_get key cj)
                       else if (j =? h)%nat then c1 else cj) <$> tiers !! j) /\
  ((forall j cj, tiers !! j = Some cj -> fst (provider_get key cj) = Ret JNull) ->
   TieredCache.get key s
   = (Ret JNull,
      {| TieredCache.caches := map (fun cj => snd (provider_get key cj)) tiers;
         TieredCache._lock := false |})).
Proof.
  intros s. split; [|split].
  - intros h c v c1 Hh Hget Hnn Hmiss Hset.
    assert (Hnn' : is_not_None v = true)
      by (destruct v; [now contradiction Hnn|reflexivity..]).
    assert (Hlt : (h < length tiers)%nat) by (apply lookup_lt_Some in Hh; exact Hh).
    set (probed := imap (fun j cj => if ((0 <=? j) && (j <=? h))%nat
                                     then snd (provider_get key cj) else cj) tiers).
    assert (Hprobed : forall j, probed !! j
                                = (fun cj => if (j <=? h)%nat
                                             then snd (provider_get key cj) else cj)
                                    <$> tiers !! j).
    { intros j. subst probed. now rewrite list_lookup_imap. }
    eexists. split.
    + unfold TieredCache.get, with_lock. cbn.
      rewrite (probe_first_hit v h c c1 (length tiers) 0 tiers ltac:(lia) ltac:(lia)
                 Hh Hget Hnn').
      2:{ intros j cj _ Hj. now apply Hmiss. }
      fold probed. unfold bind at 1. unfold TieredCache.backfill.
      rewrite (backfill_trace v h 0 probed).
      * reflexivity.
      * subst probed. rewrite length_imap. lia.
      * intros j cj _ Hj Hcj. rewrite Hprobed in Hcj.
        destruct (tiers !! j) as [c0|] eqn:Ej; [|discriminate].
        cbn -[Nat.leb Nat.ltb Nat.eqb Nat.add] in Hcj. injection Hcj as <-.
        destruct (Nat.leb_spec j h); [|lia]. now apply (Hset j c0).
    + intros j. cbn [TieredCache.caches]. rewrite list_lookup_imap, Hprobed.
      destruct (tiers !! j) as [c0|] eqn:Ej; cbn -[Nat.ltb Nat.eqb]; [|reflexivity].
      f_equal.
      destruct (Nat.ltb_spec j h) as [Hjh|Hjh].
      * destruct (Nat.leb_spec j h); [reflexivity|lia].
      * destruct (Nat.eqb_spec j h) as [->|Hne].
        -- rewrite Nat.leb_refl. rewrite Hh in Ej. injection Ej as <-.
           now rewrite Hget.
        -- destruct (Nat.leb_spec j h); [lia|reflexivity].
  - intros h c v c1 b e Hh Hget Hnn Hmiss Hbh Hset Hraise.
    assert (Hnn' : is_not_None v = true)
      by (destruct v; [now contradiction Hnn|reflexivity..]).
    assert (Hlt : (h < length tiers)%nat) by (apply lookup_lt_Some in Hh; exact Hh).
    set (probed := imap (fun j cj => if ((0 <=? j) && (j <=? h))%nat
                                     then snd (provider_get key cj) else cj) tiers).
    assert (Hprobed : forall j, probed !! j
                                = (fun cj => if (j <=? h)%nat
                                             then snd (provider_get key cj) else cj)
                                    <$> tiers !! j).
    { intros j. subst probed. now rewrite list_lookup_imap. }
    eexists. split.
    + unfold TieredCache.get, with_lock. cbn.
      rewrite (probe_first_hit v h c c1 (length tiers) 0 tiers ltac:(lia) ltac:(lia)
                 Hh Hget Hnn').
      2:{ intros j cj _ Hj. now apply Hmiss. }
      fold probed. unfold bind at 1. unfold TieredCache.backfill.
      rewrite (backfill_raises v e b h 0 probed).
      * reflexivity.
      * lia.
      * lia.
      * subst probed. rewrite length_imap. lia.
      * intros j cj _ Hj Hcj. rewrite Hprobed in Hcj.
        destruct (tiers !! j) as [c0|] eqn:Ej; [|discriminate].
        cbn -[Nat.leb Nat.ltb Nat.eqb Nat.add] in Hcj. injection Hcj as <-.
        destruct (Nat.leb_spec j h); [|lia]. now apply (Hset j c0).
      * intros cb Hcb. rewrite Hprobed in Hcb.
        destruct (tiers !! b) as [c0|] eqn:Eb; [|discriminate].
        cbn -[Nat.leb Nat.ltb Nat.eqb Nat.add] in Hcb. injection Hcb as <-.
        destruct (Nat.leb_spec b h); [|lia]. now apply (Hraise c0).
    + intros j. cbn [TieredCache.caches]. rewrite list_lookup_imap, Hprobed.
      destruct (tiers !! j) as [c0|] eqn:Ej; cbn -[Nat.leb Nat.ltb Nat.eqb]; [|reflexivity].
      f_equal.
      destruct (Nat.leb_spec j b) as [Hjb|Hjb].
      * destruct (Nat.leb_spec j h); [reflexivity|lia].
      * destruct (Nat.ltb_spec j h) as [Hjh|Hjh].
        -- destruct (Nat.leb_spec j h); [reflexivity|lia].
        -- destruct (Nat.eqb_spec j h) as [->|Hne].
           ++ rewrite Nat.leb_refl. rewrite Hh in Ej. injection Ej as <-.
              now rewrite Hget.
           ++ destruct (Nat.leb_spec j h); [lia|reflexivity].
  - intros Hmiss. unfold TieredCache.get, with_lock. cbn.
    rewrite (probe_all_miss (length tiers) 0 tiers ltac:(lia)).
    + f_equal. unfold TieredCache.set_lock. cbn [TieredCache.caches]. f_equal.
      apply list_eq. intros j.
      rewrite list_lookup_imap, list_lookup_fmap. reflexivity.
    + intros j cj _. apply Hmiss.
Qed.

End GenericTiers.

Lemma tiered_get_returns_first_hit_and_backfills_witness :
  let tiers := [memory ∅; memory {["flexflag:k" := JNull]};
                memory {["flexflag:k" := JStr "v"]}] in
  let small := [memory_without_room; memory {["flexflag:k" := JStr "v"]}] in
  TieredCache.get "k" {| TieredCache.caches := tiers; TieredCache._lock := false |}
  = (Ret (JStr "v"),
     {| TieredCache.caches := [memory {["flexflag:k" := JStr "v"]};
                               memory {["flexflag:k" := JStr "v"]};
                               memory {["flexflag:k" := JStr "v"]}];
        TieredCache._lock := false |}) /\
  TieredCache.get "k" {| TieredCache.caches := small; TieredCache._lock := false |}
  = (Raise (CacheError "value too large"),
     {| TieredCache.caches := small; TieredCache._lock := false |}).
Proof.
  assert (Hhit : provider_get "k" (memory {["flexflag:k" := JStr "v"]})
                 = (Ret (JStr "v"), memory {["flexflag:k" := JStr "v"]}))
    by reflexivity.
  cbv zeta. split.
  - destruct (proj1 (@tiered_get_returns_first_hit_and_backfills
                       MemoryCache.t MemoryCache_provider "k"
                       [memory ∅; memory {["flexflag:k" := JNull]};
                        memory {["flexflag:k" := JStr "v"]}])
                2%nat (memory {["flexflag:k" := JStr "v"]}) (JStr "v")
                (memory {["flexflag:k" := JStr "v"]})
                eq_refl Hhit ltac:(discriminate))
      as (tiers' & Eget & Hlk).
    + intros [|[|j]] cj Hj Hcj;
        [injection Hcj as <-; reflexivity|injection Hcj as <-; reflexivity|lia].
    + intros [|[|j]] cj Hj Hcj;
        [injection Hcj as <-; reflexivity|injection Hcj as <-; reflexivity|lia].
    + rewrite Eget. do 2 f_equal. apply list_eq. intros j. rewrite Hlk.
      destruct j as [|[|[|j]]]; reflexivity.
  - destruct (proj1 (proj2 (@tiered_get_returns_first_hit_and_backfills
                       MemoryCache.t MemoryCache_provider "k"
                       [memory_without_room; memory {["flexflag:k" := JStr "v"]}]))
                1%nat (memory {["flexflag:k" := JStr "v"]}) (JStr "v")
                (memory {["flexflag:k" := JStr "v"]})
                0%nat (CacheError "value too large")
                eq_refl Hhit ltac:(discriminate))
      as (tiers' & Eget & Hlk).
    + intros [|j] cj Hj Hcj; [injection Hcj as <-; reflexivity|lia].
    + lia.
    + intros j cj Hj Hcj. lia.
    + intros cb Hcb. injection Hcb as <-. reflexivity.
    + rewrite Eget. do 2 f_equal. apply list_eq. intros j. rewrite Hlk.
      destruct j as [|[|j]]; reflexivity.
Defined.

Section MemoryTiers.

Variable key : string.

Abbreviation unlocked_tiers :=
  (Forall (fun c : MemoryCache.t => MemoryCache._lock c = false)).

Lemma at_tier_get (cs : list MemoryCache.t) j c :
  cs !! j = Some c -> MemoryCache._lock c = false ->
  TieredCache.at_tier j (provider_get key) cs = (Ret (Some (mem_get c key)), cs).
Proof.
  intros Hj Hl. unfold TieredCache.at_tier. rewrite Hj. cbn.
  rewrite (MemoryCache_get_run c key Hl). now rewrite list_insert_id.
Qed.

Lemma at_tier_exists (cs : list MemoryCache.t) j c :
  cs !! j = Some c -> MemoryCache._lock c = false ->
  TieredCache.at_tier j (provider_exists key) cs
  = (Ret (Some (match MemoryCache.cache c
                        !! (key_prefix (MemoryCache.config c) +:+ key) with
                | Some _ => true
                | None => false
                end)), cs).
Proof.
  intros Hj Hl. unfold TieredCache.at_tier. rewrite Hj. cbn.
  rewrite (MemoryCache_exists_run c key Hl). now rewrite list_insert_id.
Qed.

Lemma at_tier_out {A} (m : M MemoryCache.t A) (cs : list MemoryCache.t) j :
  cs !! j = None -> TieredCache.at_tier j m cs = (Ret None, cs).
Proof. intros Hj. unfold TieredCache.at_tier. now rewrite Hj. Qed.

Lemma probe_miss n :
  forall i (cs : list MemoryCache.t),
    unlocked_tiers cs ->
    (forall j c, (i <= j)%nat -> cs !! j = Some c -> mem_get c key = JNull) ->
    TieredCache.probe n i key cs = (Ret JNull, cs).
Proof.
  induction n as [|n IH]; intros i cs Hun Hmiss; cbn [TieredCache.probe];
    [reflexivity|].
  destruct (cs !! i) as [c|] eqn:Hc.
  - assert (Hl : MemoryCache._lock c = false).
    { rewrite Forall_lookup in Hun. exact (Hun i c Hc). }
    unfold bind at 1. rewrite (at_tier_get cs i c Hc Hl).
    rewrite (Hmiss i c (Nat.le_refl i) Hc). cbn [is_not_None].
    apply IH; [exact Hun|]. intros j c' Hj. apply Hmiss. lia.
  - unfold bind at 1. now rewrite (at_tier_out _ cs i Hc).
Qed.

End MemoryTiers.

Section TieredRoundTrip.

Abbreviation all_unlocked :=
  (Forall (fun c : MemoryCache.t => MemoryCache._lock c = false)).

Lemma exists_from_miss key n :
  forall i (cs : list MemoryCache.t),
    all_unlocked cs ->
    (forall j c, cs !! j = Some c ->
                 MemoryCache.cache c !! (key_prefix (MemoryCache.config c) +:+ key)
                 = None) ->
    TieredCache.exists_from n i key cs = (Ret false, cs).
Proof.
  induction n as [|n IH]; intros i cs Hun Hmiss; cbn [TieredCache.exists_from];
    [reflexivity|].
  destruct (cs !! i) as [c|] eqn:Hc.
  - assert (Hl : MemoryCache._lock c = false).
    { rewrite Forall_lookup in Hun. exact (Hun i c Hc). }
    unfold bind at 1. rewrite (at_tier_exists key cs i c Hc Hl).
    rewrite (Hmiss i c Hc). now apply IH.
  - unfold bind at 1. now rewrite (at_tier_out _ cs i Hc).
Qed.

Lemma fan_out_memory {A} (P : MemoryCache.t -> Prop) (op : M MemoryCache.t A)
    (upd : MemoryCache.t -> MemoryCache.t) (cs : list MemoryCache.t) :
  (forall c, P c ->
             exists a, op c = (Ret a, upd c) /\ MemoryCache._lock (upd c) = false) ->
  Forall P cs ->
  TieredCache.on_tiers (TieredCache.gather op)
    {| TieredCache.caches := cs; TieredCache._lock := false |}
  = (Ret tt, {| TieredCache.caches := map upd cs; TieredCache._lock := false |}) /\
  all_unlocked (map upd cs).
Proof.
  intros Hop Hun. unfold TieredCache.on_tiers, with_lock, TieredCache.gather. cbn.
  assert (Hrun : TieredCache.run_tasks op cs = (true, map upd cs) /\
                 all_unlocked (map upd cs)).
  { induction Hun as [|c cs Hc _ [IH1 IH2]]; cbn; [split; [reflexivity|constructor]|].
    destruct (Hop c Hc) as (a & -> & Hl). rewrite IH1. split; [reflexivity|].
    constructor; assumption. }
  destruct Hrun as [-> Hun']. split; [reflexivity|exact Hun'].
Qed.

(** A tier that is not locked and can hold an entry. *)
Abbreviation holds_entries :=
  (fun c : MemoryCache.t =>
     MemoryCache._lock c = false /\
     (1 <= max_size (MemoryCache.config c))%Z /\
     (0 < MemoryCache.config_ttl c)%Z).

Lemma written_tier key value ttl0 c :
  holds_entries c ->
  let c' := snd (MemoryCache.set key value ttl0 c) in
  MemoryCache.set key value ttl0 c = (Ret tt, c') /\
  MemoryCache._lock c' = false /\
  MemoryCache.cache c' !! (key_prefix (MemoryCache.config c') +:+ key) = Some value.
Proof.
  intros (Hl & Hsize & Httl) c'.
  destruct (MemoryCache_set_stored c key value ttl0 Hl Hsize)
    as (c1 & Eset & Hl1 & Hcfg & Hst).
  subst c'. rewrite Eset. cbn. split; [reflexivity|]. split; [exact Hl1|].
  rewrite Hcfg, Hst. unfold MemoryCache.config_ttl in Httl.
  destruct (Z.ltb_spec 0 (ttl (MemoryCache.config c))); [reflexivity|lia].
Qed.

(** X12. On a tiered cache built from in-memory tiers that can each hold
    an entry ([max_size] at least 1, [ttl] positive), a value that is not
    [None] written by [set] is in every tier: a [get] that runs before the
    entry expires returns it from tier 0 without writing anything, and
    [exists] answers [True]; after [delete] of the key, or after [clear],
    [get] returns [None] and [exists] answers [False].  A tiered cache of
    no tier cannot be built. *)
Theorem tiered_set_get_delete_round_trip
    (key : string) (value : json) (ttl : option Z)
    (tiers : list MemoryCache.t) (s : TieredCache.t MemoryCache.t) :
  Forall (fun c : MemoryCache.t =>
            MemoryCache._lock c = false /\
            (1 <= max_size (MemoryCache.config c))%Z /\
            (0 < MemoryCache.config_ttl c)%Z) tiers ->
  TieredCache.__init__ tiers = inr s ->
  value <> JNull ->
  tiers <> [] /\
  exists s1 s2 s3,
    TieredCache.set key value ttl s = (Ret tt, s1) /\
    TieredCache.get key s1 = (Ret value, s1) /\
    TieredCache.exists_ key s1 = (Ret true, s1) /\
    TieredCache.delete key s1 = (Ret tt, s2) /\
    TieredCache.get key s2 = (Ret JNull, s2) /\
    TieredCache.exists_ key s2 = (Ret false, s2) /\
    TieredCache.clear s1 = (Ret tt, s3) /\
    forall k, TieredCache.get k s3 = (Ret JNull, s3) /\
              TieredCache.exists_ k s3 = (Ret false, s3).
Proof.
  intros Hhold Hinit Hnn.
  destruct tiers as [|c0 tiers0]; [discriminate|]. split; [discriminate|].
  injection Hinit as <-.
  set (tiers := c0 :: tiers0) in *.
  set (wr := fun c : MemoryCache.t => snd (MemoryCache.set key value ttl c)).
  set (del := fun c : MemoryCache.t =>
                MemoryCache.set_store
                  (base.delete (key_prefix (MemoryCache.config c) +:+ key)
                     (MemoryCache.cache c)) c).
  set (clr := fun c : MemoryCache.t => MemoryCache.set_store ∅ c).
  destruct (fan_out_memory holds_entries (provider_set key value ttl) wr tiers)
    as [Eset Hun1]; [|exact Hhold|].
  { intros c Hc. exists tt. destruct (written_tier key value ttl c Hc) as (E & Hl & _).
    split; [exact E|exact Hl]. }
  destruct (fan_out_memory (fun c => MemoryCache._lock c = false)
              (provider_delete key) del (map wr tiers)) as [Edel Hun2];
    [|exact Hun1|].
  { intros c Hl. exists tt. split; [exact (MemoryCache_delete_run c key Hl)|exact Hl]. }
  destruct (fan_out_memory (fun c => MemoryCache._lock c = false)
              provider_clear clr (map wr tiers)) as [Eclr Hun3];
    [|exact Hun1|].
  { intros c Hl. exists tt. split; [exact (MemoryCache_clear_run c Hl)|exact Hl]. }
  assert (Hnn' : is_not_None value = true)
    by (destruct value; [now contradiction Hnn|reflexivity..]).
  eexists _, _, _. split; [exact Eset|].
  assert (Hc0 : holds_entries c0) by (now inversion Hhold).
  destruct (written_tier key value ttl c0 Hc0) as (_ & Hl0 & Hst0).
  fold (wr c0) in Hl0, Hst0.
  split; [|split; [|split; [exact Edel|split; [|split; [|split; [exact Eclr|]]]]]].
  - unfold TieredCache.get, with_lock. cbn [TieredCache._lock TieredCache.caches TieredCache.set_lock].
    change (map wr tiers) with (wr c0 :: map wr tiers0).
    cbn [length TieredCache.probe].
    unfold bind at 1.
    rewrite (at_tier_get key (wr c0 :: map wr tiers0) 0 (wr c0) eq_refl Hl0).
    assert (Hv : mem_get (wr c0) key = value) by (unfold mem_get; now rewrite Hst0).
    rewrite Hv, Hnn'. reflexivity.
  - unfold TieredCache.exists_, TieredCache.on_tiers, with_lock.
    cbn [TieredCache._lock TieredCache.caches TieredCache.set_lock].
    change (map wr tiers) with (wr c0 :: map wr tiers0).
    cbn [length TieredCache.exists_from].
    unfold bind at 1.
    rewrite (at_tier_exists key (wr c0 :: map wr tiers0) 0 (wr c0) eq_refl Hl0).
    rewrite Hst0. reflexivity.
  - unfold TieredCache.get, with_lock. cbn [TieredCache._lock TieredCache.caches TieredCache.set_lock].
    rewrite (probe_miss key _ 0 _ Hun2); [reflexivity|].
    intros j c _ Hc. rewrite !list_lookup_fmap in Hc.
    destruct (tiers !! j) as [c1|]; [|discriminate]. injection Hc as <-.
    unfold mem_get. cbn [MemoryCache.cache MemoryCache.config MemoryCache.set_store del].
    now rewrite lookup_delete_eq.
  - unfold TieredCache.exists_, TieredCache.on_tiers, with_lock.
    cbn [TieredCache._lock TieredCache.caches TieredCache.set_lock].
    rewrite (exists_from_miss key _ 0 _ Hun2); [reflexivity|].
    intros j c Hc. rewrite !list_lookup_fmap in Hc.
    destruct (tiers !! j) as [c1|]; [|discriminate]. injection Hc as <-.
    cbn [MemoryCache.cache MemoryCache.config MemoryCache.set_store del].
    apply lookup_delete_eq.
  - intros k. split.
    + unfold TieredCache.get, with_lock. cbn [TieredCache._lock TieredCache.caches TieredCache.set_lock].
      rewrite (probe_miss k _ 0 _ Hun3); [reflexivity|].
      intros j c _ Hc. rewrite !list_lookup_fmap in Hc.
      destruct (tiers !! j) as [c1|]; [|discriminate]. injection Hc as <-.
      reflexivity.
    + unfold TieredCache.exists_, TieredCache.on_tiers, with_lock.
      cbn [TieredCache._lock TieredCache.caches TieredCache.set_lock].
      rewrite (exists_from_miss k _ 0 _ Hun3); [reflexivity|].
      intros j c Hc. rewrite !list_lookup_fmap in Hc.
      destruct (tiers !! j) as [c1|]; [|discriminate]. injection Hc as <-.
      reflexivity.
Qed.

End TieredRoundTrip.

Lemma tiered_set_get_delete_round_trip_witness :
  let s := {| TieredCache.caches := [memory ∅; memory ∅];
              TieredCache._lock := false |} in
  exists s1,
    TieredCache.set "k" (JInt 7) None s = (Ret tt, s1) /\
    TieredCache.get "k" s1 = (Ret (JInt 7), s1).
Proof.
  destruct (tiered_set_get_delete_round_trip "k" (JInt 7) None
              [memory ∅; memory ∅]
              {| TieredCache.caches := [memory ∅; memory ∅];
                 TieredCache._lock := false |}
              ltac:(repeat constructor; cbn; lia) eq_refl ltac:(discriminate))
    as (_ & s1 & _ & _ & Eset & Eget & _).
  exists s1. split; [exact Eset|exact Eget].
Defined.

(* ===================================================================== *)
(** * One evaluation, branch by branch *)
(* ===================================================================== *)

Section Branches.

Context {C : Type} `{CacheProvider C}.
Variable config : FlexFlagConfig.
Variable clock : nat -> Q.
Variable server : nat -> Client.request -> Client.http_result.
Variable Inv : C -> Prop.
Hypothesis Hresp : responsive Inv.

Abbreviation TC := (Client.t C).

Ltac fields :=
  unfold net_state, Client.with_sleeps, Client.with_requests, Client.with_ticks,
    Client.with_metrics, Client.with_fired, Client.with_cache; cbn.

Lemma _get_from_cache_exact key (s : TC) :
  cache_ok Inv s ->
  let c' := cache_after (provider_get key) (Client.cache s) in
  Client._get_from_cache key s = (Ret (cache_lookup key s), Client.with_cache c' s) /\
  cache_ok Inv (Client.with_cache c' s).
Proof.
  intros Hs. unfold Client._get_from_cache, cache_lookup, bind, gets, try_catch,
    Client.on_cache, cache_ok, cache_after in *.
  destruct (Client.cache s) as [c|] eqn:Ec; cbn.
  - destruct Hresp as [Hget _]. specialize (Hget key c Hs).
    destruct (provider_get key c) as [[v|e|] c']; cbn; [| |contradiction]; auto.
  - split; [|exact I]. unfold ret. f_equal. destruct s; cbn in *; now subst.
Qed.

Lemma _set_cache_exact key v (s : TC) :
  cache_ok Inv s ->
  let c' := cache_after (provider_set key v None) (Client.cache s) in
  Client._set_cache key v s = (Ret tt, Client.with_cache c' s) /\
  cache_ok Inv (Client.with_cache c' s).
Proof.
  intros Hs. unfold Client._set_cache, bind, gets, try_catch,
    Client.on_cache, cache_ok, cache_after in *.
  destruct (Client.cache s) as [c|] eqn:Ec; cbn.
  - destruct Hresp as [_ Hset]. specialize (Hset key v None c Hs).
    destruct (provider_set key v None c) as [[[]|e|] c']; cbn; [| |contradiction]; auto.
  - split; [|exact I]. unfold ret. f_equal. destruct s; cbn in *; now subst.
Qed.

(** One attempt: the request is sent; the attempt returns the result of the
    answer, or raises when the answer makes it fail. *)
Lemma remote_attempt_cases payload dv (s : TC) :
  let a := server (length (Client.requests s)) payload in
  (exists r tk,
      Client.remote_attempt clock server payload dv s
      = (Ret r, net_state s tk (Client.requests s ++ [payload]) (Client.sleeps s)) /\
      answer_result dv a r) \/
  (exists e,
      Client.remote_attempt clock server payload dv s
      = (Raise e, net_state s (Client.ticks s) (Client.requests s ++ [payload])
                    (Client.sleeps s)) /\
      attempt_fails a).
Proof.
  intros a. subst a. unfold Client.remote_attempt, bind, Client.post.
  destruct (server _ payload) as [status body|e]; cbn.
  - destruct (status =? 200)%Z eqn:E200; [|destruct (status =? 404)%Z eqn:E404].
    + apply Z.eqb_eq in E200.
      destruct body as [[| | | | |d]|]; cbn.
      6:{ left. eexists _, _. split; [fields; reflexivity|].
          left. split; [exact E200|]. exists d. cbn. auto. }
      all: right; eexists; (split; [fields; reflexivity|]);
        right; (split; [exact E200|]); intros data; discriminate.
    + apply Z.eqb_eq in E404. cbn. left. eexists _, _.
      split; [fields; reflexivity|]. right. cbn. auto.
    + apply Z.eqb_neq in E200, E404. cbn. right. eexists.
      split; [fields; reflexivity|]. left. auto.
  - right. eexists. split; [fields; reflexivity|]. exact I.
Qed.

Lemma answer_result_not_fails dv a r :
  answer_result dv a r -> attempt_fails a -> False.
Proof.
  destruct a as [status body|e]; cbn; [|tauto].
  intros [(E200 & d & Eb & _)|(E404 & _)] [[N200 N404]|[E200' Nb]]; try lia.
  exact (Nb d Eb).
Qed.

(** The retry loop over the attempts [a .. a+m-1], the last of which is the
    attempt number [retry_attempts - 1]: it sends the same request [j]
    times and sleeps after each of the first [j - 1], whose answers make
    the attempt fail.  It returns the result of the [j]-th answer, or
    raises once the [m] attempts have all failed. *)
Lemma retry_loop_trace payload dv m :
  forall a (s : TC),
    (a + m)%nat = Z.to_nat (retry_attempts (connection config)) ->
    exists out tk j,
      Client.retry_loop config clock server (seq a m) payload dv s
      = (out, net_state s tk (Client.requests s ++ repeat payload j)
                (Client.sleeps s ++ map (Client.retry_sleep config) (seq a (j - 1)))) /\
      (forall i, (i < j - 1)%nat ->
                 attempt_fails (server (length (Client.requests s) + i) payload)) /\
      match out with
      | Ret r =>
          (1 <= j <= m)%nat /\
          answer_result dv (server (length (Client.requests s) + j - 1) payload) r
      | Raise _ =>
          j = m /\
          forall i, (i < j)%nat ->
                    attempt_fails (server (length (Client.requests s) + i) payload)
      | Block => False
      end.
Proof.
  induction m as [|m IH]; intros a s Ham; cbn [seq Client.retry_loop].
  - exists (Raise RetriesExhausted), (Client.ticks s), 0%nat.
    split; [|split; [intros i Hi; lia|split; [reflexivity|intros i Hi; lia]]].
    unfold raise. f_equal. cbn [repeat Nat.sub seq map]. rewrite !app_nil_r.
    now destruct s.
  - unfold try_catch.
    destruct (remote_attempt_cases payload dv s) as [(r & tk & -> & Hr)|(e & -> & Hf)].
    + exists (Ret r), tk, 1%nat. split; [|split; [intros i Hi; lia|]].
      * f_equal. cbn [repeat Nat.sub seq map]. now rewrite app_nil_r.
      * split; [lia|].
        replace (length (Client.requests s) + 1 - 1)%nat
          with (length (Client.requests s)) by lia. exact Hr.
    + destruct (Z.of_nat a =? retry_attempts (connection config) - 1)%Z eqn:Elast.
      * apply Z.eqb_eq in Elast. assert (m = 0)%nat as -> by lia.
        exists (Raise e), (Client.ticks s), 1%nat.
        split; [|split; [intros i Hi; lia|split; [reflexivity|]]].
        -- unfold raise. f_equal. cbn [repeat Nat.sub seq map]. now rewrite app_nil_r.
        -- intros i Hi. assert (i = 0)%nat as -> by lia.
           now rewrite Nat.add_0_r.
      * apply Z.eqb_neq in Elast.
        unfold bind at 1. unfold Client.sleep at 1, modify.
        match goal with
        | |- context [ Client.retry_loop _ _ _ _ payload dv ?s0 ] =>
            destruct (IH (S a) s0 ltac:(lia)) as (out & tk & j & Erun & Hbefore & Hout)
        end.
        rewrite Erun.
        cbn [Client.requests Client.with_sleeps net_state Client.with_requests
             Client.with_ticks Client.sleeps] in Hbefore, Hout.
        rewrite length_app in Hbefore, Hout. cbn [length] in Hbefore, Hout.
        assert (Hj : (1 <= j)%nat).
        { destruct out as [r|e'|]; [lia| |contradiction].
          destruct Hout as [-> _]. lia. }
        exists out, tk, (S j). split; [|split].
        -- f_equal. fields. f_equal.
           ++ now rewrite <- app_assoc.
           ++ rewrite <- app_assoc. cbn [app]. f_equal.
              replace (j - 0)%nat with (S (j - 1)) by lia. reflexivity.
        -- intros i Hi. destruct i as [|i].
           ++ now rewrite Nat.add_0_r.
           ++ replace (length (Client.requests s) + S i)%nat
                with (length (Client.requests s) + 1 + i)%nat by lia.
              apply Hbefore. lia.
        -- destruct out as [r|e'|]; [| |contradiction].
           ++ destruct Hout as [Hjm Hr]. split; [lia|].
              replace (length (Client.requests s) + S j - 1)%nat
                with (length (Client.requests s) + 1 + j - 1)%nat by lia.
              exact Hr.
           ++ destruct Hout as [-> Hall]. split; [reflexivity|].
              intros i Hi. destruct i as [|i].
              ** now rewrite Nat.add_0_r.
              ** replace (length (Client.requests s) + S i)%nat
                   with (length (Client.requests s) + 1 + i)%nat by lia.
                 apply Hall. lia.
Qed.

Lemma _evaluate_remote_trace fk ectx dv (s : TC) :
  let p := payload_of config fk ectx in
  exists out tk j,
    Client._evaluate_remote config clock server fk ectx dv s
    = (out, Client.with_metrics (Client.incr_network_requests (Client.metrics s))
              (net_state s tk (Client.requests s ++ repeat p j)
                 (Client.sleeps s ++
                  map (Client.retry_sleep config) (seq 0 (j - 1))))) /\
    (forall i, (i < j - 1)%nat ->
               attempt_fails (server (length (Client.requests s) + i) p)) /\
    match out with
    | Ret r =>
        (1 <= j)%nat /\ (Z.of_nat j <= retry_attempts (connection config))%Z /\
        answer_result dv (server (length (Client.requests s) + j - 1) p) r
    | Raise _ =>
        j = Z.to_nat (retry_attempts (connection config)) /\
        forall i, (i < j)%nat ->
                  attempt_fails (server (length (Client.requests s) + i) p)
    | Block => False
    end.
Proof.
  intros p. unfold Client._evaluate_remote, bind at 1.
  cbn [Client.update_metrics modify]. fold (payload_of config fk ectx). fold p.
  match goal with
  | |- context [ Client.retry_loop _ _ _ (seq 0 ?m) p dv ?s0 ] =>
      destruct (retry_loop_trace p dv m 0 s0 eq_refl)
        as (out & tk & j & Erun & Hbefore & Hout)
  end.
  rewrite Erun. exists out, tk, j. split; [|split].
  - f_equal.
  - exact Hbefore.
  - destruct out as [r|e|]; [|exact Hout|exact Hout].
    destruct Hout as [Hj Hr]. split; [lia|]. split; [lia|exact Hr].
Qed.

Lemma evaluate_with_details_cases fk ctx dv (s : TC) :
  cache_ok Inv s ->
  let ectx := effective_context ctx s in
  let key := Client._build_cache_key config fk ectx in
  let p := payload_of config fk ectx in
  let looked := cache_after (provider_get key) (Client.cache s) in
  let answer := fun i => server (length (Client.requests s) + i) p in
  exists r s' j,
    Client.evaluate_with_details config clock server fk ctx dv s = (Ret r, s') /\
    cache_ok Inv s' /\
    Client._offline_mode s' = Client._offline_mode s /\
    Client.context s' = Client.context s /\
    Client.requests s' = Client.requests s ++ repeat p j /\
    Client.sleeps s'
    = Client.sleeps s ++ map (Client.retry_sleep config) (seq 0 (j - 1)) /\
    if is_not_None (cache_lookup key s) then
      j = 0%nat /\ Client.cache s' = looked /\
      value r = cache_lookup key s /\ variation r = JNull /\ reason r = CACHED /\
      counted (Client.metrics s) (Client.metrics s') 1 1 0 0 0
    else if offline_now config s then
      j = 0%nat /\ Client.cache s' = looked /\
      offline_result config fk dv r /\ variation r = JNull /\
      counted (Client.metrics s) (Client.metrics s') 0 0 1 0 0
    else
      ((1 <= j)%nat /\ (Z.of_nat j <= retry_attempts (connection config))%Z /\
       (forall i, (i < j - 1)%nat -> attempt_fails (answer i)) /\
       answer_result dv (answer (j - 1)%nat) r /\
       Client.cache s' = cache_after (provider_set key (value r) None) looked /\
       counted (Client.metrics s) (Client.metrics s') 1 0 1 0 1)
      \/
      (j = Z.to_nat (retry_attempts (connection config)) /\
       (forall i, (i < j)%nat -> attempt_fails (answer i)) /\
       Client.cache s' = looked /\
       offline_result config fk dv r /\ variation r = JNull /\
       counted (Client.metrics s) (Client.metrics s') 0 0 1 1 1).
Proof.
  intros Hs ectx key p looked answer. unfold Client.evaluate_with_details.
  unfold bind at 1. cbn [Client.time_time].
  rewrite (bind_ret_run _ _ _ _ _ (or_self_run ctx _)).
  change (effective_context ctx (Client.with_ticks _ s)) with ectx.
  fold key.
  set (s1 := Client.with_ticks (S (Client.ticks s)) s).
  assert (Hs1 : cache_ok Inv s1) by exact Hs.
  destruct (_get_from_cache_exact key s1 Hs1) as (Eget & Hs2).
  change (cache_lookup key s1) with (cache_lookup key s) in Eget.
  change (Client.cache s1) with (Client.cache s) in Eget, Hs2.
  fold looked in Eget, Hs2.
  unfold try_catch. rewrite (bind_ret_run _ _ _ _ _ Eget).
  destruct (is_not_None (cache_lookup key s)) eqn:Ehit.
  - unfold bind at 1. cbn [Client.update_metrics modify].
    unfold bind at 1. cbn [Client.update_metrics modify].
    rewrite (bind_ret_run _ _ _ _ _ (fire_run _ _ _)).
    cbn. eexists _, _, 0%nat. split; [reflexivity|]. cbn.
    rewrite !app_nil_r.
    split; [exact Hs2|]. repeat split; try reflexivity;
      first [ cbn; lia | destruct (_ =? _)%Z; cbn; lia ].
  - rewrite (bind_ret_run _ _ _ _ _ (fire_run _ _ _)).
    unfold bind at 1. cbn [Client.update_metrics modify].
    unfold bind at 1. cbn [Client.is_offline gets].
    change (Client._offline_mode _ || _) with (offline_now config s).
    destruct (offline_now config s) eqn:Eoff.
    + cbn. eexists _, _, 0%nat. split; [reflexivity|]. cbn.
      rewrite !app_nil_r.
      split; [exact Hs2|]. repeat split; try reflexivity; cbn; lia.
    + match goal with
      | |- context [ bind (Client._evaluate_remote _ _ _ ?f ?c ?d) _ ?s0 ] =>
          destruct (_evaluate_remote_trace f c d s0)
            as (out & tk & j & Erun & Hbefore & Hout)
      end.
      fold p in Erun, Hbefore, Hout.
      cbn [Client.requests Client.with_metrics Client.with_fired Client.with_cache
           Client.with_ticks s1] in Hbefore, Hout.
      unfold bind at 1. rewrite Erun.
      destruct out as [r|e|]; [| |contradiction].
      * destruct Hout as (Hj1 & Hjn & Hans).
        replace (length (Client.requests s) + j - 1)%nat
          with (length (Client.requests s) + (j - 1))%nat in Hans by lia.
        match type of Erun with
        | _ = (_, ?s4) => assert (Hs4 : cache_ok Inv s4) by exact Hs2
        end.
        match type of Hs4 with
        | cache_ok Inv ?s4 =>
            destruct (_set_cache_exact key (value r) s4 Hs4) as (Eset & Hs5)
        end.
        rewrite (bind_ret_run _ _ _ _ _ Eset).
        unfold bind at 1. cbn [Client.update_metrics modify].
        unfold bind at 1. cbn [Client.time_time].
        unfold bind at 1.
        cbn [Client._update_average_latency Client.update_metrics modify].
        rewrite (bind_ret_run _ _ _ _ _ (fire_run _ _ _)).
        eexists _, _, j. split; [reflexivity|]. cbn.
        split; [exact Hs5|]. split; [reflexivity|]. split; [reflexivity|].
        split; [reflexivity|]. split; [reflexivity|].
        left. split; [exact Hj1|]. split; [exact Hjn|]. split; [exact Hbefore|].
        split; [exact Hans|]. split; [reflexivity|].
        repeat split; first [ cbn; lia | destruct (_ =? _)%Z; cbn; lia ].
      * destruct Hout as (Hj & Hall).
        unfold bind at 1. cbn [Client.update_metrics modify].
        rewrite (bind_ret_run _ _ _ _ _ (fire_run _ _ _)).
        cbn. eexists _, _, j. split; [reflexivity|]. cbn.
        split; [exact Hs2|]. split; [reflexivity|]. split; [reflexivity|].
        split; [reflexivity|]. split; [reflexivity|].
        right. split; [exact Hj|]. split; [exact Hall|].
        repeat split; try reflexivity; cbn; lia.
Qed.

End Branches.

(* ===================================================================== *)
(** * One batch evaluation, branch by branch *)
(* ===================================================================== *)

Section BatchBranches.

Context {C : Type} `{CacheProvider C}.
Variable config : FlexFlagConfig.
Variable server : nat -> Client.request -> Client.http_result.
Variable Inv : C -> Prop.
Hypothesis Hresp : responsive Inv.

Abbreviation TB := (Client.t C).

Lemma batch_lookup_counts keys ectx :
  forall hits misses (s : TB),
    cache_ok Inv s ->
    exists hits' ms s' nh,
      Client.batch_lookup config keys ectx hits misses s
      = (Ret (hits', misses ++ ms), s') /\
      cache_ok Inv s' /\ lookup_frame s s' /\
      (nh + length ms = length keys)%nat /\
      cache_misses (Client.metrics s')
      = (cache_misses (Client.metrics s) + Z.of_nat (length ms))%Z /\
      cache_hits (Client.metrics s')
      = (cache_hits (Client.metrics s) + Z.of_nat nh)%Z.
Proof.
  induction keys as [|k0 keys IH]; intros hits misses s Hs; cbn [Client.batch_lookup].
  - exists hits, [], s, 0%nat. rewrite app_nil_r. split; [reflexivity|].
    split; [exact Hs|]. split; [repeat split|]. cbn. repeat split; lia.
  - destruct (_get_from_cache_run Inv Hresp
                (Client._build_cache_key config k0 ectx) s Hs) as (c1 & Eget & Hs1).
    rewrite (bind_ret_run _ _ _ _ _ Eget).
    destruct (is_not_None _) eqn:Ehit.
    + unfold bind at 1. cbn [Client.update_metrics modify].
      rewrite (bind_ret_run _ _ _ _ _ (fire_run _ _ _)).
      match goal with
      | |- context [ Client.batch_lookup _ _ _ ?h ?m ?s0 ] =>
          destruct (IH h m s0 Hs1)
            as (hits' & ms & s' & nh & Erun & Hs' & Hfr & Hlen & Hcm & Hch)
      end.
      rewrite Erun. exists hits', ms, s', (S nh). split; [reflexivity|].
      split; [exact Hs'|]. split; [exact Hfr|]. split; [cbn; lia|].
      split; [exact Hcm|]. rewrite Hch. cbn. lia.
    + unfold bind at 1. cbn [Client.update_metrics modify].
      rewrite (bind_ret_run _ _ _ _ _ (fire_run _ _ _)).
      match goal with
      | |- context [ Client.batch_lookup _ _ _ ?h ?m ?s0 ] =>
          destruct (IH h m s0 Hs1)
            as (hits' & ms & s' & nh & Erun & Hs' & Hfr & Hlen & Hcm & Hch)
      end.
      rewrite Erun. exists hits', (k0 :: ms), s', nh.
      split; [now rewrite <- app_assoc|].
      split; [exact Hs'|]. split; [exact Hfr|]. split; [cbn; lia|].
      split; [|exact Hch]. rewrite Hcm. cbn. lia.
Qed.

Lemma _evaluate_batch_remote_answer misses ectx (s : TB) :
  let p := batch_payload config misses ectx in
  let a := server (length (Client.requests s)) p in
  exists out,
    Client._evaluate_batch_remote config server misses ectx s
    = (out, Client.with_requests (Client.requests s ++ [p])
              (Client.with_metrics
                 (Client.incr_network_requests (Client.metrics s)) s)) /\
    match out with
    | Ret v => forall flags, batch_answer a flags <-> v = JDict flags
    | Raise _ => forall flags, ~ batch_answer a flags
    | Block => False
    end.
Proof.
  intros p a. unfold Client._evaluate_batch_remote, bind at 1.
  cbn [Client.update_metrics modify].
  fold (batch_payload config misses ectx). fold p.
  unfold bind, Client.post. cbn [Client.requests Client.with_metrics].
  fold a. unfold batch_answer.
  destruct a as [status body|e]; cbn.
  - destruct (status =? 200)%Z eqn:E200.
    + apply Z.eqb_eq in E200. subst status.
      destruct body as [[| | | | |data]|]; cbn;
        eexists; (split; [reflexivity|]); cbn.
      6:{ intros flags. split.
          - intros (data' & [= <-] & Ed). exact Ed.
          - intros Ed. exists data. split; [reflexivity|exact Ed]. }
      all: intros flags (data' & [=] & _).
    + apply Z.eqb_neq in E200. eexists. split; [reflexivity|]. cbn.
      intros flags (data' & [= E _] & _). contradiction.
  - eexists. split; [reflexivity|]. cbn. intros flags (data' & [=] & _).
Qed.

Lemma evaluate_batch_cases flag_keys ctx (s : TB) :
  cache_ok Inv s ->
  let ectx := effective_context ctx s in
  exists res s' hits misses nh,
    Client.evaluate_batch config server flag_keys ctx s = (Ret res, s') /\
    (exists s1, Client.batch_lookup config flag_keys ectx ∅ [] s
                = (Ret (hits, misses), s1)) /\
    cache_ok Inv s' /\
    Client._offline_mode s' = Client._offline_mode s /\
    Client.context s' = Client.context s /\
    Client.sleeps s' = Client.sleeps s /\
    (nh + length misses = length flag_keys)%nat /\
    (forall k, k ∈ misses -> k ∈ flag_keys) /\
    (forall k, k ∉ flag_keys -> hits !! k = None) /\
    let m := Client.metrics s in
    let m' := Client.metrics s' in
    let n := Z.of_nat (length flag_keys) in
    let nm := Z.of_nat (length misses) in
    let p := batch_payload config misses ectx in
    if offline_now config s then
      res = Client.offline_defaults config misses hits /\
      Client.requests s' = Client.requests s /\
      counted m m' n (Z.of_nat nh) nm 0 0
    else
      match misses with
      | [] =>
          res = hits /\ Client.requests s' = Client.requests s /\
          counted m m' n (Z.of_nat nh) nm 0 0
      | _ :: _ =>
          Client.requests s' = Client.requests s ++ [p] /\
          ((exists flags,
               batch_answer (server (length (Client.requests s)) p) flags /\
               res = Client.dict_update hits flags /\
               counted m m' n (Z.of_nat nh) nm 0 1) \/
           ((forall flags,
                ~ batch_answer (server (length (Client.requests s)) p) flags) /\
            res = Client.offline_defaults config misses hits /\
            counted m m' n (Z.of_nat nh) nm 1 1))
      end.
Proof.
  intros Hs ectx.
  destruct (batch_lookup_counts flag_keys ectx ∅ [] s Hs)
    as (hits & misses & s1 & nh & Elook & Hs1 & Hfr & Hlen & Hcm & Hch).
  destruct (batch_lookup_run config Inv Hresp flag_keys ectx ∅ [] s Hs)
    as (hits0 & ms0 & s0 & Elook0 & _ & _ & Hsub & Hout & _).
  rewrite Elook in Elook0. injection Elook0 as <- <- <-.
  cbn [app] in *.
  destruct Hfr as (Hrq & Hsl & _ & Hom & Hctx & Hev & Her & Hnr).
  assert (Hoff1 : offline_now config s1 = offline_now config s)
    by (unfold offline_now; now rewrite Hom).
  assert (Hu : hits ∪ ∅ = hits) by apply (right_id_L ∅ (∪)).
  unfold Client.evaluate_batch.
  rewrite (bind_ret_run _ _ _ _ _ (or_self_run ctx _)).
  fold ectx. rewrite (bind_ret_run _ _ _ _ _ Elook). cbv zeta. rewrite Hu.
  unfold bind at 1. cbn [Client.is_offline gets].
  change (Client._offline_mode s1 || _) with (offline_now config s1).
  rewrite Hoff1.
  assert (Hhits : forall k, k ∉ flag_keys -> hits !! k = None).
  { intros k Hk. rewrite (Hout k Hk). apply lookup_empty. }
  destruct (offline_now config s) eqn:Eoff.
  - exists (Client.offline_defaults config misses hits).
    destruct misses as [|m0 ms]; cbn [negb].
    all: unfold bind at 1; cbn [ret].
    all: unfold bind at 1; cbn [Client.is_offline gets].
    all: change (Client._offline_mode s1 || _) with (offline_now config s1).
    all: rewrite Hoff1; cbn.
    all: eexists _, hits, _, nh; (split; [reflexivity|]); cbn.
    all: split; [eauto|].
    all: split; [exact Hs1|]; split; [exact Hom|]; split; [exact Hctx|].
    all: split; [exact Hsl|]; split; [exact Hlen|]; split; [exact Hsub|].
    all: split; [exact Hhits|]; split; [reflexivity|]; split; [exact Hrq|].
    all: unfold counted; cbn; rewrite Hev, Hcm, Hch, Her, Hnr; cbn; repeat split; lia.
  - destruct misses as [|m0 ms]; cbn [negb].
    + unfold bind at 1; cbn [ret].
      unfold bind at 1; cbn [Client.is_offline gets].
      change (Client._offline_mode s1 || _) with (offline_now config s1).
      rewrite Hoff1; cbn.
      eexists _, _, hits, [], nh; (split; [reflexivity|]); cbn.
      split; [eauto|].
      split; [exact Hs1|]; split; [exact Hom|]; split; [exact Hctx|].
      split; [exact Hsl|]; split; [exact Hlen|]; split; [exact Hsub|].
      split; [exact Hhits|]; split; [reflexivity|]; split; [exact Hrq|].
      unfold counted; cbn; rewrite Hev, Hcm, Hch, Her, Hnr; cbn; repeat split; lia.
    + set (misses := m0 :: ms) in *.
      match goal with
      | |- context [ try_catch _ ?h ] => set (hdl := h)
      end.
      assert (Hh : forall e (s2 : TB),
                 hdl e s2
                 = (Ret (Client.offline_defaults config misses hits),
                    Client.with_fired
                      (Client.fired s2 ++
                       (if on_error (events config) then [Client.Error e] else []))
                      (Client.with_metrics (Client.incr_errors (Client.metrics s2)) s2))).
      { intros e s2. subst hdl. cbv beta. unfold bind at 1.
        cbn [Client.update_metrics modify].
        rewrite (bind_ret_run _ _ _ _ _ (fire_run _ _ _)). reflexivity. }
      clearbody hdl.
      destruct (_evaluate_batch_remote_answer misses ectx s1)
        as (out & Eremote & Hans).
      cbv zeta in Hans. rewrite Hrq in Hans.
      assert (Hs2 : forall s2 : TB, Client.cache s2 = Client.cache s1 -> cache_ok Inv s2).
      { intros s2 E. unfold cache_ok in *. now rewrite E. }
      assert (Hc1 : counted (Client.metrics s)
                      (Client.incr_network_requests (Client.metrics s1))
                      0 (Z.of_nat nh) (Z.of_nat (length misses)) 0 1).
      { unfold counted. cbn. rewrite Hev, Hcm, Hch, Her, Hnr. repeat split; lia. }
      unfold bind at 1. unfold try_catch. unfold bind at 1. rewrite Eremote.
      destruct out as [v|e|]; [| |contradiction].
      * assert (Hitems : (exists d, v = JDict d) \/
                         (exists e, (forall s2 : TB, Client.items v s2 = (Raise e, s2)) /\
                                    forall d, v <> JDict d)).
        { destruct v; try (right; eexists; split; [intros; reflexivity|discriminate]).
          left. eauto. }
        destruct Hitems as [[d ->]|[e [He Hnd]]].
        { cbn [Client.items]. unfold bind at 1. cbn [ret].
          match goal with
          | |- context [ bind (for_each d ?b) _ ?s0 ] =>
              destruct (cache_writes_run config Inv Hresp d ectx s0
                          ltac:(apply Hs2; reflexivity)) as (c2 & fs & Ewr & Hs3)
          end.
          cbv zeta in Ewr. unfold bind at 1. rewrite Ewr. cbn [ret].
          rewrite (bind_ret_run _ _ _ _ _ (is_offline_run _ _)).
          match goal with
          | |- context [ offline_now config ?s0 ] =>
              assert (Eoff3 : offline_now config s0 = false)
                by (unfold offline_now in *; cbn; now rewrite Hom)
          end.
          rewrite Eoff3. cbn.
          eexists _, _, hits, misses, nh. split; [reflexivity|]. cbn.
          split; [eauto|].
          split; [exact Hs3|]. split; [exact Hom|]. split; [exact Hctx|].
          split; [exact Hsl|]. split; [exact Hlen|]. split; [exact Hsub|].
          split; [exact Hhits|]. split; [now rewrite Hrq|].
          left. exists d. split; [now apply Hans|]. split; [reflexivity|].
          destruct Hc1 as (C1 & C2 & C3 & C4 & C5). cbn in *.
          unfold counted. cbn. repeat split; lia. }
        assert (Hno : forall flags,
                   ~ batch_answer (server (length (Client.requests s))
                                     (batch_payload config misses ectx)) flags).
        { intros flags Hb. apply Hans in Hb. exact (Hnd flags Hb). }
        unfold bind at 1. rewrite He.
        rewrite Hh.
        rewrite (bind_ret_run _ _ _ _ _ (is_offline_run _ _)).
        match goal with
        | |- context [ offline_now config ?s0 ] =>
            assert (Eoff3 : offline_now config s0 = false)
              by (unfold offline_now in *; cbn; now rewrite Hom)
        end.
        rewrite Eoff3. cbn.
        eexists _, _, hits, misses, nh. split; [reflexivity|]. cbn.
        split; [eauto|].
        split; [exact Hs1|]. split; [exact Hom|]. split; [exact Hctx|].
        split; [exact Hsl|]. split; [exact Hlen|]. split; [exact Hsub|].
        split; [exact Hhits|]. split; [now rewrite Hrq|].
        right. split; [exact Hno|]. split; [reflexivity|].
        destruct Hc1 as (C1 & C2 & C3 & C4 & C5). cbn in *.
        unfold counted. cbn. repeat split; lia.
      * assert (Hno : forall flags,
                   ~ batch_answer (server (length (Client.requests s))
                                     (batch_payload config misses ectx)) flags)
          by exact Hans.
        rewrite Hh.
        rewrite (bind_ret_run _ _ _ _ _ (is_offline_run _ _)).
        match goal with
        | |- context [ offline_now config ?s0 ] =>
            assert (Eoff3 : offline_now config s0 = false)
              by (unfold offline_now in *; cbn; now rewrite Hom)
        end.
        rewrite Eoff3. cbn.
        eexists _, _, hits, misses, nh. split; [reflexivity|]. cbn.
        split; [eauto|].
        split; [exact Hs1|]. split; [exact Hom|]. split; [exact Hctx|].
        split; [exact Hsl|]. split; [exact Hlen|]. split; [exact Hsub|].
        split; [exact Hhits|]. split; [now rewrite Hrq|].
        right. split; [exact Hno|]. split; [reflexivity|].
        destruct Hc1 as (C1 & C2 & C3 & C4 & C5). cbn in *.
        unfold counted. cbn. repeat split; lia.
Qed.

End BatchBranches.

(* ===================================================================== *)
(** * Properties of the counters *)
(* ===================================================================== *)





(* ===================================================================== *)
(** * Offline mode, variations, retries *)
(* ===================================================================== *)

(** X14. In offline mode (the mode of the configuration, or the mode the
    client fell into at start-up) the cache is still looked up first, and
    nothing goes to the network: [evaluate] returns the cached value on a
    hit and otherwise the configured default of the flag, else the default
    value of the caller; neither a single nor a batch evaluation sends a
    request, sleeps, or counts a network request or an error. *)
Theorem offline_mode_never_uses_the_network
    {C : Type} `{CacheProvider C} (Inv : C -> Prop)
    (config : FlexFlagConfig) (clock : nat -> Q)
    (server : nat -> Client.request -> Client.http_result)
    (s : Client.t C) :
  responsive Inv ->
  cache_ok Inv s ->
  offline_now config s = true ->
  (forall flag_key context default_value,
      let key := Client._build_cache_key config flag_key
                   (effective_context context s) in
      exists v s',
        Client.evaluate config clock server flag_key context default_value s
        = (Ret v, s') /\
        v = (if is_not_None (cache_lookup key s) then cache_lookup key s
             else default default_value
                    (default_flags (offline_cfg config) !! flag_key)) /\
        Client.requests s' = Client.requests s /\
        Client.sleeps s' = Client.sleeps s /\
        network_requests (Client.metrics s') = network_requests (Client.metrics s) /\
        errors (Client.metrics s') = errors (Client.metrics s)) /\
  (forall flag_keys context,
      exists res s',
        Client.evaluate_batch config server flag_keys context s = (Ret res, s') /\
        Client.requests s' = Client.requests s /\
        Client.sleeps s' = Client.sleeps s /\
        network_requests (Client.metrics s') = network_requests (Client.metrics s) /\
        errors (Client.metrics s') = errors (Client.metrics s)).
Proof.
  intros Hresp Hs Hoff. split.
  - intros fk ctx dv key.
    destruct (evaluate_with_details_cases config clock server Inv Hresp fk ctx dv s Hs)
      as (r & s' & j & Erun & _ & _ & _ & Hrq & Hsl & Hcase).
    fold key in Hcase. rewrite Hoff in Hcase.
    exists (value r), s'. split.
    { unfold Client.evaluate, bind. now rewrite Erun. }
    destruct (is_not_None (cache_lookup key s)).
    + destruct Hcase as (-> & _ & Hv & _ & _ & (_ & _ & _ & He & Hn)).
      cbn in Hrq, Hsl. rewrite app_nil_r in Hrq, Hsl.
      repeat split; try assumption; lia.
    + destruct Hcase as (-> & _ & [_ Hv] & _ & (_ & _ & _ & He & Hn)).
      cbn in Hrq, Hsl. rewrite app_nil_r in Hrq, Hsl.
      repeat split; try assumption; lia.
  - intros flag_keys ctx.
    destruct (evaluate_batch_cases config server Inv Hresp flag_keys ctx s Hs)
      as (res & s' & hits & misses & nh & Erun & _ & _ & _ & _ & Hsl & _ & _ & _ & Hcase).
    cbv zeta in Hcase. rewrite Hoff in Hcase.
    destruct Hcase as (_ & Hrq & (_ & _ & _ & He & Hn)).
    exists res, s'. repeat split; try assumption; lia.
Qed.

Lemma offline_mode_never_uses_the_network_witness :
  exists v s',
    Client.evaluate (config_with offline {["x" := JBool true]}) clock10 (always 200)
      "x" None (JBool false) (fresh (Some (memory ∅))) = (Ret v, s') /\
    v = JBool true /\ Client.requests s' = [].
Proof.
  destruct (proj1 (offline_mode_never_uses_the_network
                     (fun c : MemoryCache.t => MemoryCache._lock c = false)
                     (config_with offline {["x" := JBool true]}) clock10 (always 200)
                     (fresh (Some (memory ∅)))
                     MemoryCache_responsive eq_refl eq_refl)
              "x" None (JBool false))
    as (v & s' & Erun & Hv & Hrq & _).
  exists v, s'. split; [exact Erun|]. split; [exact Hv|exact Hrq].
Defined.

(** X15. [get_variation] returns a variation only when this very call
    fetched the flag: a value other than [None] is the "variation" field of
    the body of a 200 the server sent in answer to the last request of the
    call.  When the flag is served from the cache, or the client is
    offline, the variation is [None], whatever the server answered when
    the value was fetched. *)
Theorem get_variation_only_from_a_fresh_answer
    {C : Type} `{CacheProvider C} (Inv : C -> Prop)
    (config : FlexFlagConfig) (clock : nat -> Q)
    (server : nat -> Client.request -> Client.http_result)
    (flag_key : string) (context : option EvaluationContext) (s : Client.t C) :
  responsive Inv ->
  cache_ok Inv s ->
  let ectx := effective_context context s in
  let key := Client._build_cache_key config flag_key ectx in
  let p := Client.PostEvaluate flag_key (Client._context_to_dict ectx)
             (environment config) in
  exists v s' j,
    Client.get_variation config clock server flag_key context s = (Ret v, s') /\
    Client.requests s' = Client.requests s ++ repeat p j /\
    (is_not_None (cache_lookup key s) = true -> v = JNull /\ j = 0%nat) /\
    (offline_now config s = true -> v = JNull /\ j = 0%nat) /\
    (v <> JNull ->
     (1 <= j)%nat /\
     exists data,
       server (length (Client.requests s) + (j - 1)) p
       = Client.Response 200 (Some (JDict data)) /\
       v = dict_get data "variation" JNull).
Proof.
  intros Hresp Hs ectx key p.
  destruct (evaluate_with_details_cases config clock server Inv Hresp
              flag_key context JNull s Hs)
    as (r & s' & j & Erun & _ & _ & _ & Hrq & _ & Hcase).
  fold ectx key in Hcase. change (payload_of config flag_key ectx) with p in Hrq, Hcase.
  exists (variation r), s', j. split.
  { unfold Client.get_variation, bind. now rewrite Erun. }
  split; [exact Hrq|].
  destruct (is_not_None (cache_lookup key s)); [|destruct (offline_now config s)].
  - destruct Hcase as (-> & _ & _ & Hv & _). rewrite Hv.
    split; [auto|]. split; [auto|]. intros Hne. now contradiction Hne.
  - destruct Hcase as (-> & _ & _ & Hv & _). rewrite Hv.
    split; [discriminate|]. split; [auto|]. intros Hne. now contradiction Hne.
  - split; [discriminate|]. split; [discriminate|]. intros Hne.
    destruct Hcase as [(Hj & _ & _ & Hans & _)|(_ & _ & _ & _ & Hv & _)];
      [|now contradiction Hne].
    split; [exact Hj|].
    destruct (server _ p) as [status body|e]; cbn in Hans; [|contradiction].
    destruct Hans as [(-> & data & -> & _ & Hv & _)|(_ & _ & Hv & _)];
      [|now contradiction Hne].
    exists data. split; [reflexivity|exact Hv].
Qed.

Lemma get_variation_only_from_a_fresh_answer_witness :
  let body := JDict [("value", JBool true); ("variation", JStr "B")] in
  let s := fresh (Some (memory {["flexflag:x::production" := JBool true]})) in
  exists v s' j,
    Client.get_variation (config_with streaming ∅) clock10 (answers body)
      "x" None s = (Ret v, s') /\
    v = JNull /\ j = 0%nat.
Proof.
  destruct (get_variation_only_from_a_fresh_answer
              (fun c : MemoryCache.t => MemoryCache._lock c = false)
              (config_with streaming ∅) clock10
              (answers (JDict [("value", JBool true); ("variation", JStr "B")]))
              "x" None
              (fresh (Some (memory {["flexflag:x::production" := JBool true]})))
              MemoryCache_responsive eq_refl)
    as (v & s' & j & Erun & _ & Hhit & _).
  exists v, s', j. split; [exact Erun|]. apply Hhit. reflexivity.
Defined.

(** X16. The retry loop stops at the first answer that does not fail: when
    the first [k] answers make the attempt fail ([k] smaller than
    [retry_attempts]) and the next one is a 200 with a dict body or a 404,
    exactly [k + 1] requests are sent, the client sleeps after each of the
    [k] failures, the result is built from the last answer, and the
    evaluation counts one evaluation, one cache miss and one network
    request (whatever the number of attempts), and no error. *)
Theorem retry_stops_at_the_first_answer
    {C : Type} `{CacheProvider C} (Inv : C -> Prop)
    (config : FlexFlagConfig) (clock : nat -> Q)
    (server : nat -> Client.request -> Client.http_result)
    (flag_key : string) (context : option EvaluationContext)
    (default_value : json) (s : Client.t C) (k : nat) :
  responsive Inv ->
  cache_ok Inv s ->
  let ectx := effective_context context s in
  let key := Client._build_cache_key config flag_key ectx in
  let p := Client.PostEvaluate flag_key (Client._context_to_dict ectx)
             (environment config) in
  is_not_None (cache_lookup key s) = false ->
  offline_now config s = false ->
  (Z.of_nat k < retry_attempts (connection config))%Z ->
  (forall i, (i < k)%nat ->
             attempt_fails (server (length (Client.requests s) + i) p)) ->
  ~ attempt_fails (server (length (Client.requests s) + k) p) ->
  exists r s',
    Client.evaluate_with_details config clock server
      flag_key context default_value s = (Ret r, s') /\
    answer_result default_value (server (length (Client.requests s) + k) p) r /\
    Client.requests s' = Client.requests s ++ repeat p (S k) /\
    Client.sleeps s'
    = Client.sleeps s ++ map (Client.retry_sleep config) (seq 0 k) /\
    counted (Client.metrics s) (Client.metrics s') 1 0 1 0 1.
Proof.
  intros Hresp Hs ectx key p Hmiss Hon Hk Hfirst Hok.
  destruct (evaluate_with_details_cases config clock server Inv Hresp
              flag_key context default_value s Hs)
    as (r & s' & j & Erun & _ & _ & _ & Hrq & Hsl & Hcase).
  fold ectx key in Hcase. change (payload_of config flag_key ectx) with p in Hrq, Hcase.
  rewrite Hmiss, Hon in Hcase.
  exists r, s'. split; [exact Erun|].
  destruct Hcase as [(Hj & _ & Hbefore & Hans & _ & Hc)|(Hj & Hall & _)].
  - assert (j - 1 = k)%nat as Ejk.
    { destruct (Nat.lt_trichotomy (j - 1) k) as [Hlt|[E|Hgt]]; [|exact E|].
      - exfalso. exact (answer_result_not_fails _ _ _ Hans (Hfirst _ Hlt)).
      - exfalso. exact (Hok (Hbefore _ Hgt)). }
    rewrite Ejk in *. replace j with (S k) in * by lia.
    split; [exact Hans|]. split; [exact Hrq|]. split; [|exact Hc].
    rewrite Hsl. do 2 f_equal; lia.
  - exfalso. apply Hok, Hall. lia.
Qed.

Lemma retry_stops_at_the_first_answer_witness :
  let body := JDict [("value", JBool true); ("variation", JStr "B")] in
  exists r s',
    Client.evaluate_with_details (config_with streaming ∅) clock10
      (recovers_after 2 body) "x" None (JBool false) (fresh (Some (memory ∅)))
    = (Ret r, s') /\
    length (Client.requests s') = 3%nat /\
    Client.sleeps s' = [1; 2]%Z /\
    network_requests (Client.metrics s') = 1%Z /\
    errors (Client.metrics s') = 0%Z.
Proof.
  destruct (retry_stops_at_the_first_answer
              (fun c : MemoryCache.t => MemoryCache._lock c = false)
              (config_with streaming ∅) clock10
              (recovers_after 2 (JDict [("value", JBool true); ("variation", JStr "B")]))
              "x" None (JBool false) (fresh (Some (memory ∅))) 2
              MemoryCache_responsive ltac:(reflexivity) ltac:(reflexivity)
              ltac:(reflexivity) ltac:(reflexivity))
    as (r & s' & Erun & _ & Hrq & Hsl & (_ & _ & _ & He & Hn)).
  - intros [|[|i]] Hi; [cbn; left; lia|cbn; left; lia|lia].
  - cbn. intros [[N _]|[_ N]]; [now apply N|exact (N _ eq_refl)].
  - exists r, s'. split; [exact Erun|]. rewrite Hrq, Hsl.
    split; [reflexivity|]. split; [reflexivity|]. split; [exact Hn|exact He].
Defined.

(** X17. With a retry budget of zero (or less) an online evaluation that
    misses the cache sends no request at all: the loop is empty, the
    "retries exhausted" exception is raised at once, and the evaluation
    degrades to the offline result, although it counts one network request
    and one error. *)
Theorem no_request_when_the_retry_budget_is_zero
    {C : Type} `{CacheProvider C} (Inv : C -> Prop)
    (config : FlexFlagConfig) (clock : nat -> Q)
    (server : nat -> Client.request -> Client.http_result)
    (flag_key : string) (context : option EvaluationContext)
    (default_value : json) (s : Client.t C) :
  responsive Inv ->
  cache_ok Inv s ->
  let key := Client._build_cache_key config flag_key (effective_context context s) in
  is_not_None (cache_lookup key s) = false ->
  offline_now config s = false ->
  (retry_attempts (connection config) <= 0)%Z ->
  exists r s',
    Client.evaluate_with_details config clock server
      flag_key context default_value s = (Ret r, s') /\
    reason r = OFFLINE /\
    value r = default default_value (default_flags (offline_cfg config) !! flag_key) /\
    Client.requests s' = Client.requests s /\
    Client.sleeps s' = Client.sleeps s /\
    counted (Client.metrics s) (Client.metrics s') 0 0 1 1 1.
Proof.
  intros Hresp Hs key Hmiss Hon Hn.
  destruct (evaluate_with_details_cases config clock server Inv Hresp
              flag_key context default_value s Hs)
    as (r & s' & j & Erun & _ & _ & _ & Hrq & Hsl & Hcase).
  fold key in Hcase. rewrite Hmiss, Hon in Hcase.
  exists r, s'. split; [exact Erun|].
  destruct Hcase as [(Hj & Hjn & _)|(Hj & _ & _ & [Hr Hv] & _ & Hc)]; [lia|].
  assert (j = 0)%nat as -> by lia.
  cbn in Hrq, Hsl. rewrite app_nil_r in Hrq, Hsl. auto 10.
Qed.

Lemma no_request_when_the_retry_budget_is_zero_witness :
  let config :=
    {| environment := "production";
       connection := {| mode := streaming; retry_attempts := 0; retry_delay := 1;
                        exponential_backoff := true |};
       offline_cfg := {| offline_enabled := true; default_flags := ∅ |};
       events := all_handlers |} in
  exists r s',
    Client.evaluate_with_details config clock10 (always 200)
      "x" None (JBool false) (fresh (@None MemoryCache.t)) = (Ret r, s') /\
    reason r = OFFLINE /\ Client.requests s' = [] /\
    network_requests (Client.metrics s') = 1%Z.
Proof.
  destruct (no_request_when_the_retry_budget_is_zero
              (fun c : MemoryCache.t => MemoryCache._lock c = false)
              {| environment := "production";
                 connection := {| mode := streaming; retry_attempts := 0;
                                  retry_delay := 1; exponential_backoff := true |};
                 offline_cfg := {| offline_enabled := true; default_flags := ∅ |};
                 events := all_handlers |}
              clock10 (always 200) "x" None (JBool false) (fresh (@None MemoryCache.t))
              MemoryCache_responsive I eq_refl eq_refl ltac:(discriminate))
    as (r & s' & Erun & Hr & _ & Hrq & _ & (_ & _ & _ & _ & Hn)).
  exists r, s'. split; [exact Erun|]. split; [exact Hr|]. split; [exact Hrq|exact Hn].
Defined.

(* ===================================================================== *)
(** * Batch evaluation *)
(* ===================================================================== *)

Lemma dict_update_lookup (flags : list (string * json)) :
  forall (results : gmap string json) k,
    NoDup (map fst flags) ->
    Client.dict_update results flags !! k
    = match assoc k flags with
      | Some v => Some v
      | None => results !! k
      end.
Proof.
  unfold Client.dict_update.
  induction flags as [|[k0 v0] flags IH]; intros results k Hnd; cbn; [reflexivity|].
  apply NoDup_cons in Hnd as [Hk0 Hnd]. rewrite (IH _ _ Hnd).
  destruct (String.eqb k k0) eqn:E.
  - apply String.eqb_eq in E. subst k0.
    destruct (assoc k flags) as [v|] eqn:Ea.
    + exfalso. apply Hk0. apply assoc_In in Ea.
      apply list_elem_of_In. apply in_map_iff. exists (k, v). auto.
    + apply lookup_insert_eq.
  - apply String.eqb_neq in E. destruct (assoc k flags); [reflexivity|].
    apply lookup_insert_ne. congruence.
Qed.

(** X18. A batch evaluation returns a mapping, whatever the provider and
    the server do (short of a provider that never returns).  It counts
    every key of the list as one evaluation and as one cache hit or one
    cache miss, the misses being the keys the cache lookups of the batch
    did not find, and never sleeps.  When nothing missed, or when offline,
    it sends no request and counts no network request and no error.
    Otherwise it sends exactly one request, for the keys that missed, and
    counts one network request: the request is not retried; it counts no
    error when the answer is a 200 whose body holds a dict of flags, and
    one error for any other answer. *)
Theorem evaluate_batch_returns_and_asks_at_most_once
    {C : Type} `{CacheProvider C} (Inv : C -> Prop)
    (config : FlexFlagConfig)
    (server : nat -> Client.request -> Client.http_result)
    (flag_keys : list string) (context : option EvaluationContext)
    (s : Client.t C) :
  responsive Inv ->
  cache_ok Inv s ->
  exists res s' misses (nh : nat),
    Client.evaluate_batch config server flag_keys context s = (Ret res, s') /\
    (exists hits s1,
        Client.batch_lookup config flag_keys (effective_context context s) ∅ [] s
        = (Ret (hits, misses), s1)) /\
    (nh + length misses = length flag_keys)%nat /\
    evaluations (Client.metrics s')
    = (evaluations (Client.metrics s) + Z.of_nat (length flag_keys))%Z /\
    cache_hits (Client.metrics s') = (cache_hits (Client.metrics s) + Z.of_nat nh)%Z /\
    cache_misses (Client.metrics s')
    = (cache_misses (Client.metrics s) + Z.of_nat (length misses))%Z /\
    Client.sleeps s' = Client.sleeps s /\
    (((misses = [] \/ offline_now config s = true) /\
      Client.requests s' = Client.requests s /\
      network_requests (Client.metrics s') = network_requests (Client.metrics s) /\
      errors (Client.metrics s') = errors (Client.metrics s))
     \/
     (misses <> [] /\ offline_now config s = false /\
      let p := Client.PostBatch misses
                 (Client._context_to_dict (effective_context context s))
                 (environment config) in
      let answer := server (length (Client.requests s)) p in
      Client.requests s' = Client.requests s ++ [p] /\
      network_requests (Client.metrics s')
      = (network_requests (Client.metrics s) + 1)%Z /\
      (((exists flags, batch_answer answer flags) /\
        errors (Client.metrics s') = errors (Client.metrics s)) \/
       ((forall flags, ~ batch_answer answer flags) /\
        errors (Client.metrics s') = (errors (Client.metrics s) + 1)%Z)))).
Proof.
  intros Hresp Hs.
  destruct (evaluate_batch_cases config server Inv Hresp flag_keys context s Hs)
    as (res & s' & hits & misses & nh & Erun & (s1 & Elook) & _ & _ & _ & Hsl & Hlen
        & _ & _ & Hcase).
  cbv zeta in Hcase.
  exists res, s', misses, nh. split; [exact Erun|].
  split; [exists hits, s1; exact Elook|]. split; [exact Hlen|].
  destruct (offline_now config s).
  - destruct Hcase as (_ & Hrq & (C1 & C2 & C3 & C4 & C5)).
    repeat (split; [assumption|]). left.
    split; [now right|]. repeat split; [exact Hrq|lia..].
  - destruct misses as [|m0 ms].
    + destruct Hcase as (_ & Hrq & (C1 & C2 & C3 & C4 & C5)).
      repeat (split; [assumption|]). left.
      split; [now left|]. repeat split; [exact Hrq|lia..].
    + destruct Hcase as (Hrq & [(fl & Hans & _ & (C1 & C2 & C3 & C4 & C5))
                               |(Hnone & _ & (C1 & C2 & C3 & C4 & C5))]).
      * repeat (split; [assumption|]). right.
        split; [discriminate|]. split; [reflexivity|]. cbv zeta.
        split; [exact Hrq|]. split; [exact C5|]. left.
        split; [exists fl; exact Hans|lia].
      * repeat (split; [assumption|]). right.
        split; [discriminate|]. split; [reflexivity|]. cbv zeta.
        split; [exact Hrq|]. split; [exact C5|]. right.
        split; [exact Hnone|exact C4].
Qed.

Lemma evaluate_batch_returns_and_asks_at_most_once_witness :
  exists res s' (misses : list string) nh,
    Client.evaluate_batch (config_with streaming ∅) (always 500)
      ["a"; "b"; "a"] None (fresh (Some broken)) = (Ret res, s') /\
    (nh + length misses = 3)%nat /\
    evaluations (Client.metrics s') = 3%Z /\
    Client.sleeps s' = [].
Proof.
  destruct (evaluate_batch_returns_and_asks_at_most_once (fun _ => True)
              (config_with streaming ∅) (always 500)
              ["a"; "b"; "a"] None (fresh (Some broken))
              FaultyCache_responsive I)
    as (res & s' & misses & nh & Erun & _ & Hlen & Hev & _ & _ & Hsl & _).
  exists res, s', misses, nh. auto.
Defined.

(** X19. When the batch request is answered by a 200 whose body holds a
    dict of flags, the result is the cache hits overwritten by that dict:
    every key the server returned is in the result with the value the
    server gave, a [None] included and whether or not the key was asked
    for, and a key the server left out keeps its cache hit or is absent.
    No error is counted. *)
Theorem batch_answer_is_merged_over_the_hits
    {C : Type} `{CacheProvider C} (Inv : C -> Prop)
    (config : FlexFlagConfig)
    (server : nat -> Client.request -> Client.http_result)
    (flag_keys : list string) (context : option EvaluationContext)
    (s : Client.t C)
    (hits : gmap string json) (misses : list string) (s1 : Client.t C)
    (flags : list (string * json)) :
  responsive Inv ->
  cache_ok Inv s ->
  offline_now config s = false ->
  let ectx := effective_context context s in
  Client.batch_lookup config flag_keys ectx ∅ [] s = (Ret (hits, misses), s1) ->
  misses <> [] ->
  batch_answer
    (server (length (Client.requests s))
       (Client.PostBatch misses (Client._context_to_dict ectx) (environment config)))
    flags ->
  NoDup (map fst flags) ->
  exists res s',
    Client.evaluate_batch config server flag_keys context s = (Ret res, s') /\
    (forall k, res !! k = match assoc k flags with
                          | Some v => Some v
                          | None => hits !! k
                          end) /\
    errors (Client.metrics s') = errors (Client.metrics s).
Proof.
  intros Hresp Hs Hon ectx Elook Hne Hans Hnd.
  destruct (evaluate_batch_cases config server Inv Hresp flag_keys context s Hs)
    as (res & s' & hits' & misses' & nh & Erun & (s1' & Elook') & _ & _ & _ & _ & _ & _
        & _ & Hcase).
  fold ectx in Elook'. rewrite Elook in Elook'. injection Elook' as <- <- <-.
  cbv zeta in Hcase. rewrite Hon in Hcase.
  destruct misses as [|m0 ms]; [contradiction|].
  destruct Hcase as (_ & [(fl & Hans' & -> & (_ & _ & _ & He & _))|(Hno & _)]).
  - assert (fl = flags) as ->.
    { destruct Hans as (d1 & E1 & F1), Hans' as (d2 & E2 & F2).
      unfold batch_payload in E2. fold ectx in E2. rewrite E1 in E2.
      injection E2 as <-. rewrite F1 in F2. now injection F2. }
    exists (Client.dict_update hits flags), s'. split; [exact Erun|].
    split; [|lia]. intros k. now apply dict_update_lookup.
  - exfalso. exact (Hno flags Hans).
Qed.

Lemma batch_answer_is_merged_over_the_hits_witness :
  let body := JDict [("flags", JDict [("a", JNull); ("zzz", JInt 1)])] in
  exists res s',
    Client.evaluate_batch (config_with streaming {["a" := JBool true]})
      (answers body) ["a"; "b"] None (fresh (@None MemoryCache.t)) = (Ret res, s') /\
    res !! "a" = Some JNull /\ res !! "zzz" = Some (JInt 1) /\ res !! "b" = None.
Proof.
  destruct (batch_answer_is_merged_over_the_hits
              (fun c : MemoryCache.t => MemoryCache._lock c = false)
              (config_with streaming {["a" := JBool true]})
              (answers (JDict [("flags", JDict [("a", JNull); ("zzz", JInt 1)])]))
              ["a"; "b"] None (fresh (@None MemoryCache.t))
              ∅ ["a"; "b"] _ [("a", JNull); ("zzz", JInt 1)]
              MemoryCache_responsive I eq_refl eq_refl ltac:(discriminate)
              ltac:(eexists; split; reflexivity)
              ltac:(apply NoDup_ListNoDup; repeat constructor; cbn; intuition discriminate))
    as (res & s' & Erun & Hres & _).
  exists res, s'. split; [exact Erun|].
  split; [exact (Hres "a")|]. split; [exact (Hres "zzz")|exact (Hres "b")].
Defined.

(* ===================================================================== *)
(** * None in the cache *)
(* ===================================================================== *)

Section NoneInTheCache.

Context {C : Type} `{CacheProvider C}.
Variable config : FlexFlagConfig.
Variable clock : nat -> Q.
Variable server : nat -> Client.request -> Client.http_result.
Variable Inv : C -> Prop.
Hypothesis Hresp : responsive Inv.

Lemma cache_lookup_none key (s : Client.t C) c :
  Client.cache s = Some c ->
  fst (provider_get key c) = Ret JNull ->
  cache_lookup key s = JNull.
Proof. intros Ec Hget. unfold cache_lookup. now rewrite Ec, Hget. Qed.

(** The cache pass of a batch over a provider that returns None for the
    cache key of [fk], and whose reads leave that so: [fk] is among the
    misses, never among the hits, and its cache-miss event is fired. *)
Lemma batch_lookup_none fk keys ectx :
  let K := Client._build_cache_key config fk ectx in
  (forall k' c', Inv c' -> fst (provider_get K c') = Ret JNull ->
                 fst (provider_get K (snd (provider_get k' c'))) = Ret JNull) ->
  forall hits misses (s : Client.t C) c,
    cache_ok Inv s ->
    Client.cache s = Some c ->
    fst (provider_get K c) = Ret JNull ->
    exists hits' ms s' fs,
      Client.batch_lookup config keys ectx hits misses s
      = (Ret (hits', misses ++ ms), s') /\
      (fk ∈ keys -> fk ∈ ms) /\
      hits' !! fk = hits !! fk /\
      Client.fired s' = Client.fired s ++ fs /\
      (on_cache_miss (events config) = true -> fk ∈ keys ->
       Client.CacheMiss fk ∈ fs).
Proof.
  intros K Hquiet. induction keys as [|k0 keys IH]; intros hits misses s c Hs Ec Hnone;
    cbn [Client.batch_lookup].
  - exists hits, [], s, []. rewrite !app_nil_r. split; [reflexivity|].
    split; [intros Hin; now apply elem_of_nil in Hin|]. split; [reflexivity|].
    split; [reflexivity|]. intros _ Hin. now apply elem_of_nil in Hin.
  - set (key0 := Client._build_cache_key config k0 ectx).
    destruct (_get_from_cache_exact Inv Hresp key0 s Hs) as (Eget & Hs1).
    rewrite (bind_ret_run _ _ _ _ _ Eget).
    assert (Hc : Inv c) by (unfold cache_ok in Hs; now rewrite Ec in Hs).
    set (c1 := snd (provider_get key0 c)).
    assert (Ec1 : cache_after (provider_get key0) (Client.cache s) = Some c1)
      by (now rewrite Ec).
    rewrite Ec1 in Eget, Hs1 |- *.
    assert (Hnone1 : fst (provider_get K c1) = Ret JNull) by (now apply Hquiet).
    destruct (is_not_None (cache_lookup key0 s)) eqn:Ehit.
    + assert (Hne : k0 <> fk).
      { intros ->. subst key0. fold K in Ehit.
        rewrite (cache_lookup_none K s c Ec Hnone) in Ehit. discriminate. }
      unfold bind at 1. cbn [Client.update_metrics modify].
      rewrite (bind_ret_run _ _ _ _ _ (fire_run _ _ _)).
      match goal with
      | |- context [ Client.batch_lookup _ _ _ ?h ?m ?s0 ] =>
          destruct (IH h m s0 c1 Hs1 eq_refl Hnone1)
            as (hits' & ms & s' & fs & Erun & Hin & Hhit & Hfs & Hfired)
      end.
      rewrite Erun. exists hits', ms, s'. eexists. split; [reflexivity|].
      split.
      { intros Hk. apply elem_of_cons in Hk as [->|Hk]; [congruence|auto]. }
      split; [rewrite Hhit; now apply lookup_insert_ne|].
      split; [rewrite Hfs; cbn; symmetry; apply app_assoc|].
      intros Hon Hk. apply elem_of_cons in Hk as [->|Hk]; [congruence|].
      apply elem_of_app. right. auto.
    + unfold bind at 1. cbn [Client.update_metrics modify].
      rewrite (bind_ret_run _ _ _ _ _ (fire_run _ _ _)).
      match goal with
      | |- context [ Client.batch_lookup _ _ _ ?h ?m ?s0 ] =>
          destruct (IH h m s0 c1 Hs1 eq_refl Hnone1)
            as (hits' & ms & s' & fs & Erun & Hin & Hhit & Hfs & Hfired)
      end.
      rewrite Erun. exists hits', (k0 :: ms), s'. eexists.
      split; [now rewrite <- app_assoc|].
      split.
      { intros Hk. apply elem_of_cons in Hk as [->|Hk]; [left|right; auto]. }
      split; [exact Hhit|].
      split; [rewrite Hfs; cbn; symmetry; apply app_assoc|].
      intros Hon Hk. apply elem_of_cons in Hk as [->|Hk].
      * rewrite Hon. apply elem_of_app. left. left.
      * apply elem_of_app. right. auto.
Qed.

(** C10: a provider that returns None for the cache key of a flag, because
    None is the value stored there, gives no cache hit.  A single
    evaluation of the flag counts a miss and no hit, fires the cache-miss
    handler, and does not answer CACHED: offline it falls back to the
    offline result without a request; online it sends the request of the
    flag again, once per attempt, and either builds its result from the
    first answer that does not fail and writes the value of that result
    back to the provider, a None included, or falls back after the last
    attempt.  A batch evaluation that contains the flag, over a provider
    whose reads leave the None where it is, lists the flag among the
    misses, fires its cache-miss handler, and gives it its offline default
    when offline or asks the server for it when online. *)
Theorem none_value_is_a_cache_miss
    (flag_key : string) (context : option EvaluationContext)
    (default_value : json) (s : Client.t C) (c : C) :
  cache_ok Inv s ->
  Client.cache s = Some c ->
  let ectx := effective_context context s in
  let key := Client._build_cache_key config flag_key ectx in
  let p := Client.PostEvaluate flag_key (Client._context_to_dict ectx)
             (environment config) in
  let answer := fun i => server (length (Client.requests s) + i) p in
  fst (provider_get key c) = Ret JNull ->
  (exists r s' j,
      Client.evaluate_with_details config clock server
        flag_key context default_value s = (Ret r, s') /\
      reason r <> CACHED /\
      cache_misses (Client.metrics s') = (cache_misses (Client.metrics s) + 1)%Z /\
      cache_hits (Client.metrics s') = cache_hits (Client.metrics s) /\
      (exists rest,
          Client.fired s' =
          Client.fired s
          ++ (if on_cache_miss (events config)
              then [Client.CacheMiss flag_key] else [])
          ++ rest) /\
      Client.requests s' = Client.requests s ++ repeat p j /\
      (if offline_now config s
       then j = 0%nat /\ offline_result config flag_key default_value r
       else
         network_requests (Client.metrics s')
         = (network_requests (Client.metrics s) + 1)%Z /\
         (((1 <= j)%nat /\
           (Z.of_nat j <= retry_attempts (connection config))%Z /\
           (forall i, (i < j - 1)%nat -> attempt_fails (answer i)) /\
           answer_result default_value (answer (j - 1)%nat) r /\
           Client.cache s'
           = Some (snd (provider_set key (value r) None (snd (provider_get key c)))))
          \/
          (j = Z.to_nat (retry_attempts (connection config)) /\
           (forall i, (i < j)%nat -> attempt_fails (answer i)) /\
           offline_result config flag_key default_value r)))) /\
  ((forall k' c', Inv c' -> fst (provider_get key c') = Ret JNull ->
                  fst (provider_get key (snd (provider_get k' c'))) = Ret JNull) ->
   forall flag_keys,
     flag_key ∈ flag_keys ->
     exists res s' misses fs,
       Client.evaluate_batch config server flag_keys context s = (Ret res, s') /\
       flag_key ∈ misses /\
       cache_misses (Client.metrics s')
       = (cache_misses (Client.metrics s) + Z.of_nat (length misses))%Z /\
       Client.fired s' = Client.fired s ++ fs /\
       (on_cache_miss (events config) = true ->
        Client.CacheMiss flag_key ∈ fs) /\
       (if offline_now config s
        then Client.requests s' = Client.requests s /\
             res !! flag_key = offline_default config flag_key
        else Client.requests s' =
             Client.requests s
             ++ [Client.PostBatch misses (Client._context_to_dict ectx)
                   (environment config)])).
Proof.
  intros Hs Ec ectx key p answer Hnone.
  assert (Hmiss : is_not_None (cache_lookup key s) = false)
    by (rewrite (cache_lookup_none key s c Ec Hnone); reflexivity).
  split.
  - destruct (evaluate_miss_run config clock server Inv Hresp
                flag_key context default_value s Hs Hmiss)
      as (r & s' & Erun & _ & HnC & Hcm & Hch & Hfired & _).
    destruct (evaluate_with_details_cases config clock server Inv Hresp
                flag_key context default_value s Hs)
      as (r0 & s0 & j & Erun0 & _ & _ & _ & Hrq & _ & Hcase).
    rewrite Erun in Erun0. injection Erun0 as <- <-.
    fold ectx key in Hcase. change (payload_of config flag_key ectx) with p in Hrq, Hcase.
    rewrite Hmiss in Hcase.
    exists r, s', j. split; [exact Erun|]. split; [exact HnC|].
    split; [exact Hcm|]. split; [exact Hch|]. split; [exact Hfired|].
    split; [exact Hrq|].
    destruct (offline_now config s).
    + destruct Hcase as (Hj & _ & Hoff & _). auto.
    + destruct Hcase as [(Hj & Hle & Hfail & Hans & Hcache & Hcnt)
                        |(Hj & Hfail & _ & Hoff & _ & Hcnt)].
      * split; [apply Hcnt|]. left. split; [exact Hj|]. split; [exact Hle|].
        split; [exact Hfail|]. split; [exact Hans|].
        rewrite Hcache, Ec. reflexivity.
      * split; [apply Hcnt|]. right. auto.
  - intros Hquiet flag_keys Hin.
    destruct (batch_lookup_none flag_key flag_keys ectx Hquiet ∅ [] s c Hs Ec Hnone)
      as (hits & misses & s1 & fs & Elook & Hinm & Hhit & Hfs & Hfired).
    destruct (batch_lookup_run config Inv Hresp flag_keys ectx ∅ [] s Hs)
      as (hits0 & ms0 & s0 & Elook0 & Hs1 & Hfr & _ & _ & _ & Hcm).
    rewrite Elook in Elook0. injection Elook0 as <- E <-.
    cbn [app] in Elook, E. subst ms0.
    destruct (evaluate_batch_run config server Inv Hresp
                flag_keys context s _ _ _ Elook Hs1)
      as (res & s' & Erun & _ & _ & Hcm' & _ & (fs' & Hfs') & Hcase).
    destruct Hfr as (Hrq & _ & _ & Hom & _).
    assert (Hoff : offline_now config s1 = offline_now config s)
      by (unfold offline_now; now rewrite Hom).
    exists res, s', misses, (fs ++ fs').
    split; [exact Erun|]. split; [now apply Hinm|].
    split; [now rewrite Hcm', Hcm|].
    split; [now rewrite Hfs', Hfs, app_assoc|].
    split; [intros Hon; apply elem_of_app; left; now apply Hfired|].
    rewrite Hoff in Hcase. destruct (offline_now config s).
    + destruct Hcase as (-> & Hreq & _). split; [now rewrite Hreq|].
      rewrite offline_defaults_lookup.
      destruct (offline_default config flag_key) as [v|].
      * rewrite bool_decide_eq_true_2; [reflexivity|now apply Hinm].
      * assert (Hu : hits ∪ ∅ = hits) by apply (right_id_L ∅ (∪)).
        rewrite Hu, Hhit. apply lookup_empty.
    + pose proof (Hinm Hin) as Hin'.
      destruct misses as [|m0 ms]; [now apply elem_of_nil in Hin'|].
      destruct Hcase as (Hreq & _). now rewrite Hreq, Hrq.
Qed.

End NoneInTheCache.

Lemma none_value_is_a_cache_miss_witness :
  let config := config_with streaming ∅ in
  let s0 := fresh (Some (memory ∅)) in
  let s := snd (Client.evaluate_with_details config clock10 (always 404)
                  "x" None JNull s0) in
  let p := Client.PostEvaluate "x" (Client._context_to_dict None) "production" in
  Client.cache s = Some (memory {["flexflag:x::production" := JNull]}) /\
  (exists r s',
      Client.evaluate_with_details config clock10 (always 404) "x" None JNull s
      = (Ret r, s') /\
      reason r <> CACHED /\
      cache_misses (Client.metrics s') = 2%Z /\
      cache_hits (Client.metrics s') = 0%Z /\
      (exists rest, Client.fired s' = Client.fired s ++ [Client.CacheMiss "x"] ++ rest) /\
      Client.requests s' = [p; p] /\
      network_requests (Client.metrics s') = 2%Z) /\
  (exists res s' misses,
      Client.evaluate_batch config (always 404) ["y"; "x"] None s = (Ret res, s') /\
      "x" ∈ misses /\
      Client.requests s'
      = [p; Client.PostBatch misses (Client._context_to_dict None) "production"]).
Proof.
  cbv zeta.
  set (s := snd (Client.evaluate_with_details (config_with streaming ∅) clock10
                   (always 404) "x" None JNull (fresh (Some (memory ∅))))).
  assert (Ec : Client.cache s = Some (memory {["flexflag:x::production" := JNull]}))
    by (vm_compute; reflexivity).
  assert (Hok : cache_ok (fun c : MemoryCache.t => MemoryCache._lock c = false) s)
    by (unfold cache_ok; rewrite Ec; reflexivity).
  assert (Hnone : fst (provider_get "x::production"
                         (memory {["flexflag:x::production" := JNull]}))
                  = Ret JNull) by reflexivity.
  assert (Hcm : cache_misses (Client.metrics s) = 1%Z) by (vm_compute; reflexivity).
  assert (Hch : cache_hits (Client.metrics s) = 0%Z) by (vm_compute; reflexivity).
  assert (Hnr : network_requests (Client.metrics s) = 1%Z) by (vm_compute; reflexivity).
  assert (Hrq : Client.requests s
                = [Client.PostEvaluate "x" (Client._context_to_dict None) "production"])
    by (vm_compute; reflexivity).
  assert (Hoff : offline_now (config_with streaming ∅) s = false)
    by (vm_compute; reflexivity).
  assert (Hctx : effective_context None s = None) by (vm_compute; reflexivity).
  pose proof (none_value_is_a_cache_miss
                (config_with streaming ∅) clock10 (always 404)
                (fun c : MemoryCache.t => MemoryCache._lock c = false)
                MemoryCache_responsive
                "x" None JNull s
                (memory {["flexflag:x::production" := JNull]})
                Hok Ec) as Hthm.
  cbv zeta in Hthm. rewrite Hctx, Hoff, Hcm, Hch, Hnr, Hrq in Hthm.
  destruct (Hthm Hnone) as [Hsingle Hbatch]. clear Hthm.
  split; [exact Ec|]. split.
  - destruct Hsingle
      as (r & s' & j & Erun & HnC & Hcm' & Hch' & Hfired & Hrq' & Hnet & Hcase).
    assert (Hj : j = 1%nat).
    { destruct Hcase as [(Hj & _ & Hfail & _)|(-> & Hfail & _)].
      - destruct (Nat.eq_dec j 1) as [E|Hne]; [exact E|].
        exfalso. destruct (Hfail 0%nat ltac:(lia)) as [[_ N]|[N _]];
          [now apply N|discriminate N].
      - exfalso. destruct (Hfail 0%nat) as [[_ N]|[N _]];
          [apply Nat.ltb_lt; reflexivity|now apply N|discriminate N]. }
    subst j. exists r, s'. repeat split; assumption.
  - destruct (Hbatch
                ltac:(intros k' c' Hl Hn; change (provider_get k' c') with (MemoryCache.get k' c');
                      now rewrite (MemoryCache_get_run c' k' Hl))
                ["y"; "x"] ltac:(right; left))
      as (res & s' & misses & fs & Erun & Hin & _ & _ & _ & Hrq').
    exists res, s', misses. split; [exact Erun|]. split; [exact Hin|exact Hrq'].
Defined.

(* ===================================================================== *)
(** * The client with an in-memory cache *)
(* ===================================================================== *)

Section MemoryClient.

Variable config : FlexFlagConfig.
Variable clock : nat -> Q.
Variable server : nat -> Client.request -> Client.http_result.

Abbreviation TMC := (Client.t MemoryCache.t).
Abbreviation free := (fun c : MemoryCache.t => MemoryCache._lock c = false).

Lemma cache_after_get_memory key c :
  MemoryCache._lock c = false ->
  cache_after (provider_get key) (Some c) = Some c.
Proof.
  intros Hl. unfold cache_after. cbn. now rewrite MemoryCache_get_run.
Qed.

(** X20. With the in-memory cache, a value other than [None] obtained
    from the server (the value of a 200, or the default value of the
    caller after a 404) is written to the cache under the cache key of the
    flag and the context.  When the cache can hold an entry ([max_size] at
    least 1 and [ttl] positive), the next evaluation of the flag with the
    same context, if it runs before the entry expires, returns that value
    from the cache, whatever default value it is given, with reason
    CACHED, no variation and no request, and a batch evaluation of the
    flag finds it too: single and batch evaluations share their cache
    entries.  When the cache cannot hold an entry, the write is lost (the
    [ValueError] of a cache of size 0 is swallowed) and the next
    evaluation misses the cache again. *)
Theorem fetched_value_is_served_from_the_cache
    (flag_key : string) (context : option EvaluationContext)
    (default_value : json) (s : TMC) (c : MemoryCache.t)
    (r1 : EvaluationResult) (s1 : TMC) :
  Client.cache s = Some c ->
  MemoryCache._lock c = false ->
  Client.evaluate_with_details config clock server
    flag_key context default_value s = (Ret r1, s1) ->
  reason r1 <> CACHED ->
  reason r1 <> OFFLINE ->
  value r1 <> JNull ->
  forall default_value',
    if ((1 <=? max_size (MemoryCache.config c)) && (0 <? MemoryCache.config_ttl c))%Z
    then
      (exists r2 s2,
          Client.evaluate_with_details config clock server
            flag_key context default_value' s1 = (Ret r2, s2) /\
          value r2 = value r1 /\ reason r2 = CACHED /\ variation r2 = JNull /\
          Client.requests s2 = Client.requests s1) /\
      (exists res s2,
          Client.evaluate_batch config server [flag_key] context s1 = (Ret res, s2) /\
          res !! flag_key = Some (value r1) /\
          Client.requests s2 = Client.requests s1)
    else
      exists r2 s2,
        Client.evaluate_with_details config clock server
          flag_key context default_value' s1 = (Ret r2, s2) /\
        reason r2 <> CACHED /\
        cache_misses (Client.metrics s2) = (cache_misses (Client.metrics s1) + 1)%Z.
Proof.
  intros Ec Hl Erun HnC HnO Hv dv'.
  assert (Hs : cache_ok free s) by (unfold cache_ok; now rewrite Ec).
  destruct (evaluate_with_details_cases config clock server free MemoryCache_responsive
              flag_key context default_value s Hs)
    as (r & s' & j & Erun' & Hs1 & _ & Hctx & _ & _ & Hcase).
  rewrite Erun in Erun'. injection Erun' as <- <-.
  set (ectx := effective_context context s) in *.
  set (key := Client._build_cache_key config flag_key ectx) in *.
  assert (Hfirst : is_not_None (mem_get c key) = false /\
                   Client.cache s1
                   = cache_after (provider_set key (value r1) None) (Some c)).
  { rewrite Ec, (cache_after_get_memory key c Hl) in Hcase.
    rewrite (cache_lookup_memory s c key Ec Hl) in Hcase.
    destruct (is_not_None (mem_get c key)); [|destruct (offline_now config s)].
    - destruct Hcase as (_ & _ & _ & _ & Hr & _). contradiction.
    - destruct Hcase as (_ & _ & [Hr _] & _). contradiction.
    - destruct Hcase as [(_ & _ & _ & _ & Hc & _)|(_ & _ & _ & [Hr _] & _)];
        [auto|contradiction]. }
  destruct Hfirst as [Hmiss0 Hcache].
  unfold cache_after in Hcache. cbn [provider_set MemoryCache_provider] in Hcache.
  assert (Hectx : effective_context context s1 = ectx).
  { unfold ectx, effective_context. now rewrite Hctx. }
  assert (Hnn : is_not_None (value r1) = true)
    by (destruct (value r1); [now contradiction Hv|reflexivity..]).
  assert (Hlost : forall c1,
             Client.cache s1 = Some c1 -> MemoryCache._lock c1 = false ->
             is_not_None (mem_get c1 key) = false ->
             exists r2 s2,
               Client.evaluate_with_details config clock server
                 flag_key context dv' s1 = (Ret r2, s2) /\
               reason r2 <> CACHED /\
               cache_misses (Client.metrics s2)
               = (cache_misses (Client.metrics s1) + 1)%Z).
  { intros c1 Hc1 Hl1 Hm.
    destruct (evaluate_miss_run config clock server free MemoryCache_responsive
                flag_key context dv' s1 Hs1)
      as (r2 & s2 & Erun2 & _ & Hr2 & Hcm & _).
    { rewrite Hectx. fold key. now rewrite (cache_lookup_memory s1 c1 key Hc1 Hl1). }
    exists r2, s2. auto. }
  destruct (Z.leb_spec 1 (max_size (MemoryCache.config c))) as [Hsize|Hsmall];
    cbn [andb].
  2:{ rewrite (MemoryCache_set_too_large c key (value r1) None Hl Hsmall) in Hcache.
      exact (Hlost c Hcache Hl Hmiss0). }
  destruct (MemoryCache_set_stored c key (value r1) None Hl Hsize)
    as (c1 & Eset & Hl1 & Hcfg & Hst).
  rewrite Eset in Hcache. cbn [snd] in Hcache.
  unfold MemoryCache.config_ttl.
  destruct (0 <? ttl (MemoryCache.config c))%Z.
  2:{ apply (Hlost c1 Hcache Hl1). unfold mem_get. now rewrite Hcfg, Hst. }
  assert (Hget : mem_get c1 key = value r1).
  { unfold mem_get. now rewrite Hcfg, Hst. }
  split.
  - destruct (evaluate_with_details_cases config clock server free MemoryCache_responsive
                flag_key context dv' s1 Hs1)
      as (r2 & s2 & j2 & Erun2 & _ & _ & _ & Hrq2 & _ & Hcase2).
    rewrite Hectx in Hcase2. fold key in Hcase2.
    rewrite (cache_lookup_memory s1 c1 key Hcache Hl1), Hget, Hnn in Hcase2.
    destruct Hcase2 as (-> & _ & Hv2 & Hvar & Hr2 & _).
    exists r2, s2. split; [exact Erun2|]. cbn in Hrq2. rewrite app_nil_r in Hrq2.
    auto.
  - assert (Elook : exists s1',
               Client.batch_lookup config [flag_key] (effective_context context s1)
                 ∅ [] s1 = (Ret (<[flag_key := value r1]> ∅, []), s1') /\
               Client.cache s1' = Some c1 /\
               Client.requests s1' = Client.requests s1).
    { rewrite Hectx. cbn [Client.batch_lookup]. fold key.
      rewrite (bind_ret_run _ _ _ _ _ (_get_from_cache_memory s1 c1 key Hcache Hl1)).
      rewrite Hget, Hnn.
      unfold bind at 1. cbn [Client.update_metrics modify].
      rewrite (bind_ret_run _ _ _ _ _ (fire_run _ _ _)).
      eexists. split; [reflexivity|]. split; [exact Hcache|reflexivity]. }
    destruct Elook as (s1' & Elook & Hc1' & Hrq1').
    assert (Hs1' : cache_ok free s1') by (unfold cache_ok; now rewrite Hc1').
    destruct (evaluate_batch_run config server free MemoryCache_responsive
                [flag_key] context s1 _ _ _ Elook Hs1')
      as (res & s2 & Erun2 & _ & _ & _ & _ & _ & Hcase2).
    exists res, s2. split; [exact Erun2|].
    assert (Hu : <[flag_key := value r1]> (∅ : gmap string json) ∪ ∅
                 = <[flag_key := value r1]> ∅) by apply (right_id_L ∅ (∪)).
    destruct (offline_now config s1').
    + destruct Hcase2 as (-> & Hrq2 & _). rewrite Hu. cbn.
      split; [apply lookup_insert_eq|congruence].
    + destruct Hcase2 as (-> & Hrq2 & _). rewrite Hu.
      split; [apply lookup_insert_eq|congruence].
Qed.

(** X21. [clear_cache] on the in-memory cache forgets every value: sends
    nothing, counts nothing, and the next evaluation of any flag misses
    the cache.  On a client whose cache is disabled it does nothing. *)
Theorem clear_cache_forgets_every_value (s : TMC) :
  match Client.cache s with
  | None => Client.clear_cache s = (Ret tt, s)
  | Some c =>
      MemoryCache._lock c = false ->
      exists s1,
        Client.clear_cache s = (Ret tt, s1) /\
        Client.requests s1 = Client.requests s /\
        Client.metrics s1 = Client.metrics s /\
        forall flag_key context default_value,
        exists r s2,
          Client.evaluate_with_details config clock server
            flag_key context default_value s1 = (Ret r, s2) /\
          reason r <> CACHED /\
          cache_misses (Client.metrics s2) = (cache_misses (Client.metrics s) + 1)%Z
  end.
Proof.
  destruct (Client.cache s) as [c|] eqn:Ec.
  - intros Hl. unfold Client.clear_cache, bind, gets. rewrite Ec.
    unfold Client.on_cache. cbn [provider_clear MemoryCache_admin].
    rewrite (MemoryCache_clear_run c Hl).
    set (c1 := MemoryCache.set_store ∅ c).
    set (s1 := Client.with_cache (Some c1) s).
    exists s1. split; [reflexivity|]. split; [reflexivity|]. split; [reflexivity|].
    intros fk ctx dv.
    assert (Hs1 : cache_ok free s1) by exact Hl.
    destruct (evaluate_with_details_cases config clock server free MemoryCache_responsive
                fk ctx dv s1 Hs1)
      as (r & s2 & j & Erun & _ & _ & _ & _ & _ & Hcase).
    rewrite (cache_lookup_memory s1 c1 _ eq_refl Hl) in Hcase.
    assert (Hnone : forall k, mem_get c1 k = JNull)
      by (intros k; unfold mem_get; cbn; now rewrite lookup_empty).
    rewrite Hnone in Hcase. cbn [is_not_None] in Hcase.
    exists r, s2. split; [exact Erun|].
    destruct (offline_now config s1).
    + destruct Hcase as (_ & _ & [Hr _] & _ & (_ & _ & Hm & _)).
      split; [congruence|exact Hm].
    + destruct Hcase as [(_ & _ & _ & Hans & _ & (_ & _ & Hm & _))
                        |(_ & _ & _ & [Hr _] & _ & (_ & _ & Hm & _))].
      * split; [|exact Hm].
        destruct (server _ _) as [st body|e]; cbn in Hans; [|contradiction].
        destruct Hans as [(_ & d & _ & _ & _ & Hr)|(_ & _ & _ & Hr & _)];
          rewrite Hr; [destruct (truthy _)|]; discriminate.
      * split; [congruence|exact Hm].
  - unfold Client.clear_cache, bind, gets. rewrite Ec. reflexivity.
Qed.

End MemoryClient.

Lemma fetched_value_is_served_from_the_cache_witness :
  let config := config_with streaming ∅ in
  let s := fresh (Some (memory ∅)) in
  let s1 := snd (Client.evaluate_with_details config clock10 (always 404)
                   "x" None (JBool true) s) in
  exists r2 s2,
    Client.evaluate_with_details config clock10 (always 404)
      "x" None (JBool false) s1 = (Ret r2, s2) /\
    value r2 = JBool true /\ reason r2 = CACHED.
Proof.
  cbv zeta.
  destruct (Client.evaluate_with_details (config_with streaming ∅) clock10 (always 404)
              "x" None (JBool true) (fresh (Some (memory ∅))))
    as [out s1] eqn:E1.
  assert (Hout : out = Ret {| value := JBool true; variation := JNull;
                              reason := DEFAULT; metadata := None |}).
  { apply (f_equal fst) in E1. vm_compute in E1. now subst out. }
  subst out. cbn [snd].
  destruct (proj1 (fetched_value_is_served_from_the_cache
                     (config_with streaming ∅) clock10 (always 404)
                     "x" None (JBool true) (fresh (Some (memory ∅))) (memory ∅)
                     _ s1 eq_refl eq_refl E1
                     ltac:(discriminate) ltac:(discriminate) ltac:(discriminate)
                     (JBool false)))
    as (r2 & s2 & Erun & Hv & Hr & _).
  exists r2, s2. split; [exact Erun|]. split; [exact Hv|exact Hr].
Defined.

Lemma clear_cache_forgets_every_value_witness :
  let s := fresh (Some (memory {["flexflag:x::production" := JBool true]})) in
  exists s1,
    Client.clear_cache s = (Ret tt, s1) /\
    exists r s2,
      Client.evaluate_with_details (config_with offline ∅) clock10 (always 200)
        "x" None (JBool false) s1 = (Ret r, s2) /\
      reason r <> CACHED.
Proof.
  destruct (clear_cache_forgets_every_value (config_with offline ∅) clock10 (always 200)
              (fresh (Some (memory {["flexflag:x::production" := JBool true]})))
              eq_refl)
    as (s1 & Eclear & _ & _ & Hnext).
  exists s1. split; [exact Eclear|].
  destruct (Hnext "x" None (JBool false)) as (r & s2 & Erun & Hr & _).
  exists r, s2. split; [exact Erun|exact Hr].
Defined.

(* ===================================================================== *)
(** * The context of the client and the cache key *)
(* ===================================================================== *)

Lemma assoc_assoc_set {A} k (v : A) d k' :
  assoc k' (assoc_set k v d) = if String.eqb k' k then Some v else assoc k' d.
Proof.
  induction d as [|[k0 x] d IH]; cbn.
  - destruct (String.eqb k' k); reflexivity.
  - destruct (String.eqb_spec k k0) as [->|Hne]; cbn.
    + destruct (String.eqb k' k0); reflexivity.
    + rewrite IH. destruct (String.eqb_spec k' k0) as [->|Hne'].
      * destruct (String.eqb_spec k0 k); [congruence|reflexivity].
      * reflexivity.
Qed.

Lemma map_fst_assoc_set {A} k (v : A) d :
  map fst (assoc_set k v d)
  = if bool_decide (k ∈ map fst d) then map fst d else map fst d ++ [k].
Proof.
  induction d as [|[k0 x] d IH]; cbn.
  - rewrite bool_decide_eq_false_2 by apply not_elem_of_nil. reflexivity.
  - destruct (String.eqb_spec k k0) as [->|Hne]; cbn.
    + rewrite bool_decide_eq_true_2 by left. reflexivity.
    + rewrite IH. destruct (bool_decide (k ∈ map fst d)) eqn:E.
      * apply bool_decide_eq_true_1 in E.
        rewrite bool_decide_eq_true_2 by (right; exact E). reflexivity.
      * apply bool_decide_eq_false_1 in E.
        rewrite bool_decide_eq_false_2; [reflexivity|].
        intros Hin. apply elem_of_cons in Hin as [?|?]; contradiction.
Qed.

Lemma NoDup_assoc_set {A} k (v : A) d :
  NoDup (map fst d) -> NoDup (map fst (assoc_set k v d)).
Proof.
  intros Hnd. rewrite map_fst_assoc_set.
  destruct (bool_decide (k ∈ map fst d)) eqn:E; [exact Hnd|].
  apply bool_decide_eq_false_1 in E.
  apply NoDup_app. split; [exact Hnd|]. split.
  - intros x Hx Hk. apply list_elem_of_singleton in Hk. now subst.
  - apply NoDup_singleton.
Qed.

Lemma Forall_assoc_set {A} (P : string * A -> Prop) k v d :
  (forall k', P (k', v)) -> Forall P d -> Forall P (assoc_set k v d).
Proof.
  intros Hv. induction 1 as [|[k0 x] d Hx Hd IH]; cbn.
  - constructor; [apply Hv|constructor].
  - destruct (String.eqb k k0); constructor; auto.
Qed.

Lemma assoc_update_spec {A} (u : list (string * A)) :
  forall d,
    NoDup (map fst u) ->
    (forall k, assoc k (assoc_update d u)
               = match assoc k u with
                 | Some v => Some v
                 | None => assoc k d
                 end) /\
    (exists new, map fst (assoc_update d u) = map fst d ++ new) /\
    (NoDup (map fst d) -> NoDup (map fst (assoc_update d u))).
Proof.
  unfold assoc_update.
  induction u as [|[k0 v0] u IH]; intros d Hnd; cbn.
  - split; [reflexivity|]. split; [exists []; now rewrite app_nil_r|auto].
  - apply NoDup_cons in Hnd as [Hk0 Hnd].
    destruct (IH (assoc_set k0 v0 d) Hnd) as (Hlk & [new Hkeys] & Hnodup).
    split; [|split].
    + intros k. rewrite Hlk, assoc_assoc_set.
      destruct (String.eqb_spec k k0) as [->|Hne]; [|reflexivity].
      destruct (assoc k0 u) as [v|] eqn:Ea; [|reflexivity].
      exfalso. apply Hk0. apply assoc_In in Ea.
      apply list_elem_of_In. apply in_map_iff. exists (k0, v). auto.
    + rewrite Hkeys, map_fst_assoc_set.
      destruct (bool_decide _); [eauto|].
      rewrite <- app_assoc. eauto.
    + intros Hd. apply Hnodup. now apply NoDup_assoc_set.
Qed.

Lemma update_context_run {C : Type} (updates : ContextUpdates)
    (attrs : list (string * json)) (s : Client.t C) :
  upd_attributes updates = Some attrs ->
  let before := default EvaluationContext_init (Client.context s) in
  exists after,
    Client.update_context updates s = (Ret tt, Client.with_context (Some after) s) /\
    attributes after = assoc_update (attributes before) attrs /\
    user_id after = default (user_id before) (upd_user_id updates) /\
    device after = default (device before) (upd_device updates) /\
    session after = default (session before) (upd_session updates).
Proof.
  intros Ha before.
  unfold Client.update_context, modify. rewrite Ha.
  change (match Client.context s with
          | Some c => c
          | None => EvaluationContext_init
          end) with before.
  eexists. split; [reflexivity|].
  destruct (upd_user_id updates) as [u|], (upd_device updates) as [d|],
           (upd_session updates) as [ss|]; cbn; auto.
Qed.

(** X22. [update_context] merges the attributes into those of the context
    of the client (an empty context when the client has none): an attribute
    named in the update gets the new value, every other attribute keeps
    its value, the keys that were there keep their positions and stay
    distinct.  The user id, the device and the session are replaced when
    the update names them and kept otherwise. *)
Theorem update_context_merges_the_attributes
    {C : Type} (updates : ContextUpdates) (attrs : list (string * json))
    (s : Client.t C) :
  upd_attributes updates = Some attrs ->
  NoDup (map fst attrs) ->
  let before := default EvaluationContext_init (Client.context s) in
  exists after,
    Client.update_context updates s = (Ret tt, Client.with_context (Some after) s) /\
    (forall k, assoc k (attributes after)
               = match assoc k attrs with
                 | Some v => Some v
                 | None => assoc k (attributes before)
                 end) /\
    (exists new, map fst (attributes after) = map fst (attributes before) ++ new) /\
    (NoDup (map fst (attributes before)) -> NoDup (map fst (attributes after))) /\
    user_id after = default (user_id before) (upd_user_id updates) /\
    device after = default (device before) (upd_device updates) /\
    session after = default (session before) (upd_session updates).
Proof.
  intros Ha Hnd before.
  destruct (update_context_run updates attrs s Ha)
    as (after & Erun & Eattrs & Hu & Hd & Hs).
  fold before in Eattrs, Hu, Hd, Hs.
  destruct (assoc_update_spec attrs (attributes before) Hnd)
    as (Hlk & Hkeys & Hnodup).
  exists after. rewrite Eattrs. auto 10.
Qed.

Lemma update_context_merges_the_attributes_witness :
  exists after,
    Client.update_context
      {| upd_user_id := None;
         upd_attributes := Some [("age", JInt 31); ("beta", JBool true)];
         upd_device := None; upd_session := None |}
      (Client.with_context (Some ctx_a) (fresh (@None MemoryCache.t)))
    = (Ret tt, Client.with_context (Some after) (fresh (@None MemoryCache.t))) /\
    assoc "age" (attributes after) = Some (JInt 31) /\
    assoc "plan" (attributes after) = Some (JStr "pro").
Proof.
  destruct (update_context_merges_the_attributes
              {| upd_user_id := None;
                 upd_attributes := Some [("age", JInt 31); ("beta", JBool true)];
                 upd_device := None; upd_session := None |}
              [("age", JInt 31); ("beta", JBool true)]
              (Client.with_context (Some ctx_a) (fresh (@None MemoryCache.t)))
              eq_refl
              ltac:(apply NoDup_ListNoDup; repeat constructor; cbn; intuition discriminate))
    as (after & Erun & Hlk & _).
  exists after. split; [exact Erun|]. split; [exact (Hlk "age")|exact (Hlk "plan")].
Defined.

(** X23. Once [update_context] has given an attribute a value that is not
    the one it had (or an attribute that was not there), the cache key of
    every flag under the context of the client is a new one: what was
    cached under the old context is not looked up any more. *)
Theorem update_context_changes_every_cache_key
    (config : FlexFlagConfig) {C : Type} (updates : ContextUpdates)
    (attrs : list (string * json)) (k : string) (v : json)
    (s s' : Client.t C) (before after : EvaluationContext) :
  Client.context s = Some before ->
  upd_attributes updates = Some attrs ->
  NoDup (map fst attrs) ->
  assoc k attrs = Some v ->
  (forall x, assoc k (attributes before) = Some x -> same_value v x = false) ->
  Client.update_context updates s = (Ret tt, s') ->
  Client.context s' = Some after ->
  wf_context before ->
  wf_context after ->
  forall flag_key,
    Client._build_cache_key config flag_key (Some after)
    <> Client._build_cache_key config flag_key (Some before).
Proof.
  intros Hctx Ha Hnd Hk Hnew Hrun Hctx' Hwb Hwa flag_key E.
  destruct (update_context_run updates attrs s Ha)
    as (after' & Hrun' & Eattrs & _).
  rewrite Hrun' in Hrun. injection Hrun as <-. cbn in Hctx'.
  injection Hctx' as ->. rewrite Hctx in Eattrs. cbn in Eattrs.
  destruct (assoc_update_spec attrs (attributes before) Hnd) as (Hlk & _).
  specialize (Hlk k). rewrite Hk, <- Eattrs in Hlk.
  apply cache_key_eq_iff in E.
  apply dumps_inj in E; [|now apply wf_context_dict..].
  apply same_context_dict in E as (_ & Hs & _).
  rewrite same_value_dict in Hs. apply andb_true_iff in Hs as [_ Hs].
  rewrite same_items_spec in Hs.
  destruct (Hs k v (assoc_In _ _ _ Hlk)) as (y & Hy & Hvy).
  rewrite (Hnew y Hy) in Hvy. discriminate.
Qed.

Lemma update_context_changes_every_cache_key_witness :
  let updates := {| upd_user_id := None; upd_attributes := Some [("age", JInt 31)];
                    upd_device := None; upd_session := None |} in
  let after := {| user_id := Some "u1";
                  attributes := [("plan", JStr "pro"); ("age", JInt 31)];
                  device := None; session := None |} in
  let s := Client.with_context (Some ctx_a) (fresh (@None MemoryCache.t)) in
  Client.update_context updates s = (Ret tt, Client.with_context (Some after) s) /\
  Client._build_cache_key (config_with streaming ∅) "new-checkout" (Some after)
  <> Client._build_cache_key (config_with streaming ∅) "new-checkout" (Some ctx_a).
Proof.
  split; [reflexivity|].
  apply (update_context_changes_every_cache_key (config_with streaming ∅)
           {| upd_user_id := None; upd_attributes := Some [("age", JInt 31)];
              upd_device := None; upd_session := None |}
           [("age", JInt 31)] "age" (JInt 31)
           (Client.with_context (Some ctx_a) (fresh (@None MemoryCache.t)))
           (Client.with_context
              (Some {| user_id := Some "u1";
                       attributes := [("plan", JStr "pro"); ("age", JInt 31)];
                       device := None; session := None |})
              (fresh (@None MemoryCache.t)))
           ctx_a
           {| user_id := Some "u1";
              attributes := [("plan", JStr "pro"); ("age", JInt 31)];
              device := None; session := None |}
           eq_refl eq_refl).
  - apply NoDup_ListNoDup. repeat constructor. cbn. intuition.
  - reflexivity.
  - intros x Hx. cbn in Hx. injection Hx as <-. reflexivity.
  - reflexivity.
  - reflexivity.
  - cbn. repeat split; try (apply NoDup_ListNoDup; repeat constructor; cbn;
                            intuition discriminate).
  - cbn. repeat split; try (apply NoDup_ListNoDup; repeat constructor; cbn;
                            intuition discriminate).
Defined.

Lemma length_chars_append a b :
  length (chars (a +:+ b)) = (length (chars a) + length (chars b))%nat.
Proof. now rewrite chars_append, length_app. Qed.

(** X24. For one context (or none) and one environment, two flags have the
    same cache key only when they are the same flag, and a flag looked up
    without a context never shares its key with the same flag looked up
    with one.  Across flags the key is ambiguous: the flag whose key is
    that of [flag_key], a double colon and the text of the context has,
    without a context, the cache key of [flag_key] with the context. *)
Theorem cache_key_separates_the_flags_of_one_context
    (config : FlexFlagConfig) (flag_key : string) (c : EvaluationContext) :
  (forall ctx other,
      Client._build_cache_key config flag_key ctx
      = Client._build_cache_key config other ctx -> flag_key = other) /\
  Client._build_cache_key config flag_key None
  <> Client._build_cache_key config flag_key (Some c) /\
  Client._build_cache_key config
    (flag_key +:+ "::" +:+ dumps_str (Client._context_to_dict (Some c))) None
  = Client._build_cache_key config flag_key (Some c).
Proof.
  split; [|split].
  - intros [ctx|] other E; unfold Client._build_cache_key in E;
      now apply append_inj_r in E.
  - unfold Client._build_cache_key. intros E.
    apply append_inj_l, append_inj_l in E.
    apply (f_equal (fun x => length (chars x))) in E.
    rewrite !length_chars_append in E. cbn in E. lia.
  - unfold Client._build_cache_key.
    apply chars_inj. rewrite !chars_append. now rewrite <- !app_assoc.
Qed.

(* ===================================================================== *)
(** * Start-up of the client *)
(* ===================================================================== *)

Section StartupProperties.

Context {C : Type}.
Variable config : FlexFlagConfig.
Variable on_ready : bool.
Variable health : nat -> Client.http_result.
Variable invalid_api_key : exn.

Abbreviation budget := (Z.to_nat (retry_attempts (connection config))).
Abbreviation failure_of s i :=
  (health_failure invalid_api_key (health (Client.health_requests s + i))).

Lemma health_attempt_run (s : Client.instance C) :
  Client.health_attempt health invalid_api_key s
  = (match failure_of s 0 with
     | None => Ret tt
     | Some e => Raise e
     end,
     Client.with_health_requests (S (Client.health_requests s)) s).
Proof.
  unfold Client.health_attempt, bind, Client.get_health, health_failure.
  rewrite Nat.add_0_r.
  destruct (health (Client.health_requests s)) as [status body|e]; [|reflexivity].
  destruct (status =? 200)%Z; [reflexivity|].
  destruct (status =? 401)%Z; reflexivity.
Qed.

Lemma health_loop_trace m :
  forall a (s : Client.instance C),
    (a + m)%nat = budget ->
    exists out s' k,
      Client.health_loop config health invalid_api_key (seq a m) s = (out, s') /\
      (k <= m)%nat /\
      tested s s' k (map (Client.retry_sleep config) (seq a (k - 1))) /\
      (forall i, (i < k - 1)%nat -> failure_of s i <> None) /\
      ((out = Ret tt /\
        (m = 0%nat \/ (1 <= k)%nat /\ failure_of s (k - 1) = None)) \/
       (k = m /\ (1 <= m)%nat /\
        exists e, failure_of s (m - 1) = Some e /\ out = Raise e)).
Proof.
  induction m as [|m IH]; intros a s Hb.
  - exists (Ret tt), s, 0%nat. cbn. split; [reflexivity|]. split; [lia|].
    split; [|split; [intros; lia|left; auto]].
    unfold tested. destruct s as [[] ? ? ? ? ?]; cbn.
    rewrite app_nil_r, Nat.add_0_r. auto 10.
  - cbn [seq Client.health_loop]. unfold try_catch.
    rewrite health_attempt_run.
    destruct (failure_of s 0) as [e|] eqn:E0.
    + destruct (Z.of_nat a =? retry_attempts (connection config) - 1)%Z eqn:Elast.
      * apply Z.eqb_eq in Elast. assert (m = 0%nat) as -> by lia.
        eexists _, _, 1%nat. split; [reflexivity|]. split; [lia|].
        split; [|split; [intros; lia|]].
        -- unfold tested. destruct s as [[] ? ? ? ? ?]; cbn.
           rewrite app_nil_r. repeat split; lia.
        -- right. split; [reflexivity|]. split; [lia|]. eauto.
      * apply Z.eqb_neq in Elast.
        unfold bind at 1. unfold Client.on_client, Client.sleep, modify.
        match goal with
        | |- context [Client.health_loop _ _ _ (seq (S a) m) ?s1] =>
            destruct (IH (S a) s1 ltac:(lia)) as (out & s' & k & Erun & Hk & Ht & Hf & Hout)
        end.
        exists out, s', (S k). split; [exact Erun|]. split; [lia|].
        assert (Hfail : forall i, failure_of s (S i)
                  = health_failure invalid_api_key
                      (health (S (Client.health_requests s) + i))).
        { intros i. do 2 f_equal. lia. }
        assert (Hk1 : (1 <= k)%nat).
        { destruct Hout as [[_ [->|[? _]]]|(-> & ? & _)]; lia. }
        split; [|split].
        -- destruct Ht as (Hh & Hc & Hs & Hr & Hp & Hrc).
           unfold tested. cbn in Hh, Hc, Hs, Hr, Hp, Hrc.
           repeat split; try assumption; try lia.
           rewrite Hc. replace (S k - 1)%nat with (S (k - 1)) by lia.
           cbn [seq map]. destruct s as [[] ? ? ? ? ?]; cbn.
           unfold Client.with_sleeps; cbn. f_equal.
           now rewrite <- app_assoc.
        -- intros i Hi. destruct i as [|i]; [rewrite E0; discriminate|].
           rewrite Hfail. apply Hf. lia.
        -- destruct Hout as [[-> [->|[_ Hlast]]]|(-> & Hm & e' & He' & ->)].
           ++ lia.
           ++ left. split; [reflexivity|]. right. split; [lia|].
              replace (S k - 1)%nat with (S (k - 1)) by lia.
              rewrite Hfail. exact Hlast.
           ++ right. split; [reflexivity|]. split; [lia|]. exists e'.
              split; [|reflexivity].
              replace (S m - 1)%nat with (S (m - 1)) by lia.
              rewrite Hfail. exact He'.
    + eexists _, _, 1%nat. split; [reflexivity|]. split; [lia|].
      split; [|split; [intros; lia|]].
      * unfold tested. destruct s as [[] ? ? ? ? ?]; cbn.
        rewrite app_nil_r. repeat split; lia.
      * left. split; [reflexivity|]. right. split; [lia|exact E0].
Qed.

Lemma _test_connection_after_session (s : Client.instance C) :
  exists out s' k,
    Client._test_connection config health invalid_api_key
      (Client.with_session true s) = (out, s') /\
    (k <= budget)%nat /\
    tested (Client.with_session true s) s' k
      (map (Client.retry_sleep config) (seq 0 (k - 1))) /\
    (forall i, (i < k - 1)%nat -> failure_of s i <> None) /\
    ((out = Ret tt /\
      (budget = 0%nat \/ (1 <= k)%nat /\ failure_of s (k - 1) = None)) \/
     (k = budget /\ (1 <= budget)%nat /\
      exists e, failure_of s (budget - 1) = Some e /\ out = Raise e)).
Proof.
  exact (health_loop_trace budget 0%nat (Client.with_session true s) eq_refl).
Qed.

Ltac instance_fields s :=
  destruct s as [[] ? ? ? ? ?]; cbn in *; subst; cbn;
  rewrite ?app_nil_r, ?Nat.add_0_r; auto 10.

(** X25. When every health request of the retry budget fails (a 401
    included: it is retried like any other failure), [_initialize] has
    sent as many health requests as the budget allows, with a sleep after
    each but the last.  With offline mode enabled it then returns with the
    client ready and in offline mode, without calling [on_ready] and
    without starting the polling task; with offline mode disabled it
    raises the exception of the last attempt, the client is not made ready
    and the HTTP session it has opened stays open. *)
Theorem initialize_after_a_failed_connection_test (s : Client.instance C) :
  mode (connection config) <> offline ->
  (1 <= retry_attempts (connection config))%Z ->
  (forall i, (i < budget)%nat -> failure_of s i <> None) ->
  exists e s',
    failure_of s (budget - 1) = Some e /\
    Client._initialize config on_ready health invalid_api_key s
    = (if offline_enabled (offline_cfg config) then Ret tt else Raise e, s') /\
    Client.health_requests s' = (Client.health_requests s + budget)%nat /\
    Client.client s'
    = Client.with_offline_mode
        (offline_enabled (offline_cfg config) || Client._offline_mode (Client.client s))
        (Client.with_sleeps
           (Client.sleeps (Client.client s)
            ++ map (Client.retry_sleep config) (seq 0 (budget - 1)))
           (Client.client s)) /\
    Client._session s' = true /\
    Client._ready s' = offline_enabled (offline_cfg config) || Client._ready s /\
    Client._polling_task s' = Client._polling_task s /\
    Client.ready_calls s' = Client.ready_calls s.
Proof.
  intros Hmode Hb Hfail.
  destruct (_test_connection_after_session s)
    as (out & s1 & k & Erun & Hk & Ht & Hf & Hout).
  destruct Hout as [[_ [H0|[Hk1 Hlast]]]|(-> & _ & e & He & ->)].
  - lia.
  - exfalso. apply (Hfail (k - 1)%nat); [lia|exact Hlast].
  - exists e.
    unfold Client._initialize, try_catch. unfold bind at 1. unfold modify at 1.
    assert (Etest : (match mode (connection config) with
                     | offline => ret tt
                     | _ => Client._test_connection config health invalid_api_key
                     end) (Client.with_session true s) = (Raise e, s1)).
    { destruct (mode (connection config)); [exact Erun..|contradiction]. }
    unfold bind at 1. rewrite Etest.
    destruct Ht as (Hh & Hc & Hs & Hr & Hp & Hrc).
    destruct (offline_enabled (offline_cfg config)).
    + eexists. split; [exact He|]. split; [reflexivity|].
      cbn. rewrite Hh, Hc, Hp, Hrc. instance_fields s.
    + eexists. split; [exact He|]. split; [reflexivity|].
      rewrite Hh, Hc, Hs, Hr, Hp, Hrc. instance_fields s.
Qed.

(** X26. In the connection mode "offline", and in any mode when the retry
    budget is zero or negative, [_initialize] sends no health request: it
    returns with the client ready and its offline flag as it was, calls
    [on_ready] once when the handler is installed, and creates the polling
    task exactly in the mode "polling". *)
Theorem initialize_without_a_health_request (s : Client.instance C) :
  mode (connection config) = offline \/
  (retry_attempts (connection config) <= 0)%Z ->
  exists s',
    Client._initialize config on_ready health invalid_api_key s = (Ret tt, s') /\
    Client.health_requests s' = Client.health_requests s /\
    Client.client s' = Client.client s /\
    Client._session s' = true /\
    Client._ready s' = true /\
    Client._polling_task s'
    = match mode (connection config) with
      | polling => true
      | _ => Client._polling_task s
      end /\
    Client.ready_calls s'
    = if on_ready then S (Client.ready_calls s) else Client.ready_calls s.
Proof.
  intros Hwhy.
  assert (Etest : (match mode (connection config) with
                   | offline => ret tt
                   | _ => Client._test_connection config health invalid_api_key
                   end) (Client.with_session true s)
                  = (Ret tt, Client.with_session true s)).
  { destruct (mode (connection config)) eqn:Em; try reflexivity;
      (destruct Hwhy as [?|Hb]; [discriminate|]);
      unfold Client._test_connection;
      replace budget with 0%nat by lia; reflexivity. }
  unfold Client._initialize, try_catch. unfold bind at 1. unfold modify at 1.
  unfold bind at 1. rewrite Etest.
  destruct (mode (connection config)), on_ready; cbn;
    eexists; (split; [reflexivity|]); instance_fields s.
Qed.

(** X27. When the health endpoint answers 200 within the retry budget,
    after [j] failed attempts, [_initialize] has sent [j + 1] health
    requests and slept after each failure with the delays of the backoff.
    It returns with the client ready and its offline flag as it was, has
    called [on_ready] once when the handler is installed, and has created
    the polling task exactly in the mode "polling". *)
Theorem initialize_is_ready_after_the_first_200 (s : Client.instance C) (j : nat) :
  mode (connection config) <> offline ->
  (j < budget)%nat ->
  (forall i, (i < j)%nat -> failure_of s i <> None) ->
  failure_of s j = None ->
  exists s',
    Client._initialize config on_ready health invalid_api_key s = (Ret tt, s') /\
    Client.health_requests s' = (Client.health_requests s + S j)%nat /\
    Client.client s'
    = Client.with_sleeps
        (Client.sleeps (Client.client s)
         ++ map (Client.retry_sleep config) (seq 0 j))
        (Client.client s) /\
    Client._session s' = true /\
    Client._ready s' = true /\
    Client._polling_task s'
    = match mode (connection config) with
      | polling => true
      | _ => Client._polling_task s
      end /\
    Client.ready_calls s'
    = if on_ready then S (Client.ready_calls s) else Client.ready_calls s.
Proof.
  intros Hmode Hj Hfail Hok.
  destruct (_test_connection_after_session s)
    as (out & s1 & k & Erun & Hk & Ht & Hf & Hout).
  assert (Hkj : out = Ret tt /\ k = S j).
  { destruct Hout as [[-> [H0|[Hk1 Hlast]]]|(-> & Hb & e & He & ->)].
    - lia.
    - split; [reflexivity|].
      destruct (Nat.lt_trichotomy (k - 1) j) as [Hlt|[Heq|Hgt]]; [|lia|].
      + now apply Hfail in Hlt.
      + now apply Hf in Hgt.
    - exfalso. destruct (Nat.eq_dec j (budget - 1)) as [->|Hne].
      + congruence.
      + apply (Hf j); [lia|exact Hok]. }
  destruct Hkj as [-> ->].
  assert (Etest : (match mode (connection config) with
                   | offline => ret tt
                   | _ => Client._test_connection config health invalid_api_key
                   end) (Client.with_session true s) = (Ret tt, s1)).
  { destruct (mode (connection config)); [exact Erun..|contradiction]. }
  unfold Client._initialize, try_catch. unfold bind at 1. unfold modify at 1.
  unfold bind at 1. rewrite Etest.
  destruct Ht as (Hh & Hc & Hs & Hr & Hp & Hrc).
  replace (S j - 1)%nat with j in Hc by lia.
  destruct (mode (connection config)), on_ready; cbn;
    eexists; (split; [reflexivity|]); cbn; rewrite ?Hh, ?Hc, ?Hs, ?Hp, ?Hrc;
    instance_fields s.
Qed.

End StartupProperties.

Lemma initialize_after_a_failed_connection_test_witness :
  exists s',
    Client._initialize (config_with streaming ∅) true (health_always 401)
      (TransportError "Invalid API key") (created (@None MemoryCache.t))
    = (Ret tt, s') /\
    Client.health_requests s' = 3%nat /\
    Client.sleeps (Client.client s') = [1; 2]%Z /\
    Client._offline_mode (Client.client s') = true /\
    Client._ready s' = true /\
    Client.ready_calls s' = 0%nat.
Proof.
  destruct (initialize_after_a_failed_connection_test
              (config_with streaming ∅) true (health_always 401)
              (TransportError "Invalid API key") (created (@None MemoryCache.t))
              ltac:(discriminate) ltac:(cbn; lia)
              ltac:(intros i _; discriminate))
    as (e & s' & _ & Erun & Hh & Hc & _ & Hr & _ & Hrc).
  exists s'. cbn in Erun, Hh, Hc, Hr, Hrc. rewrite Hc.
  repeat split; assumption || reflexivity.
Defined.

Lemma initialize_without_a_health_request_witness :
  exists s',
    Client._initialize (config_with offline ∅) true (health_always 503)
      (TransportError "Invalid API key") (created (@None MemoryCache.t))
    = (Ret tt, s') /\
    Client.health_requests s' = 0%nat /\
    Client._offline_mode (Client.client s') = false /\
    Client.ready_calls s' = 1%nat.
Proof.
  destruct (initialize_without_a_health_request
              (config_with offline ∅) true (health_always 503)
              (TransportError "Invalid API key") (created (@None MemoryCache.t))
              ltac:(left; reflexivity))
    as (s' & Erun & Hh & Hc & _ & _ & _ & Hrc).
  exists s'. cbn in Hh, Hc, Hrc. rewrite Hc.
  repeat split; assumption || reflexivity.
Defined.

Lemma initialize_is_ready_after_the_first_200_witness :
  exists s',
    Client._initialize (config_with polling ∅) false
      (fun n => if (n <? 2)%nat then Client.Response 503 None
                else Client.Response 200 None)
      (TransportError "Invalid API key") (created (@None MemoryCache.t))
    = (Ret tt, s') /\
    Client.health_requests s' = 3%nat /\
    Client.sleeps (Client.client s') = [1; 2]%Z /\
    Client._polling_task s' = true.
Proof.
  destruct (initialize_is_ready_after_the_first_200
              (config_with polling ∅) false
              (fun n => if (n <? 2)%nat then Client.Response 503 None
                        else Client.Response 200 None)
              (TransportError "Invalid API key") (created (@None MemoryCache.t))
              2%nat
              ltac:(discriminate) ltac:(cbn; lia)
              ltac:(intros [|[|i]] Hi; try discriminate; lia)
              eq_refl)
    as (s' & Erun & Hh & Hc & _ & _ & Hp & _).
  exists s'. cbn in Hh, Hc, Hp. rewrite Hc.
  repeat split; assumption || reflexivity.
Defined.

(* ===================================================================== *)
(** * The framework adapters *)
(* ===================================================================== *)

Section Adapters.

Context {C : Type} `{CacheProvider C}.
Variable config : FlexFlagConfig.
Variable clock : nat -> Q.
Variable server : nat -> Client.request -> Client.http_result.
Variable Inv : C -> Prop.
Hypothesis Hresp : responsive Inv.

(** What the adapters need to know of one evaluation. *)
Lemma evaluate_with_details_summary fk ctx dv (s : Client.t C) :
  cache_ok Inv s ->
  exists r s',
    Client.evaluate_with_details config clock server fk ctx dv s = (Ret r, s') /\
    cache_ok Inv s' /\
    offline_now config s' = offline_now config s /\
    (offline_now config s = true ->
     variation r = JNull /\ Client.requests s' = Client.requests s).
Proof.
  intros Hs.
  destruct (evaluate_with_details_cases config clock server Inv Hresp fk ctx dv s Hs)
    as (r & s' & j & Erun & Hok & Hoff & _ & Hrq & _ & Hcase).
  exists r, s'. split; [exact Erun|]. split; [exact Hok|].
  split; [unfold offline_now; now rewrite Hoff|].
  intros Hoffline. rewrite Hoffline in Hcase.
  destruct (is_not_None _).
  - destruct Hcase as (-> & _ & _ & Hv & _). cbn in Hrq.
    rewrite app_nil_r in Hrq. auto.
  - destruct Hcase as (-> & _ & _ & Hv & _). cbn in Hrq.
    rewrite app_nil_r in Hrq. auto.
Qed.

Lemma evaluate_returns fk ctx dv (s : Client.t C) :
  cache_ok Inv s ->
  exists v s',
    Client.evaluate config clock server fk ctx dv s = (Ret v, s') /\
    cache_ok Inv s'.
Proof.
  intros Hs.
  destruct (evaluate_with_details_summary fk ctx dv s Hs)
    as (r & s' & Erun & Hok & _).
  exists (value r), s'. split; [|exact Hok].
  unfold Client.evaluate, bind. now rewrite Erun.
Qed.

(** X28. The dependency of a required flag never answers 403.  When the
    flag evaluates to a falsy value, the 403 it raises is caught by its own
    [except Exception] and replaced by a 500 whose detail quotes the 403;
    a truthy value is returned as it is.  A flag that is not required is
    returned as evaluated, falsy or not. *)
Theorem required_flag_that_is_off_answers_500
    (str : FastAPI.HTTPException + exn -> string)
    (flag_key : string) (default_value : json) (required : bool)
    (context : EvaluationContext) (s : Client.t C) :
  cache_ok Inv s ->
  exists v s',
    Client.evaluate config clock server flag_key (Some context) default_value s
    = (Ret v, s') /\
    FastAPI.feature_flag_dependency config clock server str
      flag_key default_value required context s
    = (Ret (if required && negb (truthy v)
            then inl {| FastAPI.status_code := 500;
                        FastAPI.detail :=
                          "Failed to evaluate feature flag: "
                          +:+ str (inl {| FastAPI.status_code := 403;
                                          FastAPI.detail :=
                                            "Feature '" +:+ flag_key
                                            +:+ "' is not enabled" |}) |}
            else inr v), s').
Proof.
  intros Hs.
  destruct (evaluate_returns flag_key (Some context) default_value s Hs)
    as (v & s' & Erun & _).
  exists v, s'. split; [exact Erun|].
  unfold FastAPI.feature_flag_dependency, try_except, bind. rewrite Erun.
  destruct required; cbn; [|reflexivity].
  destruct (truthy v); reflexivity.
Qed.

(** X29. The wrapper of [require_feature_flag] around a Django view, when
    the middleware has set the client on the request: the flag is
    evaluated, and never raises.  A falsy value gives the redirect.  With
    a truthy value the view runs inside the [try] of the wrapper, so an
    exception of the view is caught there: with [default_enabled] the view
    is run a second time, from the state its first run has left;
    otherwise the caller gets the redirect and the exception is lost. *)
Theorem flag_wrapper_catches_the_exception_of_the_view
    {V A : Type} (flag_key : string) (default_enabled : bool)
    (redirect_url : string)
    (view_func : Django.request -> M (Client.t C * V) A)
    (request : Django.request) (w : Client.t C * V) :
  Django.flexflag request = true ->
  cache_ok Inv (fst w) ->
  exists v c',
    Client.evaluate config clock server flag_key
      (Django.flag_context request) (JBool default_enabled) (fst w)
    = (Ret v, c') /\
    Django.require_feature_flag config clock server flag_key default_enabled
      redirect_url view_func request w
    = if truthy v then
        match view_func request (c', snd w) with
        | (Ret a, w1) => (Ret (inr a), w1)
        | (Raise e, w1) =>
            if default_enabled
            then (let* a := view_func request in ret (inr a)) w1
            else (Ret (inl (Django.Redirect redirect_url)), w1)
        | (Block, w1) => (Block, w1)
        end
      else (Ret (inl (Django.Redirect redirect_url)), (c', snd w)).
Proof.
  intros Hflex Hs.
  destruct (evaluate_returns flag_key (Django.flag_context request)
              (JBool default_enabled) (fst w) Hs) as (v & c' & Erun & _).
  exists v, c'. split; [exact Erun|].
  unfold Django.require_feature_flag. rewrite Hflex. cbn [negb].
  unfold try_catch. unfold bind at 1. unfold Django.run_until_complete.
  rewrite Erun. destruct (truthy v); [|reflexivity].
  unfold bind at 1.
  destruct (view_func request (c', snd w)) as [[a|e|] w1];
    [reflexivity|now destruct default_enabled|reflexivity].
Qed.

Lemma experiments_from_trace flags context :
  forall acc (s : Client.t C),
    cache_ok Inv s ->
    exists res s',
      FastAPI.experiments_from config clock server flags context acc s
      = (Ret res, s') /\
      cache_ok Inv s' /\
      (forall k v, res !! k = Some v ->
                   acc !! k = Some v \/ (k ∈ flags /\ truthy v = true)) /\
      (forall k, k ∉ flags -> res !! k = acc !! k) /\
      (offline_now config s = true ->
       res = acc /\ Client.requests s' = Client.requests s).
Proof.
  induction flags as [|fk flags IH]; intros acc s Hs.
  - exists acc, s. cbn. split; [reflexivity|]. split; [exact Hs|]. auto.
  - cbn [FastAPI.experiments_from]. unfold bind at 1.
    unfold Client.get_variation, bind at 1.
    destruct (evaluate_with_details_summary fk (Some context) JNull s Hs)
      as (r & s1 & Erun & Hs1 & Hoff1 & Hoffline).
    rewrite Erun. cbn [ret].
    destruct (IH (if truthy (variation r) then <[fk := variation r]> acc else acc)
                s1 Hs1) as (res & s' & Eloop & Hs' & Hres & Hout & Hoffline').
    exists res, s'. split; [exact Eloop|]. split; [exact Hs'|].
    split; [|split].
    + intros k v Hk. destruct (Hres k v Hk) as [Hacc|[Hin Ht]].
      * destruct (truthy (variation r)) eqn:Et; [|now left].
        destruct (decide (k = fk)) as [->|Hne].
        -- rewrite lookup_insert_eq in Hacc. injection Hacc as <-.
           right. split; [left|exact Et].
        -- rewrite lookup_insert_ne in Hacc by congruence. now left.
      * right. split; [now right|exact Ht].
    + intros k Hk. apply not_elem_of_cons in Hk as [Hne Hk].
      rewrite (Hout k Hk). destruct (truthy (variation r)); [|reflexivity].
      now rewrite lookup_insert_ne by congruence.
    + intros Hoff. destruct (Hoffline Hoff) as [Hv Hrq].
      rewrite Hoff1 in Hoffline'. destruct (Hoffline' Hoff) as [-> Hrq'].
      rewrite Hv. cbn. split; [reflexivity|congruence].
Qed.

(** X30. [get_user_experiments] returns, and every entry of its result is
    one of the flags asked for, with a truthy variation.  While the client
    is offline the result is empty and no request is sent: the experiments
    of a user are not kept by the cache nor by the default flags. *)
Theorem user_experiments_are_empty_offline
    (experiment_flags : list string) (context : EvaluationContext)
    (s : Client.t C) :
  cache_ok Inv s ->
  exists res s',
    FastAPI.get_user_experiments config clock server experiment_flags context s
    = (Ret res, s') /\
    (forall k v, res !! k = Some v -> k ∈ experiment_flags /\ truthy v = true) /\
    (offline_now config s = true ->
     res = ∅ /\ Client.requests s' = Client.requests s).
Proof.
  intros Hs.
  destruct (experiments_from_trace experiment_flags context ∅ s Hs)
    as (res & s' & Erun & _ & Hres & _ & Hoff).
  exists res, s'. split; [exact Erun|]. split; [|exact Hoff].
  intros k v Hk. destruct (Hres k v Hk) as [Hacc|?]; [|assumption].
  rewrite lookup_empty in Hacc. discriminate.
Qed.

End Adapters.

Lemma required_flag_that_is_off_answers_500_witness :
  exists s',
    FastAPI.feature_flag_dependency (config_with streaming ∅) clock10
      (answers (JDict [("value", JBool false)]))
      (fun e => match e with
                | inl h => FastAPI.detail h
                | inr _ => "error"
                end)
      "beta" (JBool false) true ctx_a (fresh (Some (memory ∅)))
    = (Ret (inl {| FastAPI.status_code := 500;
                   FastAPI.detail :=
                     "Failed to evaluate feature flag: Feature 'beta' is not enabled" |}),
       s').
Proof.
  destruct (required_flag_that_is_off_answers_500
              (config_with streaming ∅) clock10
              (answers (JDict [("value", JBool false)]))
              (fun c : MemoryCache.t => MemoryCache._lock c = false)
              MemoryCache_responsive
              (fun e => match e with
                        | inl h => FastAPI.detail h
                        | inr _ => "error"
                        end)
              "beta" (JBool false) true ctx_a (fresh (Some (memory ∅)))
              eq_refl)
    as (v & s' & Erun & Edep).
  exists s'. rewrite Edep.
  assert (Ev : v = JBool false).
  { apply (f_equal fst) in Erun. vm_compute in Erun. now injection Erun as <-. }
  rewrite Ev. reflexivity.
Defined.

Lemma flag_wrapper_catches_the_exception_of_the_view_witness :
  exists c',
    Django.require_feature_flag (config_with streaming ∅) clock10
      (answers (JDict [("value", JBool true)]))
      "beta" true "/"
      (fun _ w => (@Raise string (CacheError "boom"), (fst w, S (snd w))))
      {| Django.flexflag := true; Django.flag_context := None |}
      (fresh (Some (memory ∅)), 0%nat)
    = (Raise (CacheError "boom"), (c', 2%nat)).
Proof.
  destruct (flag_wrapper_catches_the_exception_of_the_view
              (config_with streaming ∅) clock10
              (answers (JDict [("value", JBool true)]))
              (fun c : MemoryCache.t => MemoryCache._lock c = false)
              MemoryCache_responsive
              "beta" true "/"
              (fun _ w => (@Raise string (CacheError "boom"), (fst w, S (snd w))))
              {| Django.flexflag := true; Django.flag_context := None |}
              (fresh (Some (memory ∅)), 0%nat)
              eq_refl eq_refl)
    as (v & c' & Erun & Ewrap).
  exists c'. rewrite Ewrap.
  assert (Ev : v = JBool true).
  { apply (f_equal fst) in Erun. vm_compute in Erun. now injection Erun as <-. }
  rewrite Ev. reflexivity.
Defined.

Lemma user_experiments_are_empty_offline_witness :
  exists s',
    FastAPI.get_user_experiments (config_with offline ∅) clock10
      (answers (JDict [("value", JBool true); ("variation", JStr "B")]))
      ["exp-a"; "exp-b"] ctx_a (fresh (Some (memory ∅)))
    = (Ret ∅, s') /\
    Client.requests s' = [].
Proof.
  destruct (user_experiments_are_empty_offline
              (config_with offline ∅) clock10
              (answers (JDict [("value", JBool true); ("variation", JStr "B")]))
              (fun c : MemoryCache.t => MemoryCache._lock c = false)
              MemoryCache_responsive
              ["exp-a"; "exp-b"] ctx_a (fresh (Some (memory ∅)))
              eq_refl)
    as (res & s' & Erun & _ & Hoff).
  destruct (Hoff eq_refl) as [Hres Hrq].
  exists s'. rewrite Hres in Erun. split; [exact Erun|exact Hrq].
Defined.
